(** * Stock-Data-Scraper: the ingestion and normalisation pipeline

    A shallow embedding of [stock_scraper/data_processor.py] (the
    [DataProcessor] class) and of the batch loop of
    [stock_scraper/scraper.py] ([StockScraper.scrape_multiple_stocks]),
    followed by the properties of the specification that concern them
    and by further properties of the code: the results and exceptions
    of the cleaners, the shape of the frame through the steps, the
    records of the scraper, the symbols typed by the user ([main.py],
    [stock_scraper/scheduler.py]) and the distribution of the
    performance ([stock_scraper/analyzer.py]).

    Conventions of the embedding.
    - Python floats are IEEE binary64 values, taken from the executable
      specification [SpecFloat] of the library (precision 53, exponent
      bound 1024, round to nearest even).  A NaN is the null of a float
      column, as in pandas.
    - Python [str] is [string], the bytes of the UTF-8 encoding of the
      text.  The patterns of [re] and [float()] read its code points
      ([Unicode]): [\d] is a decimal digit of any script, and [float()]
      reads such digits and skips the blanks of Unicode.  [str.upper]
      and [str.strip] are embedded on ASCII letters and ASCII blanks
      only.
    - Python [int] is [Z]; the 64-bit range of pandas' integer columns
      is checked where the pipeline converts to them
      ([astype('Int64')]).
    - An exception is a value of [exn]; code that may raise returns a
      [result], and [try ... except] is a match on it.
    - A dictionary is a [gmap string pyval]; a data frame is a row count
      and a [gmap] from column names to columns, each column a dtype and
      a list of cells.  The functions of pandas the pipeline calls are
      modelled in [Pandas] as far as the pipeline exercises them; the
      readers of text it never reaches (numbers and dates written in
      strings, [str] of a number) are parameters.
    - The network, the clock and the file system are parameters: the
      scraper threads a [World] through its requests, [process_data]
      takes the reader of files. *)

From Stdlib Require Import ZArith String Ascii List Bool Lia.
From Stdlib Require Import Floats.
From stdpp Require Import base option list gmap strings sorting.

Set Warnings "-inexact-float".
Local Open Scope string_scope.
Local Open Scope Z_scope.

(** ** IEEE binary64 *)

Module Float64.

Definition prec : Z := 53.
Definition emax : Z := 1024.

Definition add : spec_float -> spec_float -> spec_float := SFadd prec emax.
Definition sub : spec_float -> spec_float -> spec_float := SFsub prec emax.
Definition mul : spec_float -> spec_float -> spec_float := SFmul prec emax.
Definition div : spec_float -> spec_float -> spec_float := SFdiv prec emax.

(** [a > b] on floats: false as soon as one side is a NaN. *)
Definition gtb (a b : spec_float) : bool := SFltb b a.

Definition is_nan (x : spec_float) : bool :=
  match x with S754_nan => true | _ => false end.

Definition is_inf (x : spec_float) : bool :=
  match x with S754_infinity _ => true | _ => false end.

Definition is_zero (x : spec_float) : bool :=
  match x with S754_zero _ => true | _ => false end.

(** The float nearest to an integer ([float(n)] when it does not
    overflow). *)
Definition of_Z (z : Z) : spec_float := binary_normalize prec emax z 0 false.

(** The float nearest to [(-1)^neg * m * 10^e10], the value of a decimal
    literal.  For a negative exponent the quotient [m / 10^(-e10)] is
    rounded once, by the division of the specification. *)
Definition of_decimal (neg : bool) (m : Z) (e10 : Z) : spec_float :=
  match m with
  | Zpos p =>
      if 0 <=? e10 then
        binary_normalize prec emax (if neg then - (m * 10 ^ e10) else m * 10 ^ e10) 0 false
      else
        div (S754_finite neg p 0) (S754_finite false (Z.to_pos (10 ^ (- e10))) 0)
  | _ => S754_zero neg
  end.

(** Truncation toward zero of a finite float ([None] on NaN and on the
    infinities). *)
Definition trunc (x : spec_float) : option Z :=
  match x with
  | S754_zero _ => Some 0
  | S754_finite s m e =>
      let a := if 0 <=? e then Z.pos m * 2 ^ e else Z.pos m / 2 ^ (- e) in
      Some (if s then - a else a)
  | _ => None
  end.

End Float64.

#[global] Instance spec_float_eq_dec : EqDecision spec_float.
Proof. solve_decision. Defined.

(** ** Python values, exceptions *)

Inductive exn : Type :=
  | ValueError
  | OverflowError
  | TypeError
  | KeyError
  | IOError.

Inductive result (A : Type) : Type :=
  | Ok (a : A)
  | Raise (e : exn).
Arguments Ok {A} a.
Arguments Raise {A} e.

#[global] Instance result_bind : MBind result :=
  fun A B (k : A -> result B) (r : result A) =>
    match r with
    | Ok a => k a
    | Raise e => Raise e
    end.

#[global] Instance result_ret : MRet result := fun A a => Ok a.

(** A scalar held in a dictionary or in a cell of a column.  [PNone]
    stands for Python's [None] and for pandas' [NA]/[NaT]; a missing float
    is [PFloat S754_nan]. *)
Inductive pyval : Type :=
  | PNone
  | PFloat (x : spec_float)
  | PInt (z : Z)
  | PStr (s : string)
  | PTime (t : Z).

#[global] Instance exn_eq_dec : EqDecision exn.
Proof. solve_decision. Defined.

#[global] Instance pyval_eq_dec : EqDecision pyval.
Proof. solve_decision. Defined.

#[global] Instance result_eq_dec {A} `{EqDecision A} : EqDecision (result A).
Proof. solve_decision. Defined.

(** [pd.isna] on a scalar. *)
Definition isna (v : pyval) : bool :=
  match v with
  | PNone => true
  | PFloat x => Float64.is_nan x
  | _ => false
  end.

(** ** Unicode: the characters of a text

    A text is held as the bytes of its UTF-8 encoding, a character
    being one code point.  The classes of characters are those of the
    Unicode database 14.0, the one of CPython 3.11. *)

Module Unicode.

Local Open Scope N_scope.

(** The payload of a continuation byte [10xxxxxx]. *)
Definition continuation (a : ascii) : option N :=
  let b := N_of_ascii a in
  if (128 <=? b) && (b <? 192) then Some (b - 128) else None.

Definition is_surrogate (c : N) : bool := (0xD800 <=? c) && (c <? 0xE000).

(** The code points a text may hold. *)
Definition is_scalar (c : N) : bool := (c <? 0x110000) && negb (is_surrogate c).

(** The code points of a text.  A sequence of one to four bytes is
    read when it is well formed (shortest form, no surrogate, at most
    U+10FFFF); a byte that begins no such sequence stands for no
    character of a text and is read as the lone surrogate that
    [errors='surrogateescape'] makes of it. *)
Fixpoint decode (s : string) : list N :=
  match s with
  | EmptyString => []
  | String a0 r0 =>
      let b0 := N_of_ascii a0 in
      let stray := (0xDC00 + b0) :: decode r0 in
      if b0 <? 128 then b0 :: decode r0
      else
        match r0 with
        | String a1 r1 =>
            match continuation a1 with
            | Some c1 =>
                if b0 <? 224 then
                  let c := (b0 - 192) * 64 + c1 in
                  if (192 <=? b0) && (128 <=? c) then c :: decode r1 else stray
                else
                  match r1 with
                  | String a2 r2 =>
                      match continuation a2 with
                      | Some c2 =>
                          if b0 <? 240 then
                            let c := ((b0 - 224) * 64 + c1) * 64 + c2 in
                            if (2048 <=? c) && negb (is_surrogate c)
                            then c :: decode r2 else stray
                          else
                            match r2 with
                            | String a3 r3 =>
                                match continuation a3 with
                                | Some c3 =>
                                    let c := (((b0 - 240) * 64 + c1) * 64 + c2) * 64 + c3 in
                                    if (b0 <? 248) && (0x10000 <=? c) && (c <? 0x110000)
                                    then c :: decode r3 else stray
                                | None => stray
                                end
                            | EmptyString => stray
                            end
                      | None => stray
                      end
                  | EmptyString => stray
                  end
            | None => stray
            end
        | EmptyString => stray
        end
  end.

(** The bytes of one character. *)
Definition encode_char (c : N) : string :=
  if c <? 128 then String (ascii_of_N c) EmptyString
  else if c <? 2048 then
    String (ascii_of_N (192 + c / 64)) (String (ascii_of_N (128 + c mod 64)) EmptyString)
  else if c <? 0x10000 then
    String (ascii_of_N (224 + c / 4096))
      (String (ascii_of_N (128 + (c / 64) mod 64))
         (String (ascii_of_N (128 + c mod 64)) EmptyString))
  else
    String (ascii_of_N (240 + c / 262144))
      (String (ascii_of_N (128 + (c / 4096) mod 64))
         (String (ascii_of_N (128 + (c / 64) mod 64))
            (String (ascii_of_N (128 + c mod 64)) EmptyString))).

(** The text made of the given characters. *)
Fixpoint encode (l : list N) : string :=
  match l with
  | [] => EmptyString
  | c :: r => (encode_char c ++ encode r)%string
  end.

(** The decimal digits (category Nd) come in runs of ten, from the
    digit zero to the digit nine of a script: the zero of every run. *)
Definition decimal_zeros : list N :=
  [ 0x30; 0x660; 0x6F0; 0x7C0; 0x966; 0x9E6; 0xA66; 0xAE6;
    0xB66; 0xBE6; 0xC66; 0xCE6; 0xD66; 0xDE6; 0xE50; 0xED0;
    0xF20; 0x1040; 0x1090; 0x17E0; 0x1810; 0x1946; 0x19D0; 0x1A80;
    0x1A90; 0x1B50; 0x1BB0; 0x1C40; 0x1C50; 0xA620; 0xA8D0; 0xA900;
    0xA9D0; 0xA9F0; 0xAA50; 0xABF0; 0xFF10; 0x104A0; 0x10D30; 0x11066;
    0x110F0; 0x11136; 0x111D0; 0x112F0; 0x11450; 0x114D0; 0x11650; 0x116C0;
    0x11730; 0x118E0; 0x11950; 0x11C50; 0x11D50; 0x11DA0; 0x16A60; 0x16AC0;
    0x16B50; 0x1D7CE; 0x1D7D8; 0x1D7E2; 0x1D7EC; 0x1D7F6; 0x1E140; 0x1E2F0;
    0x1E950; 0x1FBF0 ].

(** [Py_UNICODE_TODECIMAL]: the value of a decimal digit. *)
Definition to_decimal (c : N) : option N :=
  match List.find (fun zero => (zero <=? c) && (c <? zero + 10)) decimal_zeros with
  | Some zero => Some (c - zero)
  | None => None
  end.

(** [Py_UNICODE_ISDECIMAL], the class [\d] of a pattern on [str]. *)
Definition is_decimal (c : N) : bool :=
  match to_decimal c with
  | Some _ => true
  | None => false
  end.

(** [Py_UNICODE_ISSPACE] *)
Definition is_space (c : N) : bool :=
  ((9 <=? c) && (c <=? 13)) || ((28 <=? c) && (c <=? 32))
  || (c =? 0x85) || (c =? 0xA0) || (c =? 0x1680)
  || ((0x2000 <=? c) && (c <=? 0x200A))
  || (c =? 0x2028) || (c =? 0x2029) || (c =? 0x202F) || (c =? 0x205F) || (c =? 0x3000).

End Unicode.

(** ** Python string primitives *)

Module Py.

Definition code (a : ascii) : N := N_of_ascii a.

Definition is_digit (a : ascii) : bool :=
  ((48 <=? code a) && (code a <=? 57))%N.

Definition digit_val (a : ascii) : Z := Z.of_N (code a) - 48.

(** [Py_ISSPACE]: the blanks [float()] skips at both ends. *)
Definition is_c_space (a : ascii) : bool :=
  (((9 <=? code a) && (code a <=? 13)) || (code a =? 32))%N.

(** [str.isspace] on ASCII: the blanks [str.strip()] removes. *)
Definition is_space (a : ascii) : bool :=
  (is_c_space a || ((28 <=? code a) && (code a <=? 31)))%N.

Definition upper_char (a : ascii) : ascii :=
  if ((97 <=? code a) && (code a <=? 122))%N
  then ascii_of_N (code a - 32) else a.

Fixpoint map_str (f : ascii -> ascii) (s : string) : string :=
  match s with
  | EmptyString => EmptyString
  | String a r => String (f a) (map_str f r)
  end.

Fixpoint filter_str (p : ascii -> bool) (s : string) : string :=
  match s with
  | EmptyString => EmptyString
  | String a r => if p a then String a (filter_str p r) else filter_str p r
  end.

(** [c in s] for a one-character [c]. *)
Fixpoint contains (c : ascii) (s : string) : bool :=
  match s with
  | EmptyString => false
  | String a r => Ascii.eqb a c || contains c r
  end.

(** [s.upper()]: the letters [a-z] are changed, no other character. *)
Definition upper (s : string) : string := map_str upper_char s.

(** [s.replace(c, '')] for a one-character [c]. *)
Definition remove_char (c : ascii) (s : string) : string :=
  filter_str (fun a => negb (Ascii.eqb a c)) s.

Fixpoint lstrip_by (p : ascii -> bool) (s : string) : string :=
  match s with
  | EmptyString => EmptyString
  | String a r => if p a then lstrip_by p r else s
  end.

Fixpoint rstrip_by (p : ascii -> bool) (s : string) : string :=
  match s with
  | EmptyString => EmptyString
  | String a r =>
      match rstrip_by p r with
      | EmptyString => if p a then EmptyString else String a EmptyString
      | r' => String a r'
      end
  end.

(** [s.strip()]: the ASCII blanks are removed at both ends. *)
Definition strip (s : string) : string := rstrip_by is_space (lstrip_by is_space s).

(** [re.sub(r'\([^)]*\)', '', s)]: every parenthesised segment, from an
    opening parenthesis to the first closing one after it, is removed.
    [inside] tells whether a segment is being skipped. *)
Fixpoint sub_parens_from (inside : bool) (s : string) : string :=
  match s with
  | EmptyString => EmptyString
  | String a r =>
      if inside then
        if Ascii.eqb a ")" then sub_parens_from false r else sub_parens_from true r
      else if Ascii.eqb a "(" && contains ")" r then sub_parens_from true r
      else String a (sub_parens_from false r)
  end.

Definition sub_parens (s : string) : string := sub_parens_from false s.

(** [sub in s] for a text [sub]. *)
Fixpoint has_substring (sub s : string) : bool :=
  String.prefix sub s ||
  match s with
  | EmptyString => false
  | String _ r => has_substring sub r
  end.

(** [s.split(c)[0]]: what comes before the first [c]. *)
Fixpoint before_char (c : ascii) (s : string) : string :=
  match s with
  | EmptyString => EmptyString
  | String a r => if Ascii.eqb a c then EmptyString else String a (before_char c r)
  end.

(** *** [float(s)] *)

Definition lower_char (a : ascii) : ascii :=
  if ((65 <=? code a) && (code a <=? 90))%N
  then ascii_of_N (code a + 32) else a.

(** The longest prefix of decimal digits, and what follows it. *)
Fixpoint span_digits (s : string) : string * string :=
  match s with
  | EmptyString => (EmptyString, EmptyString)
  | String a r =>
      if is_digit a then
        let '(d, t) := span_digits r in (String a d, t)
      else (EmptyString, s)
  end.

Fixpoint digits_value_from (acc : Z) (s : string) : Z :=
  match s with
  | EmptyString => acc
  | String a r => digits_value_from (10 * acc + digit_val a) r
  end.

(** The number written by a string of decimal digits. *)
Definition digits_value (s : string) : Z := digits_value_from 0 s.

Definition split_sign (s : string) : bool * string :=
  match s with
  | String a r =>
      if Ascii.eqb a "-" then (true, r)
      else if Ascii.eqb a "+" then (false, r)
      else (false, s)
  | EmptyString => (false, s)
  end.

(** What may follow the mantissa: nothing, or [e], an optional sign and
    at least one digit, up to the end of the text. *)
Definition parse_exponent (s : string) : option Z :=
  match s with
  | EmptyString => Some 0
  | String a r =>
      if Ascii.eqb a "e" || Ascii.eqb a "E" then
        let '(neg, r1) := split_sign r in
        match span_digits r1 with
        | (String _ _ as d, EmptyString) =>
            Some (if neg then - digits_value d else digits_value d)
        | _ => None
        end
      else None
  end.

(** A decimal literal: sign, digits with an optional point (a digit on
    one side of it at least), optional exponent; the whole text. *)
Definition parse_decimal (s : string) : option spec_float :=
  let '(neg, r) := split_sign s in
  let '(ip, r1) := span_digits r in
  let '(fp, r2) :=
    match r1 with
    | String a t => if Ascii.eqb a "." then span_digits t else (EmptyString, r1)
    | EmptyString => (EmptyString, r1)
    end in
  match (ip ++ fp)%string with
  | EmptyString => None
  | ds =>
      match parse_exponent r2 with
      | Some e =>
          Some (Float64.of_decimal neg (digits_value ds) (e - Z.of_nat (String.length fp)))
      | None => None
      end
  end.

(** [inf], [infinity] and [nan], in any letter case, after an optional
    sign. *)
Definition parse_inf_nan (s : string) : option spec_float :=
  let '(neg, r) := split_sign s in
  let l := map_str lower_char r in
  if String.eqb l "inf" || String.eqb l "infinity" then Some (S754_infinity neg)
  else if String.eqb l "nan" then Some S754_nan
  else None.

(** Underscores are accepted between two digits only, and dropped. *)
Fixpoint strip_underscores_from (prev : ascii) (s : string) : option string :=
  match s with
  | EmptyString => if Ascii.eqb prev "_" then None else Some EmptyString
  | String a r =>
      if Ascii.eqb a "_" then
        if is_digit prev then strip_underscores_from a r else None
      else if Ascii.eqb prev "_" && negb (is_digit a) then None
      else String a <$> strip_underscores_from a r
  end.

Definition strip_underscores (s : string) : option string :=
  strip_underscores_from "000" s.

(** The number written by an ASCII text: the blanks at both ends are
    skipped, the underscores checked, and the rest is a decimal literal,
    an infinity or a NaN. *)
Definition float_of_ascii (s : string) : option spec_float :=
  u ← strip_underscores (rstrip_by is_c_space (lstrip_by is_c_space s));
  match parse_decimal u with
  | Some x => Some x
  | None => parse_inf_nan u
  end.

(** What [float()] makes of the characters of a text before it reads
    them: a character below U+007F stays, a blank of Unicode becomes a
    space and a decimal digit of any script the ASCII digit of its
    value; at any other character the text ends with a question mark,
    which no number holds. *)
Fixpoint to_ascii (l : list N) : string :=
  match l with
  | [] => EmptyString
  | c :: r =>
      if (c <? 127)%N then String (ascii_of_N c) (to_ascii r)
      else if Unicode.is_space c then String " " (to_ascii r)
      else match Unicode.to_decimal c with
           | Some d => String (ascii_of_N (48 + d)) (to_ascii r)
           | None => "?"
           end
  end.

(** [float(s)] on a string; [None] is [ValueError]. *)
Definition float_of_str (s : string) : option spec_float :=
  float_of_ascii (to_ascii (Unicode.decode s)).

(** [re.sub('[^...]', '', s)]: the characters outside the class [keep]
    are removed. *)
Definition re_sub_outside (keep : N -> bool) (s : string) : string :=
  Unicode.encode (List.filter keep (Unicode.decode s)).

(** [float(n)] on an integer. *)
Definition float_of_int (z : Z) : result spec_float :=
  let x := Float64.of_Z z in
  if Float64.is_inf x then Raise OverflowError else Ok x.

(** [int(x)] on a float. *)
Definition int_of_float (x : spec_float) : result Z :=
  match Float64.trunc x with
  | Some z => Ok z
  | None => if Float64.is_nan x then Raise ValueError else Raise OverflowError
  end.

End Py.

(** ** The part of pandas the pipeline uses

    A column ([Series]) is a list of cells with the dtype pandas gives it;
    a [DataFrame] is its row count and its columns by name (the order of
    the columns plays no role in the pipeline and is not kept). *)

Module Pandas.

Inductive dtype : Type :=
  | Float64          (* float64, missing = NaN *)
  | Int64            (* int64, no missing value *)
  | NullableInt64    (* the extension dtype 'Int64', missing = NA *)
  | Object           (* Python objects: str, None, numbers *)
  | Datetime64.      (* datetime64[ns], missing = NaT *)

Record Series : Type := mkSeries { dtype_of : dtype; values : list pyval }.

Record DataFrame : Type := mkFrame { nrows : nat; columns : gmap string Series }.

#[global] Instance dtype_eq_dec : EqDecision dtype.
Proof. solve_decision. Defined.

#[global] Instance Series_eq_dec : EqDecision Series.
Proof. solve_decision. Defined.

(** Every column has one cell per row. *)
Definition wf (df : DataFrame) : Prop :=
  forall c s, columns df !! c = Some s -> length (values s) = nrows df.

(** [df.empty] *)
Definition empty (df : DataFrame) : bool :=
  (nrows df =? 0)%nat || bool_decide (columns df = ∅).

(** [col in df.columns] *)
Definition has_column (col : string) (df : DataFrame) : bool :=
  bool_decide (is_Some (columns df !! col)).

(** [df[col]]; [KeyError] when there is no such column. *)
Definition get_col (col : string) (df : DataFrame) : result Series :=
  match columns df !! col with
  | Some s => Ok s
  | None => Raise KeyError
  end.

(** [df[col] = s] *)
Definition set_col (col : string) (s : Series) (df : DataFrame) : DataFrame :=
  mkFrame (nrows df) (<[col := s]> (columns df)).

(** [if col in df.columns: df[col] = f(df[col])] *)
Definition update_col (col : string) (f : Series -> result Series) (df : DataFrame)
  : result DataFrame :=
  match columns df !! col with
  | Some s => s' ← f s; Ok (set_col col s' df)
  | None => Ok df
  end.

(** [select_dtypes(include=[np.number])] keeps these dtypes. *)
Definition is_number (d : dtype) : bool :=
  match d with
  | Float64 | Int64 | NullableInt64 => true
  | Object | Datetime64 => false
  end.

(** A numeric cell read as a float; a missing one is a NaN. *)
Definition to_float (v : pyval) : spec_float :=
  match v with
  | PFloat x => x
  | PInt z => Float64.of_Z z
  | _ => S754_nan
  end.

Definition is_none (v : pyval) : bool :=
  match v with PNone => true | _ => false end.

Definition is_int (v : pyval) : bool :=
  match v with PInt _ => true | _ => false end.

Definition is_number_val (v : pyval) : bool :=
  match v with PNone | PFloat _ | PInt _ => true | _ => false end.

(** *** Row selection by a boolean mask: [df[mask]] *)

Fixpoint select_mask {A : Type} (mask : list bool) (l : list A) : list A :=
  match mask, l with
  | b :: m, x :: r => if b then x :: select_mask m r else select_mask m r
  | _, _ => []
  end.

(** [s.isna()] *)
Definition isna_mask (s : Series) : list bool := map isna (values s).

(** The mask, cut to the rows of the frame. *)
Definition mask_rows (n : nat) (mask : list bool) : nat :=
  length (select_mask mask (replicate n tt)).

Definition boolean_index (mask : list bool) (df : DataFrame) : DataFrame :=
  mkFrame (mask_rows (nrows df) mask)
          ((fun s => mkSeries (dtype_of s) (select_mask mask (values s))) <$> columns df).

(** *** [Series.apply] *)

Fixpoint mapM {A B : Type} (f : A -> result B) (l : list A) : result (list B) :=
  match l with
  | [] => Ok []
  | a :: r => b ← f a; bs ← mapM f r; Ok (b :: bs)
  end.

(** The dtype pandas infers for a list of Python objects: [object] when
    a string or a timestamp occurs or when there is nothing but [None];
    [int64] for integers only; otherwise [float64], the [None]s turned
    into NaN and the integers into floats. *)
Definition infer_objects (l : list pyval) : Series :=
  if negb (forallb is_number_val l) then mkSeries Object l
  else if forallb is_none l then mkSeries Object l
  else if forallb is_int l then mkSeries Int64 l
  else mkSeries Float64 (map (fun v => PFloat (to_float v)) l).

(** The column [s.apply(f)] makes of the results [l] of [f] on the
    cells of [s]: a column without rows is returned with the dtype it
    has, and otherwise the dtype is inferred from the results. *)
Definition applied (s : Series) (l : list pyval) : Series :=
  match values s with
  | [] => mkSeries (dtype_of s) []
  | _ => infer_objects l
  end.

(** [s.apply(f)]: [f] on every cell in row order, the first exception
    propagating. *)
Definition apply (f : pyval -> result pyval) (s : Series) : result Series :=
  l ← mapM f (values s); Ok (applied s l).

(** *** Filling missing values *)

(** [s.fillna(method='ffill')]: a missing cell takes the last value that
    is not missing above it, and stays as it is when there is none. *)
Fixpoint ffill_from (last : option pyval) (l : list pyval) : list pyval :=
  match l with
  | [] => []
  | v :: r =>
      if isna v then
        match last with
        | Some w => w :: ffill_from last r
        | None => v :: ffill_from last r
        end
      else v :: ffill_from (Some v) r
  end.

Definition ffill (s : Series) : Series :=
  mkSeries (dtype_of s) (ffill_from None (values s)).

(** An integral float as an integer. *)
Definition exact_int (x : spec_float) : option Z :=
  match x with
  | S754_zero _ => Some 0
  | S754_finite s m e =>
      if (0 <=? e) || (Z.pos m mod 2 ^ (- e) =? 0) then Float64.trunc x else None
  | _ => None
  end.

(** [s.fillna(x)] for a float [x].  A float column takes [x] itself; an
    [int64] column has nothing to fill; a nullable integer column
    accepts an integral [x] only ([TypeError] otherwise) and is left
    alone when [x] is missing too or when it has no missing cell. *)
Definition fillna_value (x : spec_float) (s : Series) : result Series :=
  match dtype_of s with
  | Int64 => Ok s
  | NullableInt64 =>
      if negb (existsb isna (values s)) || Float64.is_nan x then Ok s
      else match exact_int x with
           | Some z => Ok (mkSeries NullableInt64
                             (map (fun v => if isna v then PInt z else v) (values s)))
           | None => Raise TypeError
           end
  | d => Ok (mkSeries d (map (fun v => if isna v then PFloat x else v) (values s)))
  end.

(** [s.fillna(other)] for a column [other] of the same frame: a missing
    cell takes the cell of [other] in its row. *)
Fixpoint fill_with (l other : list pyval) : list pyval :=
  match l, other with
  | v :: r, o :: os => (if isna v then o else v) :: fill_with r os
  | _, _ => l
  end.

Definition fillna_series (other s : Series) : Series :=
  mkSeries (if decide (dtype_of s = dtype_of other) then dtype_of s else Object)
           (fill_with (values s) (values other)).

(** *** [Series.median] (missing cells skipped) *)

Definition float_le (a b : spec_float) : Prop := SFleb a b = true.

#[global] Instance float_le_dec a b : Decision (float_le a b).
Proof. unfold float_le. apply _. Defined.

Definition present_floats (l : list pyval) : list spec_float :=
  map to_float (List.filter (fun v => negb (isna v)) l).

Definition median_of (xs : list spec_float) : spec_float :=
  let sorted := merge_sort float_le xs in
  let n := length sorted in
  if (n =? 0)%nat then S754_nan
  else if Nat.odd n then nth (n / 2) sorted S754_nan
  else Float64.div
         (Float64.add (nth (n / 2 - 1) sorted S754_nan) (nth (n / 2) sorted S754_nan))
         (Float64.of_Z 2).

Definition median (s : Series) : spec_float := median_of (present_floats (values s)).

(** *** Arithmetic between columns

    Cell by cell on the float values of the cells.  In a numeric column
    a missing cell is a NaN; in an [object] column only numbers can be
    operated on ([TypeError] otherwise). *)

Definition operand (d : dtype) (v : pyval) : result spec_float :=
  match d with
  | Float64 | Int64 | NullableInt64 => Ok (to_float v)
  | Object => match v with
              | PFloat x => Ok x
              | PInt z => Ok (Float64.of_Z z)
              | _ => Raise TypeError
              end
  | Datetime64 => Raise TypeError
  end.

Fixpoint zip_op (op : spec_float -> spec_float -> spec_float)
    (da db : dtype) (a b : list pyval) : result (list pyval) :=
  match a, b with
  | x :: a', y :: b' =>
      u ← operand da x; v ← operand db y;
      r ← zip_op op da db a' b'; Ok (PFloat (op u v) :: r)
  | _, _ => Ok []
  end.

(** [a op b] for two columns of one frame. *)
Definition binop (op : spec_float -> spec_float -> spec_float) (a b : Series)
  : result Series :=
  l ← zip_op op (dtype_of a) (dtype_of b) (values a) (values b);
  Ok (mkSeries Float64 l).

(** [a op k] for a number [k]. *)
Definition scalar_op (op : spec_float -> spec_float -> spec_float) (a : Series)
    (k : spec_float) : result Series :=
  l ← mapM (fun x => u ← operand (dtype_of a) x; Ok (PFloat (op u k))) (values a);
  Ok (mkSeries Float64 l).

(** *** [pd.DataFrame(records)] for a list of dictionaries

    One row per dictionary, in the order of the list; one column per
    key that occurs; a key a dictionary lacks is a NaN in its row. *)

Definition record_keys (records : list (gmap string pyval)) : gset string :=
  foldr (fun d acc => dom d ∪ acc) ∅ records.

Definition record_column (records : list (gmap string pyval)) (key : string) : Series :=
  infer_objects (map (fun d => default (PFloat S754_nan) (d !! key)) records).

Definition from_records (records : list (gmap string pyval)) : DataFrame :=
  mkFrame (length records)
          (map_imap (fun key _ => Some (record_column records key))
                    (gset_to_gmap tt (record_keys records))).

(** *** Conversions between dtypes *)

Section Conversions.

(** The number pandas' own parser reads in a string cell: an integer,
    a float, or a NaN for a text that is no number (it is not the
    parser of [float()]; the pipeline never hands it a string). *)
Variable numeric_of_str : string -> pyval.

(** The timestamp pandas reads in a cell that is not missing and not
    a timestamp already; [None] when it cannot be read. *)
Variable to_timestamp : pyval -> option Z.

Definition coerce_cell (v : pyval) : pyval :=
  match v with
  | PStr s => numeric_of_str s
  | PTime _ => PFloat S754_nan
  | _ => v
  end.

(** [pd.to_numeric(s, errors='coerce')]: a numeric column is returned
    as it is, a datetime column as its integer representation, and
    an [object] column cell by cell ([int64] when every cell is an
    integer, which includes the column without rows, [float64]
    otherwise). *)
Definition to_numeric (s : Series) : Series :=
  match dtype_of s with
  | Float64 | Int64 | NullableInt64 => s
  | Datetime64 =>
      mkSeries Int64
        (map (fun v => match v with PTime t => PInt t | _ => PInt (- 2 ^ 63) end)
             (values s))
  | Object =>
      let l := map coerce_cell (values s) in
      if forallb is_int l then mkSeries Int64 l
      else mkSeries Float64 (map (fun v => PFloat (to_float v)) l)
  end.

(** The integers of 64 bits. *)
Definition in_int64 (z : Z) : bool := (- 2 ^ 63 <=? z) && (z <? 2 ^ 63).

(** One cell of [s.astype('Int64')]: a missing cell becomes [NA], a
    number must be an integer of 64 bits. *)
Definition cell_to_Int64 (v : pyval) : result pyval :=
  if isna v then Ok PNone
  else match v with
       | PInt z => if in_int64 z then Ok (PInt z) else Raise TypeError
       | PFloat x => match exact_int x with
                     | Some z => if in_int64 z then Ok (PInt z) else Raise TypeError
                     | None => Raise TypeError
                     end
       | _ => Raise TypeError
       end.

(** [s.astype('Int64')] *)
Definition astype_Int64 (s : Series) : result Series :=
  l ← mapM cell_to_Int64 (values s); Ok (mkSeries NullableInt64 l).

Definition cell_to_datetime (v : pyval) : result pyval :=
  if isna v then Ok PNone
  else match v with
       | PTime t => Ok (PTime t)
       | _ => match to_timestamp v with
              | Some t => Ok (PTime t)
              | None => Raise ValueError
              end
       end.

(** [pd.to_datetime(s)] *)
Definition to_datetime (s : Series) : result Series :=
  match dtype_of s with
  | Datetime64 => Ok s
  | _ => l ← mapM cell_to_datetime (values s); Ok (mkSeries Datetime64 l)
  end.

End Conversions.

(** *** One function on every column *)

Fixpoint first_error {A : Type} (l : list (result A)) : option exn :=
  match l with
  | [] => None
  | Raise e :: _ => Some e
  | Ok _ :: r => first_error r
  end.

(** [f] on every column of a frame; an exception of one column is the
    exception of the whole. *)
Definition map_columns (f : string -> Series -> result Series) (df : DataFrame)
  : result DataFrame :=
  match first_error (map (fun '(c, s) => f c s) (map_to_list (columns df))) with
  | Some e => Raise e
  | None =>
      Ok (mkFrame (nrows df)
            (map_imap (fun c s => match f c s with Ok s' => Some s' | Raise _ => None end)
                      (columns df)))
  end.

(** [for col in cols: if col in df.columns: df[col] = f(df[col])] *)
Fixpoint update_cols (cols : list string) (f : Series -> result Series) (df : DataFrame)
  : result DataFrame :=
  match cols with
  | [] => Ok df
  | col :: rest => df' ← update_col col f df; update_cols rest f df'
  end.

End Pandas.

(** ** [DataProcessor] *)

Module DataProcessor.

(** *** The cleaners and categorisers of one value *)

(** [self.numeric_columns] *)
Definition numeric_columns : list string :=
  [ "current_price"; "change"; "change_percent"; "previous_close";
    "open"; "day_low"; "day_high"; "week_52_low"; "week_52_high";
    "pe_ratio"; "eps" ].

(** The class [[\d.-]] of [re.sub(r'[^\d.-]', '', value)]: [\d] is a
    decimal digit of any script. *)
Definition keep_numeric (c : N) : bool :=
  (Unicode.is_decimal c || (c =? 46) || (c =? 45))%N.

(** The class [[\d.]] of [re.sub(r'[^\d.]', '', value)]. *)
Definition keep_digit_dot (c : N) : bool :=
  (Unicode.is_decimal c || (c =? 46))%N.

(** [clean_numeric_value] *)
Definition clean_numeric_value (value : pyval) : result pyval :=
  if isna value then Ok PNone
  else match value with
       | PInt z => x ← Py.float_of_int z; Ok (PFloat x)
       | PFloat x => Ok (PFloat x)
       | PStr s =>
           let cleaned := Py.re_sub_outside keep_numeric s in
           match cleaned with
           | EmptyString => Ok PNone
           | _ => match Py.float_of_str cleaned with
                  | Some x => Ok (PFloat x)
                  | None => Ok PNone
                  end
           end
       | _ => Ok PNone
       end.

(** [multipliers], in the order the dictionary is written and iterated. *)
Definition multipliers : list (ascii * Z) :=
  [ ("K"%char, 1000); ("M"%char, 1000000); ("B"%char, 1000000000) ].

(** The body of the [try] under a matching suffix:
    [int(float(value_upper.replace(suffix, '')) * multiplier)], with
    [ValueError] turned into [None]. *)
Definition scale_by_suffix (suffix : ascii) (multiplier : Z) (value_upper : string)
  : result pyval :=
  match Py.float_of_str (Py.remove_char suffix value_upper) with
  | None => Ok PNone
  | Some number =>
      match Py.int_of_float (Float64.mul number (Float64.of_Z multiplier)) with
      | Ok z => Ok (PInt z)
      | Raise ValueError => Ok PNone
      | Raise e => Raise e
      end
  end.

(** The [for suffix, multiplier in multipliers.items()] loop; [None]
    when no suffix occurs and the loop falls through. *)
Fixpoint scan_suffixes (ms : list (ascii * Z)) (value_upper : string)
  : option (result pyval) :=
  match ms with
  | [] => None
  | (suffix, multiplier) :: rest =>
      if Py.contains suffix value_upper
      then Some (scale_by_suffix suffix multiplier value_upper)
      else scan_suffixes rest value_upper
  end.

(** The branch without suffix:
    [int(float(re.sub(r'[^\d.]', '', value)))]. *)
Definition plain_volume (value : string) : result pyval :=
  match Py.float_of_str (Py.re_sub_outside keep_digit_dot value) with
  | None => Ok PNone
  | Some x =>
      match Py.int_of_float x with
      | Ok z => Ok (PInt z)
      | Raise ValueError => Ok PNone
      | Raise e => Raise e
      end
  end.

(** [clean_volume_value] *)
Definition clean_volume_value (value : pyval) : result pyval :=
  if isna value then Ok PNone
  else match value with
       | PInt z => Ok (PInt z)
       | PFloat x => z ← Py.int_of_float x; Ok (PInt z)
       | PStr s =>
           let value_upper := Py.remove_char "," (Py.upper s) in
           match scan_suffixes multipliers value_upper with
           | Some r => r
           | None => plain_volume s
           end
       | _ => Ok PNone
       end.

(** [categorize_market_cap] *)
Definition categorize_market_cap (market_cap : pyval) : string :=
  if isna market_cap then "Unknown"
  else match market_cap with
       | PStr s =>
           if Py.contains "T" s then "Mega Cap"
           else if Py.contains "B" s then "Large Cap"
           else if Py.contains "M" s then "Mid Cap"
           else "Small Cap"
       | _ => "Unknown"
       end.

(** [categorize_performance]; comparing a string or a timestamp with a
    number raises [TypeError]. *)
Definition categorize_performance (change_percent : pyval) : result string :=
  if isna change_percent then Ok "Unknown"
  else
    x ← match change_percent with
        | PFloat x => Ok x
        | PInt z => Ok (Float64.of_Z z)
        | _ => Raise TypeError
        end;
    if Float64.gtb x (Float64.of_Z 5) then Ok "Strong Positive"
    else if Float64.gtb x (Float64.of_Z 2) then Ok "Positive"
    else if Float64.gtb x (Float64.of_Z (-2)) then Ok "Neutral"
    else if Float64.gtb x (Float64.of_Z (-5)) then Ok "Negative"
    else Ok "Strong Negative".

(** *** The steps of the pipeline *)

(** [if 'error' in df.columns: df = df[df['error'].isna()]] *)
Definition drop_error_rows (df : Pandas.DataFrame) : Pandas.DataFrame :=
  match Pandas.columns df !! "error" with
  | Some e => Pandas.boolean_index (Pandas.isna_mask e) df
  | None => df
  end.

Section Pipeline.

(** [str(value)] of a scalar that is not a string (a number read from
    the file): the text Python prints for it. *)
Variable py_str : pyval -> string.

(** pandas' readers of numbers and of timestamps in text. *)
Variable numeric_of_str : string -> pyval.
Variable to_timestamp : pyval -> option Z.

(** [datetime.now()] at the time of standardisation. *)
Variable now : Z.

(** [pd.read_csv]: the frame a file holds, or the exception of a file
    that cannot be read. *)
Variable read_csv : string -> result Pandas.DataFrame.

(** [clean_market_cap_value] *)
Definition clean_market_cap_value (value : pyval) : pyval :=
  if isna value then PNone
  else match value with
       | PStr s => PStr (Py.strip s)
       | _ => PStr (py_str value)
       end.

(** [clean_company_name] *)
Definition clean_company_name (value : pyval) : pyval :=
  if isna value then PNone
  else match value with
       | PStr s => PStr (Py.strip (Py.sub_parens (Py.strip s)))
       | _ => PStr (py_str value)
       end.

(** [clean_data] *)
Definition clean_data (df : Pandas.DataFrame) : result Pandas.DataFrame :=
  let df_clean := drop_error_rows df in
  df_clean ← Pandas.update_cols numeric_columns (Pandas.apply clean_numeric_value) df_clean;
  df_clean ← Pandas.update_col "volume" (Pandas.apply clean_volume_value) df_clean;
  df_clean ← Pandas.update_col "market_cap"
               (Pandas.apply (fun v => Ok (clean_market_cap_value v))) df_clean;
  Pandas.update_col "company_name"
    (Pandas.apply (fun v => Ok (clean_company_name v))) df_clean.

(** [standardize_formats] *)
Definition standardize_formats (df : Pandas.DataFrame) : result Pandas.DataFrame :=
  df_std ← Pandas.update_col "timestamp" (Pandas.to_datetime to_timestamp) df;
  df_std ← Pandas.update_cols numeric_columns
             (fun s => Ok (Pandas.to_numeric numeric_of_str s)) df_std;
  df_std ← Pandas.update_col "volume"
             (fun s => Pandas.astype_Int64 (Pandas.to_numeric numeric_of_str s)) df_std;
  Ok (Pandas.set_col "processed_at"
        (Pandas.mkSeries Pandas.Datetime64 (replicate (Pandas.nrows df_std) (PTime now)))
        df_std).

(** The policy of [handle_missing_values] for one column. *)
Definition fill_column (col : string) (s : Pandas.Series) : result Pandas.Series :=
  if Pandas.is_number (Pandas.dtype_of s) then
    if bool_decide (col ∈ ["current_price"; "previous_close"; "open"]) then
      Ok (Pandas.ffill s)
    else if bool_decide (col ∈ ["change"; "change_percent"]) then
      Pandas.fillna_value (Float64.of_Z 0) s
    else
      Pandas.fillna_value (Pandas.median s) s
  else Ok s.

(** [handle_missing_values] *)
Definition handle_missing_values (df : Pandas.DataFrame) : result Pandas.DataFrame :=
  df_filled ← Pandas.map_columns fill_column df;
  match Pandas.columns df_filled !! "company_name" with
  | Some names =>
      symbol ← Pandas.get_col "symbol" df_filled;
      Ok (Pandas.set_col "company_name" (Pandas.fillna_series symbol names) df_filled)
  | None => Ok df_filled
  end.

(** [d / c * 100] on two columns. *)
Definition percent_ratio (d c : Pandas.Series) : result Pandas.Series :=
  q ← Pandas.binop Float64.div d c;
  Pandas.scalar_op Float64.mul q (Float64.of_Z 100).

(** [(a - b) / c * 100] on three columns. *)
Definition percent_of (a b c : Pandas.Series) : result Pandas.Series :=
  d ← Pandas.binop Float64.sub a b;
  percent_ratio d c.

(** [add_derived_metrics]; in both indicators the difference is
    computed before the divisor is looked up. *)
Definition add_derived_metrics (df : Pandas.DataFrame) : result Pandas.DataFrame :=
  df_derived ←
    (if Pandas.has_column "current_price" df && Pandas.has_column "previous_close" df then
       current_price ← Pandas.get_col "current_price" df;
       previous_close ← Pandas.get_col "previous_close" df;
       d ← Pandas.binop Float64.sub current_price previous_close;
       divisor ← Pandas.get_col "previous_close" df;
       m ← percent_ratio d divisor;
       Ok (Pandas.set_col "price_momentum" m df)
     else Ok df);
  df_derived ←
    (if Pandas.has_column "day_high" df_derived && Pandas.has_column "day_low" df_derived then
       day_high ← Pandas.get_col "day_high" df_derived;
       day_low ← Pandas.get_col "day_low" df_derived;
       d ← Pandas.binop Float64.sub day_high day_low;
       divisor ← Pandas.get_col "current_price" df_derived;
       v ← percent_ratio d divisor;
       Ok (Pandas.set_col "daily_volatility" v df_derived)
     else Ok df_derived);
  df_derived ←
    match Pandas.columns df_derived !! "market_cap" with
    | Some caps =>
        c ← Pandas.apply (fun v => Ok (PStr (categorize_market_cap v))) caps;
        Ok (Pandas.set_col "market_cap_category" c df_derived)
    | None => Ok df_derived
    end;
  match Pandas.columns df_derived !! "change_percent" with
  | Some changes =>
      c ← Pandas.apply (fun v => p ← categorize_performance v; Ok (PStr p)) changes;
      Ok (Pandas.set_col "performance_category" c df_derived)
  | None => Ok df_derived
  end.

(** The four steps in the order [process_data] runs them. *)
Definition run_steps (df : Pandas.DataFrame) : result Pandas.DataFrame :=
  df_processed ← clean_data df;
  df_processed ← standardize_formats df_processed;
  df_processed ← handle_missing_values df_processed;
  add_derived_metrics df_processed.

(** [try: body except Exception as e: handler(e)]; every exception of
    [exn] is an [Exception]. *)
Definition try_except {A : Type} (body : result A) (handler : exn -> result A)
  : result A :=
  match body with
  | Ok a => Ok a
  | Raise e => handler e
  end.

(** [process_data]: [Ok None] is the returned [None]. *)
Definition process_data (input_file : string) : result (option Pandas.DataFrame) :=
  try_except
    (df ← read_csv input_file;
     if Pandas.empty df then Ok None
     else df_processed ← run_steps df; Ok (Some df_processed))
    (fun _ => Ok None).

End Pipeline.

End DataProcessor.

(** ** [StockScraper]: one symbol, then the batch *)

Module StockScraper.

(** What the parsed page gives to the extractor: the text of the three
    quote elements when they are found, the cell texts of every table
    row, and the text of the heading when it is found. *)
Record Page : Type := mkPage {
  price_element : option string;
  change_element : option string;
  change_percent_element : option string;
  table_rows : list (list string);
  name_element : option string
}.

(** The class [[0-9.-]] of [re.sub(r'[^0-9.-]', '', price_str)]: the
    ten ASCII digits only. *)
Definition keep_price (c : N) : bool :=
  (((48 <=? c) && (c <=? 57)) || (c =? 46) || (c =? 45))%N.

(** [clean_price] and [clean_percentage] (the same body): [None] for
    an empty text, for a text without any of [0-9.-] and for one that
    [float()] rejects. *)
Definition clean_price (price_str : string) : pyval :=
  match price_str with
  | EmptyString => PNone
  | _ =>
      let cleaned := Py.re_sub_outside keep_price price_str in
      match cleaned with
      | EmptyString => PNone
      | _ => match Py.float_of_str cleaned with
             | Some x => PFloat x
             | None => PNone
             end
      end
  end.

Definition clean_percentage (percent_str : string) : pyval := clean_price percent_str.

(** One row of the summary table in [extract_yahoo_summary_data]. *)
Definition summary_row (cells : list string) (data : gmap string pyval)
  : gmap string pyval :=
  match cells with
  | k :: v :: _ =>
      let key := Py.strip k in
      let value := Py.strip v in
      if Py.has_substring "Previous Close" key then <["previous_close" := clean_price value]> data
      else if Py.has_substring "Open" key then <["open" := clean_price value]> data
      else if Py.has_substring "Volume" key then <["volume" := PStr value]> data
      else if Py.has_substring "Market Cap" key then <["market_cap" := PStr value]> data
      else if Py.has_substring "P/E Ratio" key then <["pe_ratio" := clean_price value]> data
      else data
  | _ => data
  end.

(** [extract_yahoo_summary_data] *)
Definition extract_yahoo_summary_data (rows : list (list string)) : gmap string pyval :=
  foldl (fun data cells => summary_row cells data) ∅ rows.

(** [if element: data[key] = f(element.get_text())] *)
Definition set_if_found (key : string) (f : string -> pyval) (element : option string)
    (data : gmap string pyval) : gmap string pyval :=
  match element with
  | Some text => <[key := f text]> data
  | None => data
  end.

Section Scraper.

(** The outside world: the network and the clock. *)
Variable World : Type.

(** [session.get(url)] up to the parsed page: the page, or the message
    of the exception the request raised. *)
Variable http_get : string -> World -> (string + Page) * World.

(** [datetime.now().isoformat()] *)
Variable clock : World -> string * World.

(** [time.sleep(random.uniform(2, 5))] *)
Variable pause : World -> World.

(** [scrape_yahoo_finance] *)
Definition scrape_yahoo_finance (symbol : string) (w : World)
  : gmap string pyval * World :=
  match http_get symbol w with
  | (inr page, w) =>
      let data : gmap string pyval :=
        <["source" := PStr "yahoo"]> (<["symbol" := PStr symbol]> ∅) in
      let data := set_if_found "current_price" clean_price (price_element page) data in
      let data := set_if_found "change" clean_price (change_element page) data in
      let data := set_if_found "change_percent" clean_percentage
                    (change_percent_element page) data in
      (* data.update(summary_data): the keys of the summary win *)
      let data := extract_yahoo_summary_data (table_rows page) ∪ data in
      let data := set_if_found "company_name"
                    (fun text => PStr (Py.strip (Py.before_char "(" text)))
                    (name_element page) data in
      let '(t, w) := clock w in
      (<["timestamp" := PStr t]> data, w)
  | (inl message, w) =>
      (<["error" := PStr message]>
         (<["source" := PStr "yahoo"]> (<["symbol" := PStr symbol]> ∅)), w)
  end.

(** ['error' not in data] *)
Definition no_error (data : gmap string pyval) : bool :=
  bool_decide (data !! "error" = None).

(** [scrape_stock_data] *)
Definition scrape_stock_data (symbol : string) (w : World)
  : gmap string pyval * World :=
  let '(data, w) := scrape_yahoo_finance symbol w in
  if no_error data then (data, w)
  else
    let '(t, w) := clock w in
    (<["error" := PStr "Could not fetch data"]>
       (<["timestamp" := PStr t]>
          (<["change_percent" := PNone]>
             (<["change" := PNone]>
                (<["current_price" := PNone]>
                   (<["symbol" := PStr symbol]> ∅))))), w).

(** The [for i, symbol in enumerate(symbols)] loop of
    [scrape_multiple_stocks], from the symbols still to visit and the
    list gathered so far. *)
Fixpoint scrape_loop (symbols : list string) (all_stock_data : list (gmap string pyval))
    (w : World) : list (gmap string pyval) * World :=
  match symbols with
  | [] => (all_stock_data, w)
  | symbol :: rest =>
      let '(stock_data, w) := scrape_stock_data symbol w in
      let all_stock_data :=
        if no_error stock_data then (all_stock_data ++ [stock_data])%list
        else all_stock_data in
      let w := match rest with [] => w | _ => pause w end in
      scrape_loop rest all_stock_data w
  end.

(** [scrape_multiple_stocks]: [None] is the returned [None]. *)
Definition scrape_multiple_stocks (symbols : list string) (w : World)
  : option Pandas.DataFrame * World :=
  let '(all_stock_data, w) := scrape_loop symbols [] w in
  match all_stock_data with
  | [] => (None, w)
  | _ => (Some (Pandas.from_records all_stock_data), w)
  end.

(** The outcome of every symbol of a batch, in the order of the
    visits: what [scrape_stock_data] returned for it. *)
Fixpoint outcomes (symbols : list string) (w : World) : list (gmap string pyval) :=
  match symbols with
  | [] => []
  | symbol :: rest =>
      let '(stock_data, w) := scrape_stock_data symbol w in
      let w := match rest with [] => w | _ => pause w end in
      stock_data :: outcomes rest w
  end.

End Scraper.

End StockScraper.

(** ** The specification's wording of the normalisers

    Each definition below follows a sentence of the specification, not
    the code; the properties compare the two. *)

Module Claimed.

Definition chars (text : string) : list ascii := list_ascii_of_string text.

(** "strip every character outside [cls]" *)
Definition strip_outside (cls : string) (text : string) : string :=
  string_of_list_ascii (List.filter (fun a => bool_decide (a ∈ chars cls)) (chars text)).

Definition cell_of_float (o : option spec_float) : pyval :=
  match o with
  | Some x => PFloat x
  | None => PNone
  end.

(** "strip every character outside [0-9.-]; parse as float; null on
    empty or unparseable result" *)
Definition clean_numeric (text : string) : option spec_float :=
  let stripped := strip_outside "0123456789.-" text in
  if decide (stripped = "") then None else Py.float_of_str stripped.

(** "substring containment test on the raw market_cap string, checked
    in priority order T, B, M; null input -> Unknown" *)
Definition market_cap_category (raw : option string) : string :=
  match raw with
  | None => "Unknown"
  | Some text =>
      if decide ("T"%char ∈ chars text) then "Mega Cap"
      else if decide ("B"%char ∈ chars text) then "Large Cap"
      else if decide ("M"%char ∈ chars text) then "Mid Cap"
      else "Small Cap"
  end.

(** The columns [add_derived_metrics] adds. *)
Definition derived_columns : list string :=
  [ "price_momentum"; "daily_volatility"; "market_cap_category"; "performance_category" ].

Definition cell_of_int (o : option Z) : pyval :=
  match o with
  | Some z => PInt z
  | None => PNone
  end.

(** "(current_price - previous_close) / previous_close * 100, computed
    only if both operands are non-null and previous_close <> 0; else
    null" *)
Definition price_momentum (current_price previous_close : pyval) : pyval :=
  if isna current_price || isna previous_close
     || Float64.is_zero (Pandas.to_float previous_close)
  then PNone
  else PFloat (Float64.mul
                 (Float64.div
                    (Float64.sub (Pandas.to_float current_price)
                                 (Pandas.to_float previous_close))
                    (Pandas.to_float previous_close))
                 (Float64.of_Z 100)).

(** The last value of a list that is not missing. *)
Fixpoint last_present (l : list pyval) : option pyval :=
  match l with
  | [] => None
  | v :: r =>
      match last_present r with
      | Some w => Some w
      | None => if isna v then None else Some v
      end
  end.

(** "a null inherits the nearest preceding non-null value in batch
    order; a leading null that has no preceding value remains null":
    the cell of row [i] after the fill. *)
Definition forward_filled (l : list pyval) (i : nat) : option pyval :=
  v ← l !! i; Some (if isna v then default v (last_present (take i l)) else v).

(** "Drop every row whose error field is set": the cells of a column
    in the rows that are kept, given the error cells of the rows. *)
Definition rows_without_error (errors cells : list pyval) : list pyval :=
  (filter (fun p => isna p.1 = true) (zip errors cells)).*2.

(** The columns [clean_data] rewrites cell by cell. *)
Definition cleaned_columns : list string :=
  (DataProcessor.numeric_columns ++ ["volume"; "market_cap"; "company_name"])%list.

(** The symbols of a batch whose record carries no error, in the order
    of the batch; [outs] are the records of the symbols. *)
Definition kept_symbols (symbols : list string) (outs : list (gmap string pyval))
  : list string :=
  (filter (fun p => StockScraper.no_error p.2 = true) (zip symbols outs)).*1.

(** The suffix tokens in their priority order, with their multipliers. *)
Definition suffix_table : list (ascii * Z) :=
  [ ("K"%char, 10 ^ 3); ("M"%char, 10 ^ 6); ("B"%char, 10 ^ 9) ].

(** The first suffix of the table that occurs in the text. *)
Definition first_suffix (text : string) : option (ascii * Z) :=
  List.find (fun '(c, _) => bool_decide (c ∈ chars text)) suffix_table.

(** "scan the uppercased, comma-stripped text for suffix tokens in
    priority order K, M, B; on the first match strip the suffix, parse
    the remainder as float, multiply; with no suffix strip non-digit
    characters and parse an integer; null on any parse failure" *)
Definition clean_volume (text : string) : option Z :=
  let scanned := Py.remove_char "," (Py.upper text) in
  match first_suffix scanned with
  | Some (c, multiplier) =>
      x ← Py.float_of_str (Py.remove_char c scanned);
      Float64.trunc (Float64.mul x (Float64.of_Z multiplier))
  | None =>
      let digits := strip_outside "0123456789" text in
      if decide (digits = "") then None else Some (Py.digits_value digits)
  end.

End Claimed.

(** ** The wording of the code, where it departs from the specification *)

Module Amended.

(** The characters of a text that are decimal digits, of any script,
    or that belong to [also], in the order of the text, every digit
    written as the ASCII digit of its value. *)
Definition digits_and (also : list N) (text : string) : string :=
  Py.to_ascii
    (List.filter (fun c => Unicode.is_decimal c || bool_decide (c ∈ also))
                 (Unicode.decode text)).

(** "keep the decimal digits, of any script, the points and the minus
    signs; read the digits by their value and parse as float; null when
    nothing is kept or when what is kept is no number" *)
Definition clean_numeric (text : string) : option spec_float :=
  let kept := digits_and [46; 45]%N text in
  if decide (kept = "") then None else Py.float_of_ascii kept.

(** The number [clean_volume_value] reads in a string before it is
    truncated: under the first of K, M, B that occurs in the
    uppercased, comma-stripped text, the float of that text without
    the suffix, times the multiplier; without suffix, the float of the
    decimal digits and of the points of the original text.  [None] when
    [float()] rejects the text. *)
Definition volume_number (text : string) : option spec_float :=
  let scanned := Py.remove_char "," (Py.upper text) in
  match Claimed.first_suffix scanned with
  | Some (c, multiplier) =>
      x ← Py.float_of_str (Py.remove_char c scanned);
      Some (Float64.mul x (Float64.of_Z multiplier))
  | None => Py.float_of_ascii (digits_and [46]%N text)
  end.

(** [(a - b) / c * 100] on floats, with no guard. *)
Definition percent (a b c : spec_float) : spec_float :=
  Float64.mul (Float64.div (Float64.sub a b) c) (Float64.of_Z 100).

End Amended.

(** ** Frames used as examples *)

Module Examples.

Definition floats (l : list Z) : list pyval := map (fun z => PFloat (Float64.of_Z z)) l.

(** A frame with the two price columns only. *)
Definition quotes (current_price previous_close : list pyval) : Pandas.DataFrame :=
  Pandas.mkFrame (length current_price)
    (<["current_price" := Pandas.mkSeries Pandas.Float64 current_price]>
       (<["previous_close" := Pandas.mkSeries Pandas.Float64 previous_close]> ∅)).

(** A raw batch as [pd.read_csv] hands it over: text and numbers as
    scraped, one row whose fetch failed. *)
Definition raw_batch : Pandas.DataFrame :=
  Pandas.mkFrame 5 (list_to_map [
    ("symbol", Pandas.mkSeries Pandas.Object
       [PStr "AAPL"; PStr "MSFT"; PStr "FAIL"; PStr "NVDA"; PStr "AMD"]);
    ("current_price", Pandas.mkSeries Pandas.Object
       [PStr "$110"; PNone; PNone; PStr "x"; PStr "20"]);
    ("previous_close", Pandas.mkSeries Pandas.Object
       [PStr "100"; PStr "0"; PNone; PStr "5"; PNone]);
    ("day_high", Pandas.mkSeries Pandas.Object
       [PStr "120"; PNone; PNone; PStr "6"; PStr "7"]);
    ("day_low", Pandas.mkSeries Pandas.Object
       [PStr "90"; PStr "1"; PNone; PStr "5"; PStr "7"]);
    ("change_percent", Pandas.mkSeries Pandas.Object
       [PStr "6.0"; PNone; PNone; PStr "-10"; PStr "0"]);
    ("volume", Pandas.mkSeries Pandas.Object
       [PStr "1.2M"; PNone; PNone; PStr "950K"; PStr "12,345"]);
    ("market_cap", Pandas.mkSeries Pandas.Object
       [PStr " 2.5T "; PNone; PNone; PStr "3B"; PStr "12"]);
    ("company_name", Pandas.mkSeries Pandas.Object
       [PStr "Apple Inc. (AAPL)"; PNone; PNone; PStr "NVIDIA"; PStr "AMD"]);
    ("timestamp", Pandas.mkSeries Pandas.Object
       [PStr "t0"; PStr "t1"; PStr "t2"; PStr "t3"; PStr "t4"]);
    ("error", Pandas.mkSeries Pandas.Object
       [PNone; PNone; PStr "Could not fetch data"; PNone; PNone])
  ]).

(** The number 123 in Arabic-Indic digits (U+0661 U+0662 U+0663), and
    1.2M with a no-break space (U+00A0) before the suffix. *)
Definition arabic_indic_123 : string := Unicode.encode [0x661; 0x662; 0x663]%N.

Definition spaced_volume : string := ("1.2" ++ Unicode.encode [0xA0]%N ++ "M")%string.

(** A network on which the symbol FAIL cannot be fetched and every
    other page shows a price only. *)
Definition http_get (symbol : string) (w : unit) : (string + StockScraper.Page) * unit :=
  if String.eqb symbol "FAIL" then (inl "timed out", w)
  else (inr (StockScraper.mkPage (Some "$110.50") None None [] None), w).

Definition clock (w : unit) : string * unit := ("2024-01-02T03:04:05", w).

Definition pause (w : unit) : unit := w.

(** Stand-ins for the readers of the environment. *)
Definition py_str (v : pyval) : string := "?".
Definition numeric_of_str (s : string) : pyval := PFloat S754_nan.
Definition to_timestamp (v : pyval) : option Z := Some 0.

Definition no_frame : Pandas.DataFrame := Pandas.mkFrame 0 ∅.

Definition frame_of (r : result Pandas.DataFrame) : Pandas.DataFrame :=
  match r with
  | Ok d => d
  | Raise _ => no_frame
  end.

(** Two price columns with gaps, after [standardize_formats] and after
    [handle_missing_values]. *)
Definition gapped_quotes : Pandas.DataFrame :=
  quotes [PFloat (Float64.of_Z 10); PFloat S754_nan; PFloat S754_nan; PFloat (Float64.of_Z 20)]
         (floats [1; 2; 3; 4]).

Definition standardized_quotes : Pandas.DataFrame :=
  Eval vm_compute in
    frame_of (DataProcessor.standardize_formats numeric_of_str to_timestamp 0 gapped_quotes).

Definition filled_quotes : Pandas.DataFrame :=
  Eval vm_compute in frame_of (DataProcessor.handle_missing_values standardized_quotes).

(** The raw batch after [clean_data]. *)
Definition cleaned : Pandas.DataFrame :=
  Eval vm_compute in frame_of (DataProcessor.clean_data py_str raw_batch).

(** The raw batch after the four steps, at time 0. *)
Definition processed : Pandas.DataFrame :=
  Eval vm_compute in
    frame_of (DataProcessor.run_steps py_str numeric_of_str to_timestamp 0 raw_batch).

(** The processed batch after the four steps again, at time 1. *)
Definition processed_twice : Pandas.DataFrame :=
  Eval vm_compute in
    frame_of (DataProcessor.run_steps py_str numeric_of_str to_timestamp 1 processed).

End Examples.

(** ** Invariants of the processed columns *)

Module Invariants.

Definition is_float (v : pyval) : bool :=
  match v with PFloat _ => true | _ => false end.

(** What [clean_numeric_value] returns: [None] or a float. *)
Definition cleaned_cell (v : pyval) : Prop := v = PNone \/ is_float v = true.

(** What [clean_market_cap_value] returns: [None] or a text. *)
Definition text_cell (v : pyval) : Prop := v = PNone \/ exists s, v = PStr s.

(** A numeric column after [clean_data] and [standardize_formats]: float
    cells in a [float64] column, or a numeric column without rows. *)
Definition canonical (s : Pandas.Series) : Prop :=
  forallb is_float (Pandas.values s) = true /\
  (Pandas.dtype_of s = Pandas.Float64 \/
   (Pandas.is_number (Pandas.dtype_of s) = true /\ Pandas.values s = [])).

(** What [clean_numeric_value] makes of a float cell. *)
Definition renull (v : pyval) : pyval :=
  match v with
  | PFloat x => if Float64.is_nan x then PNone else v
  | _ => v
  end.

Definition fill_cell (x : spec_float) (v : pyval) : pyval :=
  if isna v then PFloat x else v.

(** The cells [handle_missing_values] leaves in a float column named
    [col]. *)
Definition fill_values (col : string) (l : list pyval) : list pyval :=
  if bool_decide (col ∈ ["current_price"; "previous_close"; "open"]) then
    Pandas.ffill_from None l
  else if bool_decide (col ∈ ["change"; "change_percent"]) then
    map (fill_cell (Float64.of_Z 0)) l
  else
    map (fill_cell (Pandas.median_of (Pandas.present_floats l))) l.

End Invariants.

(** ** Predicates on text *)

Module Text.

(** Every byte of the text is in the class [p]. *)
Fixpoint all_chars (p : ascii -> bool) (s : string) : bool :=
  match s with
  | EmptyString => true
  | String a r => p a && all_chars p r
  end.

(** The text holds ASCII characters only. *)
Definition is_ascii (s : string) : bool :=
  all_chars (fun a => (N_of_ascii a <? 128)%N) s.

(** The decimal digits of the text are among the ten ASCII digits. *)
Definition ascii_digits (s : string) : bool :=
  forallb (fun c => implb (Unicode.is_decimal c) (c <? 128)%N) (Unicode.decode s).

(** An ASCII digit, a point or a minus sign; an ASCII digit or a
    point. *)
Definition numeric_char (a : ascii) : bool :=
  Py.is_digit a || Ascii.eqb a "." || Ascii.eqb a "-".

Definition digit_or_point (a : ascii) : bool :=
  Py.is_digit a || Ascii.eqb a ".".



End Text.

(** ** The order of the performance labels *)

Module Labels.

(** The place of a label of [categorize_performance] on the scale from
    "Strong Negative" to "Strong Positive". *)
Definition performance_rank (label : string) : nat :=
  if String.eqb label "Strong Positive" then 4
  else if String.eqb label "Positive" then 3
  else if String.eqb label "Neutral" then 2
  else if String.eqb label "Negative" then 1
  else 0.

End Labels.

(** ** The example batch between the steps *)

Module Stages.

(** The cleaned batch after [standardize_formats], at time 0. *)
Definition standardized : Pandas.DataFrame :=
  Eval vm_compute in
    Examples.frame_of
      (DataProcessor.standardize_formats Examples.numeric_of_str Examples.to_timestamp 0
         Examples.cleaned).

(** The standardized batch after [handle_missing_values]. *)
Definition filled : Pandas.DataFrame :=
  Eval vm_compute in Examples.frame_of (DataProcessor.handle_missing_values standardized).

Definition column_of (df : Pandas.DataFrame) (c : string) : Pandas.Series :=
  default (Pandas.mkSeries Pandas.Object []) (Pandas.columns df !! c).

(** Columns of the standardized batch. *)
Definition change_percent : Pandas.Series :=
  Eval vm_compute in column_of standardized "change_percent".

Definition day_high : Pandas.Series := Eval vm_compute in column_of standardized "day_high".

Definition company_name : Pandas.Series :=
  Eval vm_compute in column_of standardized "company_name".

Definition symbol : Pandas.Series := Eval vm_compute in column_of standardized "symbol".

(** The changes of the processed batch. *)
Definition processed_change : Pandas.Series :=
  Eval vm_compute in column_of Examples.processed "change_percent".

(** A frame of names without the symbols. *)
Definition names_only : Pandas.DataFrame :=
  Pandas.mkFrame 2
    {[ "company_name" := Pandas.mkSeries Pandas.Object [PStr "Apple Inc."; PNone] ]}.

(** A frame with the range of the day and no price. *)
Definition range_only : Pandas.DataFrame :=
  Pandas.mkFrame 1
    (<["day_high" := Pandas.mkSeries Pandas.Float64 (Examples.floats [12])]>
       {[ "day_low" := Pandas.mkSeries Pandas.Float64 (Examples.floats [10]) ]}).

(** The range of the day held as text, and no price. *)
Definition range_as_text : Pandas.DataFrame :=
  Pandas.mkFrame 1
    (<["day_high" := Pandas.mkSeries Pandas.Object [PStr "12"]]>
       {[ "day_low" := Pandas.mkSeries Pandas.Object [PStr "10"] ]}).

(** A frame without rows, its changes a [float64] column. *)
Definition no_rows : Pandas.DataFrame :=
  Pandas.mkFrame 0
    (<["change_percent" := Pandas.mkSeries Pandas.Float64 []]>
       {[ "symbol" := Pandas.mkSeries Pandas.Object [] ]}).

(** The dataset of the batch FAIL, AAPL on the example network. *)
Definition dataset : Pandas.DataFrame :=
  Eval vm_compute in
    default Examples.no_frame
      (StockScraper.scrape_multiple_stocks unit Examples.http_get Examples.clock
         Examples.pause ["FAIL"; "AAPL"] tt).1.

End Stages.

(** ** The keys of a scraped record *)

Module Schema.

(** The keys [scrape_yahoo_finance] can store in the record of a page. *)
Definition raw_columns : list string :=
  [ "symbol"; "source"; "current_price"; "change"; "change_percent";
    "previous_close"; "open"; "volume"; "market_cap"; "pe_ratio";
    "company_name"; "timestamp" ].

(** What a value of the summary table can be under each of its keys:
    the text of the cell without the blanks around it, or the price
    read in it. *)
Definition summary_value (k : string) (v : pyval) : Prop :=
  (k ∈ ["volume"; "market_cap"] /\ exists text, v = PStr text /\ Py.strip text = text) \/
  (k ∈ ["previous_close"; "open"; "pe_ratio"] /\
   (v = PNone \/ exists x, v = PFloat x /\ Float64.is_nan x = false)).

End Schema.

(** ** A world that records what the scraper asks of it *)

Module Logged.

Inductive event : Type :=
  | Request (symbol : string)   (* [session.get] for the page of a symbol *)
  | Now                         (* [datetime.now()] *)
  | Sleep.                      (* [time.sleep] *)

#[global] Instance event_eq_dec : EqDecision event.
Proof. solve_decision. Defined.

(** The world is the list of the events so far, the latest last. *)
Definition World : Type := list event.

Section Network.

(** What the network answers for a symbol, and what the clock shows. *)
Variable respond : string -> string + StockScraper.Page.
Variable stamp : string.

Definition http_get (symbol : string) (w : World) : (string + StockScraper.Page) * World :=
  (respond symbol, (w ++ [Request symbol])%list).

Definition clock (w : World) : string * World := (stamp, (w ++ [Now])%list).

Definition pause (w : World) : World := (w ++ [Sleep])%list.

End Network.

(** The symbols requested, in the order of the requests. *)
Definition requested (log : list event) : list string :=
  omap (fun e => match e with Request symbol => Some symbol | _ => None end) log.

(** The number of pauses. *)
Definition sleeps (log : list event) : nat :=
  length (filter (fun e => e = Sleep) log).

(** One request and one reading of the clock for each symbol, and a
    pause between two symbols. *)
Fixpoint batch_log (symbols : list string) : list event :=
  match symbols with
  | [] => []
  | symbol :: rest =>
      match rest with
      | [] => [Request symbol; Now]
      | _ => Request symbol :: Now :: Sleep :: batch_log rest
      end
  end.

End Logged.

(** ** [str.split] and [str.join] *)

Module PyText.

(** [s.split(c)] for a one-character separator [c]: the pieces between
    the occurrences of [c], the empty ones included. *)
Fixpoint split (c : ascii) (s : string) : list string :=
  match s with
  | EmptyString => [EmptyString]
  | String a r =>
      if Ascii.eqb a c then EmptyString :: split c r
      else match split c r with
           | piece :: pieces => String a piece :: pieces
           | [] => [String a EmptyString]
           end
  end.

(** [sep.join(parts)] *)
Fixpoint join (sep : string) (parts : list string) : string :=
  match parts with
  | [] => EmptyString
  | part :: rest =>
      match rest with
      | [] => part
      | _ => (part ++ sep ++ join sep rest)%string
      end
  end.

(** [f] on the last element of a list. *)
Fixpoint map_last {A : Type} (f : A -> A) (l : list A) : list A :=
  match l with
  | [] => []
  | x :: r =>
      match r with
      | [] => [f x]
      | _ => x :: map_last f r
      end
  end.

End PyText.

(** ** [Config] and the symbols typed by the user *)

Module Config.

(** [self.DEFAULT_SYMBOLS] *)
Definition DEFAULT_SYMBOLS : list string :=
  [ "AAPL"; "GOOGL"; "MSFT"; "AMZN"; "TSLA"; "META"; "NFLX"; "NVDA"; "AMD"; "INTC" ].

End Config.

Module StockScraperApp.

(** The symbols [collect_data_interactive] makes of the line the user
    typed (and, with the default symbols of its configuration, the
    interactive set-up of the scheduler):
    [symbols_input = input(...).strip()], then the default symbols when
    nothing is left and
    [[s.strip().upper() for s in symbols_input.split(',')]] otherwise. *)
Definition symbols_of_input (default : list string) (line : string) : list string :=
  let symbols_input := Py.strip line in
  match symbols_input with
  | EmptyString => default
  | _ => map (fun s => Py.upper (Py.strip s)) (PyText.split "," symbols_input)
  end.

End StockScraperApp.

(** ** [StockAnalyzer]: the distribution of the performance *)

Module StockAnalyzer.

(** The number of rows a mask selects. *)
Definition count_true (mask : list bool) : nat :=
  length (filter (fun b => b = true) mask).

(** The three comparisons with zero of [analyze_performance]. *)
Inductive zero_test : Type :=
  | above    (* [> 0] *)
  | below    (* [< 0] *)
  | equal.   (* [== 0] *)

Definition test_float (op : zero_test) (x : spec_float) : bool :=
  match op with
  | above => SFltb (Float64.of_Z 0) x
  | below => SFltb x (Float64.of_Z 0)
  | equal => SFeqb x (Float64.of_Z 0)
  end.

Definition test_int (op : zero_test) (z : Z) : bool :=
  match op with
  | above => 0 <? z
  | below => z <? 0
  | equal => z =? 0
  end.

(** One cell of [s > 0], [s < 0] or [s == 0]: a missing cell satisfies
    none of them; a cell that is not a number cannot be ordered with a
    number ([TypeError]) and is not equal to one. *)
Definition test_cell (op : zero_test) (v : pyval) : result bool :=
  if isna v then Ok false
  else match v with
       | PFloat x => Ok (test_float op x)
       | PInt z => Ok (test_int op z)
       | _ => match op with
              | equal => Ok false
              | _ => Raise TypeError
              end
       end.

(** The boolean column of a comparison with zero; a datetime column
    cannot be ordered with a number whatever its cells. *)
Definition test_column (op : zero_test) (s : Pandas.Series) : result (list bool) :=
  match Pandas.dtype_of s, op with
  | Pandas.Datetime64, (above | below) => Raise TypeError
  | _, _ => Pandas.mapM (test_cell op) (Pandas.values s)
  end.

(** [len(df[df['change_percent'] op 0])] *)
Definition count_stocks (op : zero_test) (df : Pandas.DataFrame) : result nat :=
  s ← Pandas.get_col "change_percent" df;
  mask ← test_column op s;
  Ok (Pandas.nrows (Pandas.boolean_index mask df)).

(** [performance['positive_stocks']] and the two others. *)
Definition positive_stocks : Pandas.DataFrame -> result nat := count_stocks above.
Definition negative_stocks : Pandas.DataFrame -> result nat := count_stocks below.
Definition neutral_stocks : Pandas.DataFrame -> result nat := count_stocks equal.

End StockAnalyzer.

(** * Properties *)

(** ** Strings *)

Section StringFacts.

Lemma contains_elem_of (c : ascii) (s : string) :
  Py.contains c s = bool_decide (c ∈ Claimed.chars s).
Proof.
  unfold Claimed.chars. induction s as [|a r IH].
  - cbn. symmetry. apply bool_decide_eq_false_2, not_elem_of_nil.
  - cbn [Py.contains list_ascii_of_string]. rewrite IH.
    destruct (Ascii.eqb_spec a c) as [->|Hne]; cbn [orb].
    + symmetry. apply bool_decide_eq_true_2, elem_of_cons. by left.
    + apply bool_decide_ext. rewrite elem_of_cons. intuition congruence.
Qed.

Lemma filter_str_chars (p : ascii -> bool) (s : string) :
  Py.filter_str p s = string_of_list_ascii (List.filter p (Claimed.chars s)).
Proof.
  induction s as [|a r IH]; simpl; [done|].
  unfold Claimed.chars in *. simpl. destruct (p a); simpl; by rewrite IH.
Qed.

Lemma filter_str_ext (p q : ascii -> bool) (s : string) :
  (forall a, p a = q a) -> Py.filter_str p s = Py.filter_str q s.
Proof. intros H. induction s as [|a r IH]; simpl; [done|]. by rewrite H, IH. Qed.

Lemma keep_numeric_class (a : ascii) :
  DataProcessor.keep_numeric (N_of_ascii a) = bool_decide (a ∈ Claimed.chars "0123456789.-").
Proof. destruct a as [[] [] [] [] [] [] [] []]; vm_compute; reflexivity. Qed.

Lemma append_String (a : ascii) (s t : string) :
  (String a s ++ t)%string = String a (s ++ t)%string.
Proof. reflexivity. Qed.

Lemma append_empty (t : string) : (EmptyString ++ t)%string = t.
Proof. reflexivity. Qed.

End StringFacts.

(** ** The characters of a text *)

Section UnicodeFacts.

Import Unicode.

Local Open Scope N_scope.

Lemma code_of_byte (n : N) : n < 256 -> N_of_ascii (ascii_of_N n) = n.
Proof. apply N_ascii_embedding. Qed.

Lemma continuation_byte (r : N) :
  r < 64 -> continuation (ascii_of_N (128 + r)) = Some r.
Proof.
  intros Hr. unfold continuation. rewrite code_of_byte by lia. cbv zeta.
  destruct (N.leb_spec 128 (128 + r)); [|lia].
  destruct (N.ltb_spec (128 + r) 192); [|lia].
  cbn. f_equal. lia.
Qed.

Lemma decode_encode_char (c : N) (s : string) :
  is_scalar c = true -> decode (encode_char c ++ s) = c :: decode s.
Proof.
  unfold is_scalar, is_surrogate. intros [Hmax Hsur]%andb_true_iff.
  apply N.ltb_lt in Hmax. apply negb_true_iff in Hsur.
  unfold encode_char.
  destruct (N.ltb_spec c 128) as [H1|H1].
  { rewrite !append_String, append_empty. cbn [decode]. rewrite code_of_byte by lia. cbv zeta. by destruct (N.ltb_spec c 128); [|lia]. }
  destruct (N.ltb_spec c 2048) as [H2|H2].
  { pose proof (N.div_mod' c 64) as Hc. pose proof (N.mod_lt c 64 ltac:(lia)) as Hr.
    set (q := c / 64) in *. set (r := c mod 64) in *. clearbody q r.
    rewrite !append_String, append_empty. cbn [decode]. rewrite code_of_byte by lia.
    rewrite continuation_byte by done. cbv zeta.
    destruct (N.ltb_spec (192 + q) 128); [lia|].
    destruct (N.ltb_spec (192 + q) 224); [|lia].
    replace ((192 + q - 192) * 64 + r) with c by lia.
    destruct (N.leb_spec 192 (192 + q)); [|lia].
    by destruct (N.leb_spec 128 c); [|lia]. }
  destruct (N.ltb_spec c 65536) as [H3|H3].
  { pose proof (N.div_mod' c 64) as Hc. pose proof (N.mod_lt c 64 ltac:(lia)) as Hr.
    pose proof (N.div_mod' (c / 64) 64) as Hc1.
    pose proof (N.mod_lt (c / 64) 64 ltac:(lia)) as Hr1.
    replace (c / 4096) with (c / 64 / 64) by (rewrite N.Div0.div_div; done).
    set (q := c / 64) in *. set (r := c mod 64) in *.
    set (q1 := q / 64) in *. set (r1 := q mod 64) in *. clearbody q r q1 r1.
    rewrite !append_String, append_empty. cbn [decode]. rewrite code_of_byte by lia.
    rewrite !continuation_byte by done. cbv zeta.
    destruct (N.ltb_spec (224 + q1) 128); [lia|].
    destruct (N.ltb_spec (224 + q1) 224); [lia|].
    destruct (N.ltb_spec (224 + q1) 240); [|lia].
    replace (((224 + q1 - 224) * 64 + r1) * 64 + r) with c by lia.
    destruct (N.leb_spec 2048 c); [|lia].
    unfold is_surrogate. by rewrite Hsur. }
  pose proof (N.div_mod' c 64) as Hc. pose proof (N.mod_lt c 64 ltac:(lia)) as Hr.
  pose proof (N.div_mod' (c / 64) 64) as Hc1.
  pose proof (N.mod_lt (c / 64) 64 ltac:(lia)) as Hr1.
  pose proof (N.div_mod' (c / 64 / 64) 64) as Hc2.
  pose proof (N.mod_lt (c / 64 / 64) 64 ltac:(lia)) as Hr2.
  replace (c / 262144) with (c / 64 / 64 / 64) by (rewrite !N.Div0.div_div; done).
  replace (c / 4096) with (c / 64 / 64) by (rewrite N.Div0.div_div; done).
  set (q := c / 64) in *. set (r := c mod 64) in *.
  set (q1 := q / 64) in *. set (r1 := q mod 64) in *.
  set (q2 := q1 / 64) in *. set (r2 := q1 mod 64) in *. clearbody q r q1 r1 q2 r2.
  rewrite !append_String, append_empty. cbn [decode]. rewrite code_of_byte by lia.
  rewrite !continuation_byte by done. cbv zeta.
  destruct (N.ltb_spec (240 + q2) 128); [lia|].
  destruct (N.ltb_spec (240 + q2) 224); [lia|].
  destruct (N.ltb_spec (240 + q2) 240); [lia|].
  replace ((((240 + q2 - 240) * 64 + r2) * 64 + r1) * 64 + r) with c by lia.
  destruct (N.ltb_spec (240 + q2) 248); [|lia].
  destruct (N.leb_spec 65536 c); [|lia].
  by destruct (N.ltb_spec c 1114112); [|lia].
Qed.

Lemma decode_encode (l : list N) :
  forallb is_scalar l = true -> decode (encode l) = l.
Proof.
  induction l as [|c l IH]; [done|]. cbn [encode forallb].
  intros [Hc Hl]%andb_true_iff. by rewrite decode_encode_char, IH.
Qed.

Lemma encode_nil (l : list N) : encode l = EmptyString <-> l = [].
Proof.
  split; [|by intros ->]. destruct l as [|c l]; [done|]. cbn [encode].
  unfold encode_char. by repeat case_match.
Qed.

Lemma to_ascii_nil (l : list N) : Py.to_ascii l = EmptyString <-> l = [].
Proof.
  split; [|by intros ->]. destruct l as [|c l]; [done|]. cbn [Py.to_ascii].
  by repeat case_match.
Qed.

(** The runs of the table lie in the code points of a text, hold no
    blank, and only the first one lies in ASCII. *)
Lemma decimal_zeros_runs :
  Forall (fun zero => (zero + 10 <= 0xD800 \/ 0xE000 <= zero) /\ zero + 10 <= 0x110000 /\
                      (zero = 48 \/ 128 <= zero) /\
                      forallb (fun i => negb (is_space (zero + N.of_nat i))) (seq 0 10) = true)
         decimal_zeros.
Proof. apply (bool_decide_unpack _). vm_compute. exact I. Qed.

Lemma to_decimal_Some (c d : N) :
  to_decimal c = Some d ->
  d < 10 /\ is_scalar c = true /\ is_space c = false /\
  (c < 128 -> 48 <= c /\ c = 48 + d).
Proof.
  unfold to_decimal.
  destruct (List.find _ decimal_zeros) as [zero|] eqn:Hfind; [|done].
  intros [= <-]. apply find_some in Hfind as [Hin Hrun].
  apply andb_true_iff in Hrun as [Hlo Hhi].
  apply N.leb_le in Hlo. apply N.ltb_lt in Hhi.
  pose proof (proj1 (Forall_forall _ _) decimal_zeros_runs zero) as Hz.
  destruct Hz as (Hsur & Hmax & Hascii & Hsp); [by apply list_elem_of_In|].
  split; [lia|]. split; [|split].
  - unfold is_scalar, is_surrogate.
    destruct (N.ltb_spec c 1114112); [|lia].
    destruct (N.leb_spec 55296 c); [|done].
    by destruct (N.ltb_spec c 57344); [lia|].
  - rewrite forallb_forall in Hsp.
    specialize (Hsp (N.to_nat (c - zero)) ltac:(apply in_seq; lia)).
    apply negb_true_iff in Hsp.
    by replace (zero + N.of_nat (N.to_nat (c - zero))) with c in Hsp by lia.
  - intros Hc. lia.
Qed.

Lemma is_decimal_Some (c : N) :
  is_decimal c = true -> exists d, to_decimal c = Some d.
Proof. unfold is_decimal. destruct (to_decimal c) as [d|]; [by exists d|done]. Qed.

Lemma keep_numeric_scalar (c : N) :
  DataProcessor.keep_numeric c = true -> is_scalar c = true.
Proof.
  unfold DataProcessor.keep_numeric.
  intros [[[d Hd]%is_decimal_Some| ->%N.eqb_eq]%orb_true_iff| ->%N.eqb_eq]%orb_true_iff;
    [|done..].
  by apply to_decimal_Some in Hd as (_ & ? & _).
Qed.

Lemma keep_digit_dot_numeric (c : N) :
  DataProcessor.keep_digit_dot c = true -> DataProcessor.keep_numeric c = true.
Proof.
  unfold DataProcessor.keep_digit_dot, DataProcessor.keep_numeric.
  intros ->. done.
Qed.

Lemma forallb_filter_self {A : Type} (p : A -> bool) (l : list A) :
  forallb p (List.filter p l) = true.
Proof.
  induction l as [|a l IH]; [done|]. cbn. destruct (p a) eqn:Ha; [|done].
  cbn. by rewrite Ha.
Qed.

Lemma forallb_impl {A : Type} (p q : A -> bool) (l : list A) :
  (forall a, p a = true -> q a = true) -> forallb p l = true -> forallb q l = true.
Proof.
  intros Hpq. induction l as [|a l IH]; [done|]. cbn.
  intros [Ha Hl]%andb_true_iff. by rewrite (Hpq a Ha), IH.
Qed.

(** [float()] on what a pattern has kept reads the characters kept. *)
Lemma float_of_str_re_sub (keep : N -> bool) (text : string) :
  (forall c, keep c = true -> is_scalar c = true) ->
  Py.float_of_str (Py.re_sub_outside keep text)
    = Py.float_of_ascii (Py.to_ascii (List.filter keep (decode text))).
Proof.
  intros Hkeep. unfold Py.float_of_str, Py.re_sub_outside.
  rewrite decode_encode; [done|].
  eapply forallb_impl; [exact Hkeep|apply forallb_filter_self].
Qed.

(** What [float()] is given after a pattern that keeps decimal digits
    and some ASCII characters is a text of ASCII digits and of those
    characters. *)
Lemma to_ascii_class (keep : N -> bool) (p : ascii -> bool) (l : list N) :
  (forall c, keep c = true -> c < 127 -> p (ascii_of_N c) = true) ->
  (forall c, keep c = true -> 127 <= c -> is_decimal c = true) ->
  (forall d, d < 10 -> p (ascii_of_N (48 + d)) = true) ->
  forallb keep l = true -> Text.all_chars p (Py.to_ascii l) = true.
Proof.
  intros Hlow Hhigh Hdigit. induction l as [|c l IH]; [done|]. cbn [forallb Py.to_ascii].
  intros [Hc Hl]%andb_true_iff. specialize (IH Hl).
  destruct (N.ltb_spec c 127) as [Hlt|Hge].
  - cbn [Text.all_chars]. by rewrite Hlow, IH.
  - destruct (is_decimal_Some c (Hhigh c Hc Hge)) as [d Hd]. rewrite Hd.
    apply to_decimal_Some in Hd as (Hd & _ & -> & _).
    cbn [Text.all_chars]. by rewrite Hdigit, IH.
Qed.

Lemma digit_char (d : N) : d < 10 -> Py.is_digit (ascii_of_N (48 + d)) = true.
Proof.
  intros Hd. unfold Py.is_digit, Py.code. rewrite code_of_byte by lia.
  destruct (N.leb_spec 48 (48 + d)); [|lia]. by destruct (N.leb_spec (48 + d) 57); [|lia].
Qed.

Lemma keep_numeric_low (c : N) :
  DataProcessor.keep_numeric c = true -> c < 127 -> Text.numeric_char (ascii_of_N c) = true.
Proof.
  unfold DataProcessor.keep_numeric, Text.numeric_char.
  intros [[[d Hd]%is_decimal_Some| ->%N.eqb_eq]%orb_true_iff| ->%N.eqb_eq]%orb_true_iff Hc;
    [|done..].
  apply to_decimal_Some in Hd as (Hd & _ & _ & Hascii).
  destruct Hascii as [_ ->]; [lia|]. by rewrite digit_char.
Qed.

Lemma keep_numeric_high (c : N) :
  DataProcessor.keep_numeric c = true -> 127 <= c -> is_decimal c = true.
Proof.
  unfold DataProcessor.keep_numeric.
  intros [[H| ->%N.eqb_eq]%orb_true_iff| ->%N.eqb_eq]%orb_true_iff Hc; [done|lia..].
Qed.

Lemma keep_digit_dot_low (c : N) :
  DataProcessor.keep_digit_dot c = true -> c < 127 ->
  Text.digit_or_point (ascii_of_N c) = true.
Proof.
  unfold DataProcessor.keep_digit_dot, Text.digit_or_point.
  intros [[d Hd]%is_decimal_Some| ->%N.eqb_eq]%orb_true_iff Hc; [|done].
  apply to_decimal_Some in Hd as (Hd & _ & _ & Hascii).
  destruct Hascii as [_ ->]; [lia|]. by rewrite digit_char.
Qed.

(** After [[^\d.-]] the text [float()] reads is made of ASCII digits,
    points and minus signs; after [[^\d.]], of ASCII digits and
    points. *)
Lemma kept_numeric_text (text : string) :
  Text.all_chars Text.numeric_char
    (Py.to_ascii (List.filter DataProcessor.keep_numeric (decode text))) = true.
Proof.
  apply (to_ascii_class DataProcessor.keep_numeric).
  - apply keep_numeric_low.
  - apply keep_numeric_high.
  - intros d Hd. unfold Text.numeric_char. by rewrite digit_char.
  - apply forallb_filter_self.
Qed.

Lemma kept_unsigned_text (text : string) :
  Text.all_chars Text.digit_or_point
    (Py.to_ascii (List.filter DataProcessor.keep_digit_dot (decode text))) = true.
Proof.
  apply (to_ascii_class DataProcessor.keep_digit_dot).
  - apply keep_digit_dot_low.
  - intros c Hc. apply keep_numeric_high. by apply keep_digit_dot_numeric.
  - intros d Hd. unfold Text.digit_or_point. by rewrite digit_char.
  - apply forallb_filter_self.
Qed.

Lemma digits_and_point_text (text : string) :
  Text.all_chars Text.digit_or_point (Amended.digits_and [46] text) = true.
Proof.
  unfold Amended.digits_and.
  rewrite (List.filter_ext _ DataProcessor.keep_digit_dot); [apply kept_unsigned_text|].
  intros c. unfold DataProcessor.keep_digit_dot. destruct (is_decimal c); [done|]. cbn [orb].
  destruct (N.eqb_spec c 46) as [->|H46]; [done|].
  apply bool_decide_eq_false_2. rewrite !elem_of_cons, elem_of_nil. tauto.
Qed.

(** On ASCII text a pattern works byte by byte. *)
Lemma re_sub_outside_ascii (keep : N -> bool) (s : string) :
  Text.is_ascii s = true ->
  Py.re_sub_outside keep s = Py.filter_str (fun a => keep (N_of_ascii a)) s.
Proof.
  unfold Py.re_sub_outside, Text.is_ascii.
  induction s as [|a r IH]; [done|]. cbn [Text.all_chars].
  intros [Ha Hr]%andb_true_iff. specialize (IH Hr).
  cbn [decode]. cbv zeta. rewrite Ha. cbn [List.filter Py.filter_str].
  destruct (keep (N_of_ascii a)); [|done].
  cbn [encode]. unfold encode_char. rewrite Ha, ascii_N_embedding.
  by rewrite append_String, append_empty, IH.
Qed.

End UnicodeFacts.

(** ** The normalisers of one value *)

Example float_of_str_examples :
  Py.float_of_str "123.45" = Some (Prim2SF 123.45%float) /\
  Py.float_of_str " -1_000.5e-3 " = Some (Prim2SF (-1.0005)%float) /\
  Py.float_of_str "1E400" = Some (S754_infinity false) /\
  Py.float_of_str "-Infinity" = Some (S754_infinity true) /\
  Py.float_of_str "nan" = Some S754_nan /\
  Py.float_of_str ".5" = Some (Prim2SF 0.5%float) /\
  Py.float_of_str "5." = Some (Prim2SF 5%float) /\
  Py.float_of_str "." = None /\
  Py.float_of_str "" = None /\
  Py.float_of_str "1-2" = None /\
  Py.float_of_str "1.2.3" = None /\
  Py.float_of_str "1e" = None /\
  Py.float_of_str "1__0" = None /\
  Py.float_of_str "--1" = None /\
  Py.float_of_str Examples.arabic_indic_123 = Some (Prim2SF 123%float) /\
  Py.float_of_str (Unicode.encode [0x2003; 0x37; 0xA0]%N) = Some (Prim2SF 7%float) /\
  Py.float_of_str (Unicode.encode [0xB2]%N) = None.
Proof. vm_compute. repeat split; reflexivity. Qed.

Example int_of_float_examples :
  Py.int_of_float (Prim2SF 12.9%float) = Ok 12 /\
  Py.int_of_float (Prim2SF (-12.9)%float) = Ok (-12) /\
  Py.int_of_float (S754_infinity false) = Raise OverflowError /\
  Py.int_of_float S754_nan = Raise ValueError.
Proof. vm_compute. repeat split; reflexivity. Qed.

Example strip_examples :
  Py.strip "  1.5T  " = "1.5T" /\
  Py.sub_parens "Apple Inc. (AAPL)" = "Apple Inc. " /\
  Py.sub_parens "a(b(c)d" = "ad" /\
  Py.sub_parens "a(b" = "a(b".
Proof. vm_compute. repeat split; reflexivity. Qed.

(** C8. [categorize_market_cap] is the containment test of the
    specification on a string, with the priority T, then B, then M, then
    "Small Cap"; a missing value (and any value that is not a string) is
    "Unknown". *)
Theorem categorize_market_cap_priority (market_cap : pyval) :
  DataProcessor.categorize_market_cap market_cap =
    match market_cap with
    | PStr text => Claimed.market_cap_category (Some text)
    | _ => Claimed.market_cap_category None
    end.
Proof.
  destruct market_cap as [|x|z|text|t]; try reflexivity.
  - by destruct x.
  - unfold DataProcessor.categorize_market_cap, Claimed.market_cap_category.
    cbn [isna]. rewrite !contains_elem_of.
    repeat (case_bool_decide; case_decide; try done).
Qed.

Lemma keep_numeric_also (c : N) :
  Unicode.is_decimal c || bool_decide (c ∈ [46; 45]%N) = DataProcessor.keep_numeric c.
Proof.
  unfold DataProcessor.keep_numeric. destruct (Unicode.is_decimal c); [done|]. cbn [orb].
  destruct (N.eqb_spec c 46) as [->|H46]; [done|].
  destruct (N.eqb_spec c 45) as [->|H45]; [done|].
  apply bool_decide_eq_false_2. rewrite !elem_of_cons, elem_of_nil. tauto.
Qed.

Lemma keep_digit_dot_also (c : N) :
  Unicode.is_decimal c || bool_decide (c ∈ [46]%N) = DataProcessor.keep_digit_dot c.
Proof.
  unfold DataProcessor.keep_digit_dot. destruct (Unicode.is_decimal c); [done|]. cbn [orb].
  destruct (N.eqb_spec c 46) as [->|H46]; [done|].
  apply bool_decide_eq_false_2. rewrite !elem_of_cons, elem_of_nil. tauto.
Qed.

(** On a text, [clean_numeric_value] hands to [float()] the characters
    its pattern keeps, when there are any. *)
Lemma clean_numeric_value_text (text : string) :
  DataProcessor.clean_numeric_value (PStr text) =
    Ok (Claimed.cell_of_float
          (match List.filter DataProcessor.keep_numeric (Unicode.decode text) with
           | [] => None
           | kept => Py.float_of_ascii (Py.to_ascii kept)
           end)).
Proof.
  unfold DataProcessor.clean_numeric_value. cbn [isna].
  rewrite (float_of_str_re_sub _ _ keep_numeric_scalar).
  unfold Py.re_sub_outside.
  destruct (List.filter _ _) as [|c kept] eqn:Hkept; [done|].
  destruct (Unicode.encode (c :: kept)) as [|a cleaned] eqn:Hcleaned.
  { by apply encode_nil in Hcleaned. }
  by destruct (Py.float_of_ascii _).
Qed.

(** The text "123" written in Arabic-Indic digits: [\d] keeps the
    decimal digits of every script and [float()] reads them by their
    value, so the code returns 123.0, where the specification, which
    keeps the characters of [0-9.-] only, is left with nothing and
    answers null. *)
Lemma clean_numeric_value_reads_other_digits :
  Unicode.decode Examples.arabic_indic_123 = [0x661; 0x662; 0x663]%N /\
  DataProcessor.clean_numeric_value (PStr Examples.arabic_indic_123)
    = Ok (PFloat (Prim2SF 123%float)) /\
  Claimed.clean_numeric Examples.arabic_indic_123 = None /\
  ~ (forall text : string,
       DataProcessor.clean_numeric_value (PStr text)
         = Ok (Claimed.cell_of_float (Claimed.clean_numeric text))).
Proof.
  assert (Hc : DataProcessor.clean_numeric_value (PStr Examples.arabic_indic_123)
               = Ok (PFloat (Prim2SF 123%float))) by (vm_compute; reflexivity).
  assert (Hs : Claimed.clean_numeric Examples.arabic_indic_123 = None)
    by (vm_compute; reflexivity).
  split; [vm_compute; reflexivity|]. split; [exact Hc|]. split; [exact Hs|].
  intros H. specialize (H Examples.arabic_indic_123). rewrite Hc, Hs in H. discriminate H.
Qed.

(** C5, amended.  On a string [clean_numeric_value] keeps the decimal
    digits of every script, the points and the minus signs, reads the
    digits by their value, hands the text to [float()], and returns
    [None] when nothing is kept or when [float()] rejects it.  On an
    ASCII text this is what the specification says: the characters of
    [0-9.-] are kept.  "$123.45" gives 123.45 and the empty string gives
    [None]. *)
Theorem clean_numeric_value_spec :
  (forall text : string,
     DataProcessor.clean_numeric_value (PStr text)
       = Ok (Claimed.cell_of_float (Amended.clean_numeric text))) /\
  (forall text : string,
     Text.is_ascii text = true ->
     DataProcessor.clean_numeric_value (PStr text)
       = Ok (Claimed.cell_of_float (Claimed.clean_numeric text))) /\
  DataProcessor.clean_numeric_value (PStr "$123.45") = Ok (PFloat (Prim2SF 123.45%float)) /\
  DataProcessor.clean_numeric_value (PStr "") = Ok PNone.
Proof.
  split; [|split; [|split; vm_compute; reflexivity]].
  - intros text. rewrite clean_numeric_value_text. do 2 f_equal.
    unfold Amended.clean_numeric, Amended.digits_and.
    rewrite (List.filter_ext _ _ keep_numeric_also).
    destruct (List.filter _ _) as [|c kept]; [done|].
    destruct (decide (Py.to_ascii (c :: kept) = "")) as [Hnil|_]; [|done].
    by apply to_ascii_nil in Hnil.
  - intros text Hascii. unfold DataProcessor.clean_numeric_value, Claimed.clean_numeric.
    cbn [isna]. unfold Claimed.strip_outside.
    rewrite (re_sub_outside_ascii _ _ Hascii).
    rewrite (filter_str_ext _ _ text keep_numeric_class), filter_str_chars.
    set (stripped := string_of_list_ascii _).
    destruct (decide (stripped = "")) as [->|Hne]; [done|].
    destruct stripped as [|a r]; [done|].
    by destruct (Py.float_of_str (String a r)).
Qed.

Lemma clean_numeric_value_spec_witness :
  DataProcessor.clean_numeric_value (PStr "$123.45")
    = Ok (Claimed.cell_of_float (Claimed.clean_numeric "$123.45")).
Proof. exact (proj1 (proj2 clean_numeric_value_spec) "$123.45" eq_refl). Defined.

Example clean_volume_examples :
  DataProcessor.clean_volume_value (PStr "1.5k") = Ok (PInt 1500) /\
  DataProcessor.clean_volume_value (PStr "1kb") = Ok PNone /\
  DataProcessor.clean_volume_value (PStr "1MK") = Ok PNone /\
  DataProcessor.clean_volume_value (PStr "n/a") = Ok PNone /\
  DataProcessor.clean_volume_value (PStr "nank") = Ok PNone /\
  DataProcessor.clean_volume_value (PStr "infk") = Raise OverflowError /\
  DataProcessor.clean_volume_value (PStr Examples.spaced_volume) = Ok (PInt 1200000) /\
  DataProcessor.clean_volume_value (PStr Examples.arabic_indic_123) = Ok (PInt 123) /\
  DataProcessor.clean_volume_value (PInt 7) = Ok (PInt 7) /\
  DataProcessor.clean_volume_value (PFloat S754_nan) = Ok PNone.
Proof. vm_compute. repeat split; reflexivity. Qed.

Lemma scan_suffixes_first (scanned : string) :
  DataProcessor.scan_suffixes DataProcessor.multipliers scanned =
    match Claimed.first_suffix scanned with
    | Some (c, multiplier) => Some (DataProcessor.scale_by_suffix c multiplier scanned)
    | None => None
    end.
Proof.
  unfold Claimed.first_suffix, Claimed.suffix_table, DataProcessor.multipliers.
  cbn [DataProcessor.scan_suffixes List.find]. rewrite !contains_elem_of.
  repeat (case_bool_decide; [reflexivity|]). reflexivity.
Qed.

Lemma int_of_float_trunc (x : spec_float) :
  Float64.is_inf x = false ->
  match Py.int_of_float x with
  | Ok z => Ok (PInt z)
  | Raise ValueError => Ok PNone
  | Raise e => Raise e
  end = Ok (Claimed.cell_of_int (Float64.trunc x)).
Proof. by destruct x. Qed.

(** The text "12.5" has no suffix: the code keeps the point, reads the
    float 12.5 and truncates it to 12, where the specification strips the
    point with the other non-digit characters and reads 125. *)
Lemma clean_volume_keeps_the_point :
  DataProcessor.clean_volume_value (PStr "12.5") = Ok (PInt 12) /\
  Claimed.clean_volume "12.5" = Some 125 /\
  ~ (forall text : string,
       DataProcessor.clean_volume_value (PStr text)
         = Ok (Claimed.cell_of_int (Claimed.clean_volume text))).
Proof.
  assert (Hc : DataProcessor.clean_volume_value (PStr "12.5") = Ok (PInt 12))
    by (vm_compute; reflexivity).
  assert (Hs : Claimed.clean_volume "12.5" = Some 125) by (vm_compute; reflexivity).
  split; [exact Hc|]. split; [exact Hs|].
  intros H. specialize (H "12.5"). rewrite Hc, Hs in H. discriminate H.
Qed.

(** Without suffix, [clean_volume_value] hands to [float()] the
    decimal digits and the points of the text. *)
Lemma plain_volume_text (text : string) :
  DataProcessor.plain_volume text =
    match Py.float_of_ascii (Amended.digits_and [46]%N text) with
    | None => Ok PNone
    | Some x =>
        match Py.int_of_float x with
        | Ok z => Ok (PInt z)
        | Raise ValueError => Ok PNone
        | Raise e => Raise e
        end
    end.
Proof.
  unfold DataProcessor.plain_volume, Amended.digits_and.
  rewrite float_of_str_re_sub.
  - by rewrite (List.filter_ext _ _ keep_digit_dot_also).
  - intros c Hc. by apply keep_numeric_scalar, keep_digit_dot_numeric.
Qed.

(** C4, amended.  On a string that is ASCII, or that holds none of the
    suffixes, [clean_volume_value] reads a number as
    [Amended.volume_number] says (suffixes K, M, B looked for in this
    order anywhere in the uppercased, comma-stripped text; without
    suffix, the decimal digits and the points of the text, which are
    its characters of [0-9.] when it is ASCII, read as a float), then
    truncates it to an integer; it returns [None] when [float()]
    rejects the text or the number is a NaN.  Nothing is said of an
    infinite number.  The four examples of the specification hold;
    outside ASCII, the blanks of Unicode are skipped and the digits of
    other scripts are read. *)
Theorem clean_volume_value_reads_then_truncates :
  (forall text : string,
     Text.is_ascii text = true \/
     Claimed.first_suffix (Py.remove_char "," (Py.upper text)) = None ->
     match Amended.volume_number text with
     | None => DataProcessor.clean_volume_value (PStr text) = Ok PNone
     | Some x =>
         if Float64.is_inf x then True
         else DataProcessor.clean_volume_value (PStr text)
                = Ok (Claimed.cell_of_int (Float64.trunc x))
     end) /\
  DataProcessor.clean_volume_value (PStr "1.2M") = Ok (PInt 1200000) /\
  DataProcessor.clean_volume_value (PStr "950K") = Ok (PInt 950000) /\
  DataProcessor.clean_volume_value (PStr "2B") = Ok (PInt 2000000000) /\
  DataProcessor.clean_volume_value (PStr "12,345") = Ok (PInt 12345) /\
  DataProcessor.clean_volume_value (PStr Examples.spaced_volume) = Ok (PInt 1200000) /\
  DataProcessor.clean_volume_value (PStr Examples.arabic_indic_123) = Ok (PInt 123).
Proof.
  split; [|vm_compute; repeat split; reflexivity].
  intros text _. unfold Amended.volume_number, DataProcessor.clean_volume_value.
  cbn [isna]. rewrite scan_suffixes_first.
  destruct (Claimed.first_suffix _) as [[c multiplier]|].
  - unfold DataProcessor.scale_by_suffix.
    destruct (Py.float_of_str _) as [x|]; cbn; [|reflexivity].
    destruct (Float64.is_inf _) eqn:Hinf; [exact I|].
    by apply int_of_float_trunc.
  - rewrite plain_volume_text.
    destruct (Py.float_of_ascii _) as [x|]; [|reflexivity].
    destruct (Float64.is_inf x) eqn:Hinf; [exact I|].
    by apply int_of_float_trunc.
Qed.

Lemma clean_volume_value_reads_then_truncates_witness :
  match Amended.volume_number "12.5" with
  | None => DataProcessor.clean_volume_value (PStr "12.5") = Ok PNone
  | Some x =>
      if Float64.is_inf x then True
      else DataProcessor.clean_volume_value (PStr "12.5")
             = Ok (Claimed.cell_of_int (Float64.trunc x))
  end.
Proof.
  exact (proj1 clean_volume_value_reads_then_truncates "12.5" (or_introl eq_refl)).
Defined.

(** ** The result monad and the columns of a frame *)

Lemma bind_Ok {A B : Type} (r : result A) (k : A -> result B) (b : B) :
  r ≫= k = Ok b -> exists a, r = Ok a /\ k a = Ok b.
Proof. destruct r as [a|e]; [|discriminate]. intros H. by exists a. Qed.

Section PandasFacts.

Import Pandas.

Lemma mapM_Ok {A B : Type} (f : A -> result B) (l : list A) (l' : list B) :
  mapM f l = Ok l' ->
  length l' = length l /\
  forall i x, l !! i = Some x -> exists y, f x = Ok y /\ l' !! i = Some y.
Proof.
  revert l'. induction l as [|a r IH]; intros l' H; cbn in H.
  - injection H as <-. split; [done|]. intros i x Hx. by rewrite lookup_nil in Hx.
  - apply bind_Ok in H as (b & Hb & H). apply bind_Ok in H as (bs & Hbs & H).
    injection H as <-. destruct (IH _ Hbs) as [Hlen Hall]. split; [cbn; lia|].
    intros [|i] x Hx; cbn in *; [|by eauto].
    injection Hx as <-. eauto.
Qed.

Lemma mapM_pure {A B : Type} (f : A -> B) (l : list A) :
  mapM (fun a => Ok (f a)) l = Ok (map f l).
Proof. induction l as [|a r IH]; cbn; [done|]. by rewrite IH. Qed.

Lemma operand_to_float (d : dtype) (v : pyval) (u : spec_float) :
  operand d v = Ok u -> u = to_float v.
Proof. destruct d, v; cbn; intros H; by simplify_eq. Qed.

Lemma zip_op_Ok op da db (a b l : list pyval) :
  zip_op op da db a b = Ok l ->
  length l = Nat.min (length a) (length b) /\
  forall i x y, a !! i = Some x -> b !! i = Some y ->
                l !! i = Some (PFloat (op (to_float x) (to_float y))).
Proof.
  revert b l. induction a as [|x a IH]; intros b l H.
  - injection H as <-. split; [done|]. intros i ? ? Hx. by rewrite lookup_nil in Hx.
  - destruct b as [|y b]; cbn in H.
    + injection H as <-. split; [cbn; lia|]. intros i ? ? _ Hy. by rewrite lookup_nil in Hy.
    + apply bind_Ok in H as (u & Hu & H). apply bind_Ok in H as (v & Hv & H).
      apply bind_Ok in H as (r & Hr & H). injection H as <-.
      destruct (IH _ _ Hr) as [Hlen Hall]. split; [cbn; lia|].
      apply operand_to_float in Hu, Hv. subst.
      intros [|i] x' y' Hx Hy; cbn in *; [by simplify_eq|eauto].
Qed.

Lemma binop_Ok op (a b m : Series) :
  binop op a b = Ok m ->
  dtype_of m = Float64 /\
  length (values m) = Nat.min (length (values a)) (length (values b)) /\
  forall i x y, values a !! i = Some x -> values b !! i = Some y ->
                values m !! i = Some (PFloat (op (to_float x) (to_float y))).
Proof.
  unfold binop. intros H. apply bind_Ok in H as (l & Hl & H). injection H as <-.
  cbn. split; [done|]. by apply zip_op_Ok in Hl.
Qed.

Lemma scalar_op_Ok op (a m : Series) (k : spec_float) :
  scalar_op op a k = Ok m ->
  dtype_of m = Float64 /\
  length (values m) = length (values a) /\
  forall i x, values a !! i = Some x ->
              values m !! i = Some (PFloat (op (to_float x) k)).
Proof.
  unfold scalar_op. intros H. apply bind_Ok in H as (l & Hl & H). injection H as <-.
  cbn. split; [done|]. apply mapM_Ok in Hl as [Hlen Hall]. split; [done|].
  intros i x Hx. destruct (Hall i x Hx) as (y & Hy & Hi).
  apply bind_Ok in Hy as (u & Hu & Hy). injection Hy as <-.
  apply operand_to_float in Hu. by subst.
Qed.

End PandasFacts.

(** ** Inversion of the pipeline steps *)

Section FrameFacts.

Import Pandas.

Lemma update_col_Ok col f (df d : DataFrame) :
  update_col col f df = Ok d ->
  nrows d = nrows df /\
  (forall c, c <> col -> columns d !! c = columns df !! c) /\
  match columns df !! col with
  | Some s => exists s', f s = Ok s' /\ columns d !! col = Some s'
  | None => columns d !! col = None
  end.
Proof.
  unfold update_col. intros H. destruct (columns df !! col) as [s|] eqn:Hs.
  - apply bind_Ok in H as (s' & Hs' & H). injection H as <-. cbn.
    split; [done|]. split.
    + intros c Hc. by rewrite lookup_insert_ne.
    + exists s'. by rewrite lookup_insert_eq.
  - injection H as <-. by rewrite Hs.
Qed.

Lemma update_cols_Ok cols f (df d : DataFrame) :
  NoDup cols ->
  update_cols cols f df = Ok d ->
  nrows d = nrows df /\
  (forall c, c ∉ cols -> columns d !! c = columns df !! c) /\
  (forall c, c ∈ cols ->
     match columns df !! c with
     | Some s => exists s', f s = Ok s' /\ columns d !! c = Some s'
     | None => columns d !! c = None
     end).
Proof.
  intros Hnd. revert df. induction Hnd as [|col rest Hnotin Hnd IH]; intros df H; cbn in H.
  - injection H as <-. split; [done|]. split; [done|]. intros c Hc. by apply elem_of_nil in Hc.
  - apply bind_Ok in H as (df' & Hdf' & H).
    apply update_col_Ok in Hdf' as (Hn & Hother & Hcol).
    destruct (IH _ H) as (Hn' & Hout & Hin).
    split; [congruence|]. split.
    + intros c Hc. apply not_elem_of_cons in Hc as [Hne Hc].
      rewrite Hout by done. by apply Hother.
    + intros c Hc. apply elem_of_cons in Hc as [->|Hc].
      * rewrite (Hout col Hnotin). exact Hcol.
      * assert (c <> col) as Hne by (intros ->; done).
        specialize (Hin c Hc). by rewrite (Hother c Hne) in Hin.
Qed.

Lemma has_column_false col df :
  has_column col df = false <-> columns df !! col = None.
Proof.
  unfold has_column. rewrite bool_decide_eq_false, <- eq_None_not_Some. done.
Qed.

Lemma get_col_Ok col df s : get_col col df = Ok s <-> columns df !! col = Some s.
Proof. unfold get_col. destruct (columns df !! col); split; intros H; by simplify_eq. Qed.

Lemma percent_of_Ok (a b c m : Series) :
  DataProcessor.percent_of a b c = Ok m ->
  dtype_of m = Float64 /\
  length (values m)
    = Nat.min (Nat.min (length (values a)) (length (values b))) (length (values c)) /\
  forall i x y z,
    values a !! i = Some x -> values b !! i = Some y -> values c !! i = Some z ->
    values m !! i
      = Some (PFloat (Amended.percent (to_float x) (to_float y) (to_float z))).
Proof.
  unfold DataProcessor.percent_of, DataProcessor.percent_ratio. intros H.
  apply bind_Ok in H as (d & Hd & H). apply bind_Ok in H as (q & Hq & H).
  apply binop_Ok in Hd as (_ & Hdl & Hdv). apply binop_Ok in Hq as (_ & Hql & Hqv).
  apply scalar_op_Ok in H as (Hty & Hml & Hmv).
  split; [done|]. split; [lia|].
  intros i x y z Hx Hy Hz. erewrite Hmv; [|erewrite Hqv; [done|by eapply Hdv|done]].
  done.
Qed.

End FrameFacts.

Section DerivedFacts.

Import Pandas.

Lemma add_derived_metrics_Ok (df d : DataFrame) :
  DataProcessor.add_derived_metrics df = Ok d ->
  nrows d = nrows df /\
  (forall c, c ∉ Claimed.derived_columns -> columns d !! c = columns df !! c) /\
  match columns df !! "current_price", columns df !! "previous_close" with
  | Some a, Some b =>
      exists m, DataProcessor.percent_of a b b = Ok m /\
                columns d !! "price_momentum" = Some m
  | _, _ => columns d !! "price_momentum" = columns df !! "price_momentum"
  end /\
  match columns df !! "day_high", columns df !! "day_low" with
  | Some h, Some l =>
      exists p v, columns df !! "current_price" = Some p /\
                  DataProcessor.percent_of h l p = Ok v /\
                  columns d !! "daily_volatility" = Some v
  | _, _ => columns d !! "daily_volatility" = columns df !! "daily_volatility"
  end /\
  match columns df !! "market_cap" with
  | Some caps =>
      exists c,
        apply (fun v => Ok (PStr (DataProcessor.categorize_market_cap v))) caps = Ok c /\
        columns d !! "market_cap_category" = Some c
  | None => columns d !! "market_cap_category" = columns df !! "market_cap_category"
  end /\
  match columns df !! "change_percent" with
  | Some changes =>
      exists c,
        apply (fun v => p ← DataProcessor.categorize_performance v; Ok (PStr p)) changes
          = Ok c /\
        columns d !! "performance_category" = Some c
  | None => columns d !! "performance_category" = columns df !! "performance_category"
  end.
Proof.
  unfold DataProcessor.add_derived_metrics. intros H.
  apply bind_Ok in H as (d1 & H1 & H). apply bind_Ok in H as (d2 & H2 & H).
  apply bind_Ok in H as (d3 & H3 & H).
  (* step 1 *)
  assert (nrows d1 = nrows df /\
          (forall c, c <> "price_momentum" -> columns d1 !! c = columns df !! c) /\
          match columns df !! "current_price", columns df !! "previous_close" with
          | Some a, Some b =>
              exists m, DataProcessor.percent_of a b b = Ok m /\
                        columns d1 !! "price_momentum" = Some m
          | _, _ => columns d1 !! "price_momentum" = columns df !! "price_momentum"
          end) as (Hn1 & Ho1 & Hm1).
  { destruct (has_column "current_price" df) eqn:Ha; cbn in H1.
    - destruct (has_column "previous_close" df) eqn:Hb; cbn in H1.
      + apply bind_Ok in H1 as (a & Ha' & H1). apply bind_Ok in H1 as (b & Hb' & H1).
        apply bind_Ok in H1 as (diff & Hdiff & H1).
        apply bind_Ok in H1 as (b' & Hb'' & H1).
        apply bind_Ok in H1 as (m & Hm & H1). injection H1 as <-.
        apply get_col_Ok in Ha', Hb', Hb''. rewrite Ha', Hb'. cbn.
        split; [done|]. split; [intros c Hc; by rewrite lookup_insert_ne|].
        exists m. split; [|by rewrite lookup_insert_eq].
        unfold DataProcessor.percent_of. rewrite Hdiff. cbn. congruence.
      + injection H1 as <-. apply has_column_false in Hb. rewrite Hb.
        split; [done|]. split; [done|]. by destruct (columns df !! "current_price").
    - injection H1 as <-. apply has_column_false in Ha. rewrite Ha. done. }
  (* step 2 *)
  assert (nrows d2 = nrows d1 /\
          (forall c, c <> "daily_volatility" -> columns d2 !! c = columns d1 !! c) /\
          match columns d1 !! "day_high", columns d1 !! "day_low" with
          | Some h, Some l =>
              exists p v, columns d1 !! "current_price" = Some p /\
                          DataProcessor.percent_of h l p = Ok v /\
                          columns d2 !! "daily_volatility" = Some v
          | _, _ => columns d2 !! "daily_volatility" = columns d1 !! "daily_volatility"
          end) as (Hn2 & Ho2 & Hm2).
  { destruct (has_column "day_high" d1) eqn:Ha; cbn in H2.
    - destruct (has_column "day_low" d1) eqn:Hb; cbn in H2.
      + apply bind_Ok in H2 as (a & Ha' & H2). apply bind_Ok in H2 as (b & Hb' & H2).
        apply bind_Ok in H2 as (diff & Hdiff & H2).
        apply bind_Ok in H2 as (p & Hp & H2). apply bind_Ok in H2 as (v & Hv & H2).
        injection H2 as <-.
        apply get_col_Ok in Ha', Hb', Hp. rewrite Ha', Hb'. cbn.
        split; [done|]. split; [intros c Hc; by rewrite lookup_insert_ne|].
        exists p, v. split; [done|]. split; [|by rewrite lookup_insert_eq].
        unfold DataProcessor.percent_of. by rewrite Hdiff.
      + injection H2 as <-. apply has_column_false in Hb. rewrite Hb.
        split; [done|]. split; [done|]. by destruct (columns d1 !! "day_high").
    - injection H2 as <-. apply has_column_false in Ha. rewrite Ha. done. }
  (* step 3 *)
  assert (nrows d3 = nrows d2 /\
          (forall c, c <> "market_cap_category" -> columns d3 !! c = columns d2 !! c) /\
          match columns d2 !! "market_cap" with
          | Some caps =>
              exists c,
                apply (fun v => Ok (PStr (DataProcessor.categorize_market_cap v))) caps
                  = Ok c /\
                columns d3 !! "market_cap_category" = Some c
          | None => columns d3 !! "market_cap_category" = columns d2 !! "market_cap_category"
          end) as (Hn3 & Ho3 & Hm3).
  { destruct (columns d2 !! "market_cap") as [caps|].
    - apply bind_Ok in H3 as (c & Hc & H3). injection H3 as <-. cbn.
      split; [done|]. split; [intros c' Hc'; by rewrite lookup_insert_ne|].
      exists c. by rewrite lookup_insert_eq.
    - by injection H3 as <-. }
  (* step 4 *)
  assert (nrows d = nrows d3 /\
          (forall c, c <> "performance_category" -> columns d !! c = columns d3 !! c) /\
          match columns d3 !! "change_percent" with
          | Some changes =>
              exists c,
                apply (fun v => p ← DataProcessor.categorize_performance v; Ok (PStr p))
                      changes = Ok c /\
                columns d !! "performance_category" = Some c
          | None => columns d !! "performance_category" = columns d3 !! "performance_category"
          end) as (Hn4 & Ho4 & Hm4).
  { destruct (columns d3 !! "change_percent") as [changes|].
    - apply bind_Ok in H as (c & Hc & H). injection H as <-. cbn.
      split; [done|]. split; [intros c' Hc'; by rewrite lookup_insert_ne|].
      exists c. by rewrite lookup_insert_eq.
    - by injection H as <-. }
  clear H H1 H2 H3.
  split; [congruence|]. split.
  { intros c Hc. unfold Claimed.derived_columns in Hc.
    rewrite !not_elem_of_cons in Hc. destruct Hc as (? & ? & ? & ? & _).
    rewrite Ho4, Ho3, Ho2, Ho1; done. }
  split.
  { rewrite Ho4, Ho3, Ho2 by done.
    destruct (columns df !! "current_price"), (columns df !! "previous_close"); try done. }
  split.
  { rewrite Ho4, Ho3 by done. rewrite !Ho1 in Hm2 by done.
    destruct (columns df !! "day_high"), (columns df !! "day_low"); try done.
    all: rewrite Hm2; by apply Ho1. }
  split.
  { rewrite Ho4 by done. rewrite Ho2, Ho1 in Hm3 by done.
    destruct (columns df !! "market_cap"); [done|].
    rewrite Hm3, Ho2, Ho1; done. }
  rewrite Ho3, Ho2, Ho1 in Hm4 by done.
  destruct (columns df !! "change_percent"); [done|].
  rewrite Hm4, Ho3, Ho2, Ho1; done.
Qed.

End DerivedFacts.

(** ** The derived indicators *)

Section PercentFacts.

Lemma percent_nan_left (y z : spec_float) : Amended.percent S754_nan y z = S754_nan.
Proof. by destruct y, z. Qed.

Lemma percent_nan_right (x : spec_float) : Amended.percent x S754_nan S754_nan = S754_nan.
Proof. by destruct x. Qed.

Lemma percent_nan_divisor (x y : spec_float) : Amended.percent x y S754_nan = S754_nan.
Proof.
  unfold Amended.percent. by destruct (Float64.sub x y).
Qed.

Lemma percent_zero_divisor (s sz : bool) (m : positive) (e : Z) :
  Amended.percent (S754_finite s m e) (S754_zero sz) (S754_zero sz)
    = S754_infinity (xorb s sz).
Proof. by destruct s, sz. Qed.

Lemma percent_zero_zero (s sz : bool) :
  Amended.percent (S754_zero s) (S754_zero sz) (S754_zero sz) = S754_nan.
Proof. by destruct s, sz. Qed.

End PercentFacts.

(** The row (current_price = 100, previous_close = 0) gets the momentum
    +infinity, which is not null, where the specification says null. *)
Lemma price_momentum_of_zero_close_is_infinite :
  exists d,
    DataProcessor.add_derived_metrics (Examples.quotes (Examples.floats [100]) (Examples.floats [0]))
      = Ok d /\
    Pandas.values <$> Pandas.columns d !! "price_momentum"
      = Some [PFloat (S754_infinity false)] /\
    isna (PFloat (S754_infinity false)) = false /\
    Claimed.price_momentum (PFloat (Float64.of_Z 100)) (PFloat (Float64.of_Z 0)) = PNone.
Proof.
  eexists. split; [vm_compute; reflexivity|]. vm_compute. repeat split; reflexivity.
Qed.

(** C1, amended.  In every frame [add_derived_metrics] returns, the
    price momentum of a row is [(current_price - previous_close) /
    previous_close * 100] in float arithmetic, with no guard, and the
    daily volatility is [(day_high - day_low) / current_price * 100]
    likewise.  So a missing operand gives a missing result, and a zero
    divisor under a non-zero number gives an infinity, not a missing
    value (0/0 gives a NaN).  For 110 and 100 the momentum is 10. *)
Theorem price_momentum_unguarded (df d : Pandas.DataFrame) :
  DataProcessor.add_derived_metrics df = Ok d ->
  (forall a b,
     Pandas.columns df !! "current_price" = Some a ->
     Pandas.columns df !! "previous_close" = Some b ->
     exists m,
       Pandas.columns d !! "price_momentum" = Some m /\
       forall i x y,
         Pandas.values a !! i = Some x -> Pandas.values b !! i = Some y ->
         Pandas.values m !! i
           = Some (PFloat (Amended.percent (Pandas.to_float x) (Pandas.to_float y)
                                           (Pandas.to_float y)))) /\
  (forall h l p,
     Pandas.columns df !! "day_high" = Some h ->
     Pandas.columns df !! "day_low" = Some l ->
     Pandas.columns df !! "current_price" = Some p ->
     exists v,
       Pandas.columns d !! "daily_volatility" = Some v /\
       forall i x y z,
         Pandas.values h !! i = Some x -> Pandas.values l !! i = Some y ->
         Pandas.values p !! i = Some z ->
         Pandas.values v !! i
           = Some (PFloat (Amended.percent (Pandas.to_float x) (Pandas.to_float y)
                                           (Pandas.to_float z)))) /\
  (forall y : pyval, Amended.percent (Pandas.to_float PNone) (Pandas.to_float y)
                                     (Pandas.to_float y) = S754_nan) /\
  (forall x : pyval, Amended.percent (Pandas.to_float x) (Pandas.to_float PNone)
                                     (Pandas.to_float PNone) = S754_nan) /\
  (forall x y : pyval, Amended.percent (Pandas.to_float x) (Pandas.to_float y)
                                       (Pandas.to_float PNone) = S754_nan) /\
  (forall s sz m e,
     Amended.percent (S754_finite s m e) (S754_zero sz) (S754_zero sz)
       = S754_infinity (xorb s sz)) /\
  (forall s sz, Amended.percent (S754_zero s) (S754_zero sz) (S754_zero sz) = S754_nan) /\
  Amended.percent (Float64.of_Z 110) (Float64.of_Z 100) (Float64.of_Z 100) = Float64.of_Z 10 /\
  Amended.percent (Float64.of_Z 100) (Float64.of_Z 0) (Float64.of_Z 0) = S754_infinity false.
Proof.
  intros H. apply add_derived_metrics_Ok in H as (_ & _ & Hm & Hv & _).
  split.
  { intros a b Ha Hb. rewrite Ha, Hb in Hm. destruct Hm as (m & Hm & Hd).
    exists m. split; [done|]. apply percent_of_Ok in Hm as (_ & _ & Hrows).
    intros i x y Hx Hy. by apply Hrows. }
  split.
  { intros h l p Hh Hl Hp. rewrite Hh, Hl in Hv. destruct Hv as (p' & v & Hp' & Hv & Hd).
    rewrite Hp in Hp'. injection Hp' as <-.
    exists v. split; [done|]. by apply percent_of_Ok in Hv as (_ & _ & Hrows). }
  split; [intros y; apply percent_nan_left|].
  split; [intros x; apply percent_nan_right|].
  split; [intros x y; apply percent_nan_divisor|].
  split; [apply percent_zero_divisor|].
  split; [apply percent_zero_zero|].
  split; vm_compute; reflexivity.
Qed.

Lemma price_momentum_unguarded_witness :
  exists d,
    DataProcessor.add_derived_metrics
      (Examples.quotes (Examples.floats [110; 100]) (Examples.floats [100; 0])) = Ok d /\
    exists m,
      Pandas.columns d !! "price_momentum" = Some m /\
      Pandas.values m !! 0%nat = Some (PFloat (Float64.of_Z 10)) /\
      Pandas.values m !! 1%nat = Some (PFloat (S754_infinity false)).
Proof.
  eexists. split; [vm_compute; reflexivity|].
  match goal with
  | |- exists m, Pandas.columns ?d !! _ = _ /\ _ =>
      destruct (proj1 (price_momentum_unguarded
                         (Examples.quotes (Examples.floats [110; 100]) (Examples.floats [100; 0]))
                         d ltac:(vm_compute; reflexivity))
                  (Pandas.mkSeries Pandas.Float64 (Examples.floats [110; 100]))
                  (Pandas.mkSeries Pandas.Float64 (Examples.floats [100; 0]))
                  ltac:(vm_compute; reflexivity) ltac:(vm_compute; reflexivity))
        as (m & Hm & Hrows)
  end.
  exists m. split; [exact Hm|]. split.
  - rewrite (Hrows 0%nat _ _ eq_refl eq_refl). vm_compute. reflexivity.
  - rewrite (Hrows 1%nat _ _ eq_refl eq_refl). vm_compute. reflexivity.
Defined.

Ltac by_computation := apply (bool_decide_unpack _); vm_compute; exact I.

Section StepFacts.

Import Pandas.

Lemma NoDup_numeric_columns : NoDup DataProcessor.numeric_columns.
Proof. by_computation. Qed.

Lemma first_error_None {A : Type} (l : list (result A)) :
  first_error l = None -> forall r, r ∈ l -> exists a, r = Ok a.
Proof.
  induction l as [|[a|e] l IH]; cbn; intros H r Hr.
  - by apply elem_of_nil in Hr.
  - apply elem_of_cons in Hr as [->|Hr]; eauto.
  - discriminate H.
Qed.

Lemma map_columns_Ok f (df d : DataFrame) :
  map_columns f df = Ok d ->
  nrows d = nrows df /\
  forall c,
    match columns df !! c with
    | Some s => exists s', f c s = Ok s' /\ columns d !! c = Some s'
    | None => columns d !! c = None
    end.
Proof.
  unfold map_columns. intros H.
  destruct (first_error _) as [e|] eqn:Herr; [discriminate|]. injection H as <-. cbn.
  split; [done|]. intros c. rewrite map_lookup_imap.
  destruct (columns df !! c) as [s|] eqn:Hs; cbn; [|done].
  destruct (first_error_None _ Herr (f c s)) as [s' Hs'].
  { apply list_elem_of_fmap. exists (c, s). split; [done|]. by apply elem_of_map_to_list. }
  exists s'. by rewrite Hs'.
Qed.

Lemma handle_missing_values_Ok (df d : DataFrame) :
  DataProcessor.handle_missing_values df = Ok d ->
  nrows d = nrows df /\
  forall c, c <> "company_name" ->
    match columns df !! c with
    | Some s => exists s', DataProcessor.fill_column c s = Ok s' /\ columns d !! c = Some s'
    | None => columns d !! c = None
    end.
Proof.
  unfold DataProcessor.handle_missing_values. intros H.
  apply bind_Ok in H as (d1 & Hd1 & H). apply map_columns_Ok in Hd1 as [Hn Hcols].
  destruct (columns d1 !! "company_name") as [names|].
  - apply bind_Ok in H as (symbol & _ & H). injection H as <-. cbn.
    split; [done|]. intros c Hc. rewrite lookup_insert_ne by done. apply Hcols.
  - injection H as <-. split; [done|]. intros c _. apply Hcols.
Qed.

Section Standardize.

Variable numeric_of_str : string -> pyval.
Variable to_timestamp : pyval -> option Z.
Variable now : Z.

Lemma to_numeric_is_number (s : Series) :
  is_number (dtype_of (to_numeric numeric_of_str s)) = true.
Proof.
  unfold to_numeric. destruct s as [[] l]; cbn; try done.
  by destruct (forallb _ _).
Qed.

Lemma standardize_formats_Ok (df d : DataFrame) :
  DataProcessor.standardize_formats numeric_of_str to_timestamp now df = Ok d ->
  nrows d = nrows df /\
  (forall c, c ∈ DataProcessor.numeric_columns ->
     columns d !! c = to_numeric numeric_of_str <$> columns df !! c) /\
  (forall c, c ∉ DataProcessor.numeric_columns -> c <> "timestamp" -> c <> "volume" ->
             c <> "processed_at" -> columns d !! c = columns df !! c).
Proof.
  unfold DataProcessor.standardize_formats. intros H.
  apply bind_Ok in H as (d1 & Hd1 & H). apply bind_Ok in H as (d2 & Hd2 & H).
  apply bind_Ok in H as (d3 & Hd3 & H). injection H as <-. cbn.
  apply update_col_Ok in Hd1 as (Hn1 & Ho1 & _).
  apply update_cols_Ok in Hd2 as (Hn2 & Ho2 & Hi2); [|apply NoDup_numeric_columns].
  apply update_col_Ok in Hd3 as (Hn3 & Ho3 & _).
  split; [congruence|]. split.
  - intros c Hc.
    assert (c <> "processed_at" /\ c <> "volume" /\ c <> "timestamp") as (? & ? & ?).
    { repeat split; intros ->; revert Hc; by_computation. }
    rewrite lookup_insert_ne, Ho3 by done. specialize (Hi2 c Hc).
    rewrite Ho1 in Hi2 by done.
    destruct (columns df !! c) as [s|]; cbn; [|done].
    destruct Hi2 as (s' & Hs' & ->). by injection Hs' as <-.
  - intros c Hc ? ? ?. rewrite lookup_insert_ne, Ho3, Ho2, Ho1 by done. done.
Qed.

End Standardize.

End StepFacts.

(** ** Forward fill *)

Section ForwardFill.

Import Pandas.

Lemma length_ffill_from (last : option pyval) (l : list pyval) :
  length (ffill_from last l) = length l.
Proof.
  revert last. induction l as [|v r IH]; intros last; cbn; [done|].
  destruct (isna v); [destruct last|]; cbn; by rewrite IH.
Qed.

Lemma ffill_from_lookup (last : option pyval) (l : list pyval) (i : nat) :
  ffill_from last l !! i =
    v ← l !! i;
    Some (if isna v then default (default v last) (Claimed.last_present (take i l)) else v).
Proof.
  revert last i. induction l as [|v r IH]; intros last i; [by rewrite !lookup_nil|].
  destruct i as [|i].
  - cbn. destruct (isna v); [by destruct last|done].
  - assert (ffill_from last (v :: r) !! S i
            = ffill_from (if isna v then last else Some v) r !! i) as ->.
    { cbn. destruct (isna v); [by destruct last|done]. }
    rewrite IH. cbn [lookup list_lookup take Claimed.last_present].
    destruct (r !! i) as [u|]; cbn; [|done].
    destruct (isna u); [|done]. f_equal.
    destruct (Claimed.last_present (take i r)); cbn; [done|].
    by destruct (isna v).
Qed.

Lemma ffill_lookup (s : Series) (i : nat) :
  values (ffill s) !! i = Claimed.forward_filled (values s) i.
Proof.
  unfold ffill, Claimed.forward_filled. cbn. rewrite ffill_from_lookup.
  destruct (values s !! i) as [v|]; cbn; [|done].
  by destruct (Claimed.last_present _).
Qed.

(** [last_present] is the value at the greatest position that is not
    missing. *)
Lemma last_present_Some (l : list pyval) (w : pyval) :
  Claimed.last_present l = Some w <->
  exists j, l !! j = Some w /\ isna w = false /\
            forall k u, (j < k)%nat -> l !! k = Some u -> isna u = true.
Proof.
  revert w. induction l as [|v r IH]; intros w; cbn.
  - split; [done|]. intros (j & Hj & _). by rewrite lookup_nil in Hj.
  - destruct (Claimed.last_present r) as [w'|] eqn:Hr.
    + split.
      * intros [= <-]. destruct (proj1 (IH w') eq_refl) as (j & Hj & Hw & Hafter).
        exists (S j). split; [done|]. split; [done|].
        intros [|k] u Hk Hu; [lia|]. apply (Hafter k); [lia|done].
      * intros (j & Hj & Hw & Hafter). f_equal.
        destruct (proj1 (IH w') eq_refl) as (j' & Hj' & Hw' & Hafter').
        destruct j as [|j].
        -- specialize (Hafter (S j') w' ltac:(lia) Hj'). rewrite Hw' in Hafter. discriminate.
        -- cbn in Hj. destruct (decide (j = j')) as [->|Hne].
           { assert (Some w' = Some w) as Heq by (etrans; [symmetry; exact Hj'|exact Hj]).
             by injection Heq. }
           destruct (decide (j < j')%nat).
           ++ specialize (Hafter (S j') w' ltac:(lia) Hj'). rewrite Hw' in Hafter. discriminate.
           ++ specialize (Hafter' j w ltac:(lia) Hj). rewrite Hw in Hafter'. discriminate.
    + assert (forall k u, r !! k = Some u -> isna u = true) as Hnone.
      { intros k u Hu. destruct (isna u) eqn:Hna; [done|]. exfalso.
        clear IH. revert k Hu. induction r as [|x r IHr]; intros k Hk.
        - by rewrite lookup_nil in Hk.
        - cbn in Hr. destruct (Claimed.last_present r) eqn:Hr'; [done|].
          destruct k as [|k]; cbn in Hk.
          + injection Hk as ->. by rewrite Hna in Hr.
          + by apply (IHr eq_refl k). }
      destruct (isna v) eqn:Hv.
      * split; [done|]. intros (j & Hj & Hw & _). destruct j as [|j]; cbn in Hj.
        -- injection Hj as ->. rewrite Hw in Hv. discriminate.
        -- specialize (Hnone j w Hj). rewrite Hw in Hnone. discriminate.
      * split.
        -- intros [= <-]. exists 0%nat. split; [done|]. split; [done|].
           intros [|k] u Hk Hu; [lia|]. by apply (Hnone k).
        -- intros (j & Hj & Hw & _). destruct j as [|j]; cbn in Hj; [done|].
           specialize (Hnone j w Hj). rewrite Hw in Hnone. discriminate.
Qed.

Lemma fill_column_price (c : string) (s : Series) :
  c ∈ ["current_price"; "previous_close"; "open"] ->
  is_number (dtype_of s) = true ->
  DataProcessor.fill_column c s = Ok (ffill s).
Proof.
  intros Hc Hnum. unfold DataProcessor.fill_column. rewrite Hnum.
  by rewrite bool_decide_eq_true_2.
Qed.

End ForwardFill.

(** C6.  In [process_data] the missing-value step receives the frame of
    [standardize_formats]; in each of the columns current_price,
    previous_close and open it replaces a missing cell by the nearest
    value above it that is not missing, and leaves a missing cell with
    no such value as it is.  The column 10, null, null, 20 becomes
    10, 10, 10, 20. *)
Theorem forward_fill_price_columns
    (numeric_of_str : string -> pyval) (to_timestamp : pyval -> option Z) (now : Z)
    (df d1 d2 : Pandas.DataFrame) (c : string) (s : Pandas.Series) :
  c ∈ ["current_price"; "previous_close"; "open"] ->
  DataProcessor.standardize_formats numeric_of_str to_timestamp now df = Ok d1 ->
  DataProcessor.handle_missing_values d1 = Ok d2 ->
  Pandas.columns d1 !! c = Some s ->
  (exists s',
     Pandas.columns d2 !! c = Some s' /\
     length (Pandas.values s') = length (Pandas.values s) /\
     forall i, Pandas.values s' !! i = Claimed.forward_filled (Pandas.values s) i) /\
  (forall l w,
     Claimed.last_present l = Some w <->
     exists j, l !! j = Some w /\ isna w = false /\
               forall k u, (j < k)%nat -> l !! k = Some u -> isna u = true) /\
  (exists d,
     DataProcessor.handle_missing_values Examples.gapped_quotes = Ok d /\
     Pandas.values <$> Pandas.columns d !! "current_price"
       = Some (Examples.floats [10; 10; 10; 20])).
Proof.
  intros Hc Hstd Hfill Hs.
  split; [|split; [apply last_present_Some|]].
  - apply standardize_formats_Ok in Hstd as (_ & Hnum & _).
    assert (c ∈ DataProcessor.numeric_columns) as Hcn.
    { revert Hc. rewrite !elem_of_cons.
      intros [->|[->|[->|Hc]]]; [by_computation..|by apply elem_of_nil in Hc]. }
    specialize (Hnum c Hcn). rewrite Hs in Hnum.
    destruct (Pandas.columns df !! c) as [s0|]; [|done]. injection Hnum as ->.
    apply handle_missing_values_Ok in Hfill as (_ & Hcols).
    assert (c <> "company_name") as Hne by (intros ->; revert Hcn; by_computation).
    specialize (Hcols c Hne). rewrite Hs in Hcols. destruct Hcols as (s' & Hs' & Hd2).
    rewrite fill_column_price in Hs' by (done || apply to_numeric_is_number).
    injection Hs' as <-. eexists. split; [done|]. split.
    + apply length_ffill_from.
    + apply ffill_lookup.
  - eexists. split; vm_compute; reflexivity.
Qed.

Lemma standardize_gapped_quotes :
  DataProcessor.standardize_formats Examples.numeric_of_str Examples.to_timestamp 0
    Examples.gapped_quotes = Ok Examples.standardized_quotes.
Proof. vm_compute. reflexivity. Qed.

Lemma fill_gapped_quotes :
  DataProcessor.handle_missing_values Examples.standardized_quotes = Ok Examples.filled_quotes.
Proof. vm_compute. reflexivity. Qed.

Lemma gapped_current_price :
  Pandas.columns Examples.standardized_quotes !! "current_price"
    = Some (Pandas.mkSeries Pandas.Float64
              [PFloat (Float64.of_Z 10); PFloat S754_nan; PFloat S754_nan;
               PFloat (Float64.of_Z 20)]).
Proof. vm_compute. reflexivity. Qed.

Lemma current_price_is_a_price :
  "current_price" ∈ ["current_price"; "previous_close"; "open"].
Proof. by_computation. Qed.

Lemma forward_fill_price_columns_witness :
  DataProcessor.standardize_formats Examples.numeric_of_str Examples.to_timestamp 0
    Examples.gapped_quotes = Ok Examples.standardized_quotes /\
  DataProcessor.handle_missing_values Examples.standardized_quotes = Ok Examples.filled_quotes /\
  exists s',
    Pandas.columns Examples.filled_quotes !! "current_price" = Some s' /\
    length (Pandas.values s') = 4%nat.
Proof.
  split; [exact standardize_gapped_quotes|]. split; [exact fill_gapped_quotes|].
  destruct (proj1 (forward_fill_price_columns Examples.numeric_of_str Examples.to_timestamp 0
                     Examples.gapped_quotes Examples.standardized_quotes Examples.filled_quotes
                     "current_price" _ current_price_is_a_price standardize_gapped_quotes
                     fill_gapped_quotes gapped_current_price)) as (s' & Hs' & Hlen & _).
  exists s'. split; [exact Hs'|exact Hlen].
Defined.

(** ** Dropping the rows with an error *)

Section CleanData.

Import Pandas.

Lemma select_mask_zip {A : Type} (p : pyval -> bool) (keys : list pyval) (xs : list A) :
  select_mask (map p keys) xs = (filter (fun kx => p kx.1 = true) (zip keys xs)).*2.
Proof.
  revert xs. induction keys as [|k keys IH]; intros [|x xs]; try done.
  change (zip (k :: keys) (x :: xs)) with ((k, x) :: zip keys xs).
  rewrite filter_cons. cbn [select_mask map fst]. destruct (p k) eqn:Hk.
  - rewrite decide_True by done. cbn. by rewrite IH.
  - rewrite decide_False by done. apply IH.
Qed.

Lemma rows_without_error_self (l : list pyval) :
  Claimed.rows_without_error l l = filter (fun v => isna v = true) l.
Proof.
  unfold Claimed.rows_without_error. induction l as [|v l IH]; [done|].
  change (zip (v :: l) (v :: l)) with ((v, v) :: zip l l).
  rewrite !filter_cons. cbn [fst]. case_decide; [|done].
  rewrite fmap_cons. cbn [snd]. by rewrite IH.
Qed.

Lemma length_select_mask {A B : Type} (mask : list bool) (l : list A) (l' : list B) :
  length l = length l' -> length (select_mask mask l) = length (select_mask mask l').
Proof.
  revert l l'. induction mask as [|b mask IH]; intros [|x l] [|y l'] Hlen; cbn in *;
    try done.
  destruct b; cbn; auto.
Qed.

Lemma length_infer_objects (l : list pyval) : length (values (infer_objects l)) = length l.
Proof.
  unfold infer_objects. repeat case_match; cbn; by rewrite ?length_map.
Qed.

Lemma apply_Ok f (s s' : Series) :
  apply f s = Ok s' ->
  exists l, mapM f (values s) = Ok l /\ s' = applied s l.
Proof. unfold apply. intros H. apply bind_Ok in H as (l & Hl & H). injection H as <-. eauto. Qed.

Lemma applied_cons (s : Series) (l : list pyval) :
  values s <> [] -> applied s l = infer_objects l.
Proof. unfold applied. by destruct (values s). Qed.

Lemma applied_nil (s : Series) (l : list pyval) :
  values s = [] -> applied s l = mkSeries (dtype_of s) [].
Proof. unfold applied. by intros ->. Qed.

Lemma length_apply f (s s' : Series) :
  apply f s = Ok s' -> length (values s') = length (values s).
Proof.
  intros H. apply apply_Ok in H as (l & Hl & ->). unfold applied.
  destruct (values s) eqn:Hs; [done|]. rewrite length_infer_objects.
  by apply mapM_Ok in Hl as [Hlen _].
Qed.

Lemma drop_error_rows_lookup (df : DataFrame) (c : string) :
  columns (DataProcessor.drop_error_rows df) !! c =
    match columns df !! "error" with
    | Some e =>
        (fun s => mkSeries (dtype_of s) (select_mask (isna_mask e) (values s)))
          <$> columns df !! c
    | None => columns df !! c
    end.
Proof.
  unfold DataProcessor.drop_error_rows. destruct (columns df !! "error") as [e|]; [|done].
  cbn. by rewrite lookup_fmap.
Qed.

Lemma wf_drop_error_rows (df : DataFrame) : wf df -> wf (DataProcessor.drop_error_rows df).
Proof.
  intros Hwf c s. rewrite drop_error_rows_lookup. unfold DataProcessor.drop_error_rows.
  destruct (columns df !! "error") as [e|]; [|apply Hwf].
  destruct (columns df !! c) as [s0|] eqn:Hs0; cbn; [|done]. intros [= <-]. cbn.
  unfold mask_rows. apply length_select_mask. rewrite length_replicate. by apply (Hwf c).
Qed.

Section WithStr.

Variable py_str : pyval -> string.

Lemma clean_data_Ok (df d : DataFrame) :
  DataProcessor.clean_data py_str df = Ok d ->
  let df0 := DataProcessor.drop_error_rows df in
  nrows d = nrows df0 /\
  (forall c, c ∈ DataProcessor.numeric_columns ->
     match columns df0 !! c with
     | Some s => exists s', apply DataProcessor.clean_numeric_value s = Ok s' /\
                            columns d !! c = Some s'
     | None => columns d !! c = None
     end) /\
  match columns df0 !! "volume" with
  | Some s => exists s', apply DataProcessor.clean_volume_value s = Ok s' /\
                         columns d !! "volume" = Some s'
  | None => columns d !! "volume" = None
  end /\
  match columns df0 !! "market_cap" with
  | Some s =>
      exists s', apply (fun v => Ok (DataProcessor.clean_market_cap_value py_str v)) s = Ok s' /\
                 columns d !! "market_cap" = Some s'
  | None => columns d !! "market_cap" = None
  end /\
  match columns df0 !! "company_name" with
  | Some s =>
      exists s', apply (fun v => Ok (DataProcessor.clean_company_name py_str v)) s = Ok s' /\
                 columns d !! "company_name" = Some s'
  | None => columns d !! "company_name" = None
  end /\
  (forall c, c ∉ Claimed.cleaned_columns -> columns d !! c = columns df0 !! c).
Proof.
  unfold DataProcessor.clean_data. intros H. cbn zeta.
  set (df0 := DataProcessor.drop_error_rows df) in *.
  apply bind_Ok in H as (d1 & Hd1 & H). apply bind_Ok in H as (d2 & Hd2 & H).
  apply bind_Ok in H as (d3 & Hd3 & H).
  apply update_cols_Ok in Hd1 as (Hn1 & Ho1 & Hi1); [|apply NoDup_numeric_columns].
  apply update_col_Ok in Hd2 as (Hn2 & Ho2 & Hi2).
  apply update_col_Ok in Hd3 as (Hn3 & Ho3 & Hi3).
  apply update_col_Ok in H as (Hn4 & Ho4 & Hi4).
  split; [congruence|]. split.
  { intros c Hc.
    assert (c <> "volume" /\ c <> "market_cap" /\ c <> "company_name") as (? & ? & ?).
    { repeat split; intros ->; revert Hc; by_computation. }
    rewrite Ho4, Ho3, Ho2 by done. by apply Hi1. }
  split.
  { rewrite Ho4, Ho3 by done. rewrite Ho1 in Hi2 by by_computation. exact Hi2. }
  split.
  { rewrite Ho4 by done. rewrite Ho2, Ho1 in Hi3 by (done || by_computation). exact Hi3. }
  split.
  { rewrite Ho3, Ho2, Ho1 in Hi4 by (done || by_computation). exact Hi4. }
  intros c Hc. unfold Claimed.cleaned_columns in Hc.
  rewrite elem_of_app, !elem_of_cons in Hc.
  rewrite Ho4, Ho3, Ho2, Ho1; [done|..]; intros ?; apply Hc; subst; auto 10.
Qed.

Lemma wf_clean_data (df d : DataFrame) :
  wf df -> DataProcessor.clean_data py_str df = Ok d -> wf d.
Proof.
  intros Hwf H. apply wf_drop_error_rows in Hwf.
  apply clean_data_Ok in H as (Hn & Hnum & Hvol & Hcap & Hname & Hother).
  set (df0 := DataProcessor.drop_error_rows df) in *.
  assert (forall c s f, columns d !! c = Some s ->
            match columns df0 !! c with
            | Some s0 => exists s', apply f s0 = Ok s' /\ columns d !! c = Some s'
            | None => columns d !! c = None
            end -> length (values s) = nrows d) as Hcase.
  { intros c s f Hs Hm. destruct (columns df0 !! c) as [s0|] eqn:Hs0.
    - destruct Hm as (s' & Hs' & Hd). rewrite Hs in Hd. injection Hd as <-.
      apply length_apply in Hs'. rewrite Hs', Hn. by apply (Hwf c).
    - rewrite Hs in Hm. discriminate. }
  intros c s Hs.
  destruct (decide (c ∈ DataProcessor.numeric_columns)) as [Hc|Hc1];
    [by eapply Hcase, Hnum|].
  destruct (decide (c = "volume")) as [->|Hc2]; [by eapply Hcase, Hvol|].
  destruct (decide (c = "market_cap")) as [->|Hc3]; [by eapply Hcase, Hcap|].
  destruct (decide (c = "company_name")) as [->|Hc4]; [by eapply Hcase, Hname|].
  rewrite Hother in Hs.
  - rewrite Hn. by apply (Hwf c).
  - unfold Claimed.cleaned_columns. rewrite elem_of_app, !elem_of_cons, elem_of_nil. tauto.
Qed.

End WithStr.

End CleanData.

(** C7.  [clean_data] keeps exactly the rows whose error cell is
    missing, in their order: the frame it returns has one row for each
    of them, and a column it does not rewrite (the symbol and the error
    itself among them) holds the cells of those rows.  Without an error
    column every row is kept. *)
Theorem clean_data_drops_error_rows
    (py_str : pyval -> string) (df d : Pandas.DataFrame) :
  Pandas.wf df ->
  DataProcessor.clean_data py_str df = Ok d ->
  Pandas.wf d /\
  match Pandas.columns df !! "error" with
  | Some e =>
      Pandas.nrows d = length (filter (fun v => isna v = true) (Pandas.values e)) /\
      (forall c s, c ∉ Claimed.cleaned_columns -> Pandas.columns df !! c = Some s ->
         exists s',
           Pandas.columns d !! c = Some s' /\
           Pandas.values s' = Claimed.rows_without_error (Pandas.values e) (Pandas.values s)) /\
      (exists e',
         Pandas.columns d !! "error" = Some e' /\
         Forall (fun v => isna v = true) (Pandas.values e'))
  | None =>
      Pandas.nrows d = Pandas.nrows df /\
      (forall c, c ∉ Claimed.cleaned_columns ->
                 Pandas.columns d !! c = Pandas.columns df !! c)
  end.
Proof.
  intros Hwf H. split; [by eapply wf_clean_data|].
  apply clean_data_Ok in H as (Hn & _ & _ & _ & _ & Hother). cbn zeta in *.
  assert (forall c s, c ∉ Claimed.cleaned_columns -> Pandas.columns df !! c = Some s ->
            forall e, Pandas.columns df !! "error" = Some e ->
            exists s', Pandas.columns d !! c = Some s' /\
              Pandas.values s'
                = Claimed.rows_without_error (Pandas.values e) (Pandas.values s)) as Hkept.
  { intros c s Hc Hs e He. rewrite (Hother c Hc), drop_error_rows_lookup, He, Hs. cbn.
    eexists. split; [done|]. cbn. apply select_mask_zip. }
  destruct (Pandas.columns df !! "error") as [e|] eqn:He.
  - split.
    { rewrite Hn. unfold DataProcessor.drop_error_rows. rewrite He. cbn.
      unfold Pandas.mask_rows, Pandas.isna_mask.
      rewrite (length_select_mask _ _ (Pandas.values e)), select_mask_zip.
      - change (length (Claimed.rows_without_error (Pandas.values e) (Pandas.values e))
                = length (filter (fun v => isna v = true) (Pandas.values e))).
        by rewrite rows_without_error_self.
      - rewrite length_replicate. symmetry. by apply (Hwf "error"). }
    split; [intros c s Hc Hs; by eapply Hkept|].
    destruct (Hkept "error" e ltac:(by_computation) He e eq_refl) as (e' & He' & Hv).
    exists e'. split; [done|]. rewrite Hv, rows_without_error_self.
    apply Forall_forall. intros v Hv'. by apply list_elem_of_filter in Hv' as [? _].
  - split.
    { rewrite Hn. unfold DataProcessor.drop_error_rows. by rewrite He. }
    intros c Hc. rewrite (Hother c Hc), drop_error_rows_lookup. by rewrite He.
Qed.

Lemma wf_raw_batch : Pandas.wf Examples.raw_batch.
Proof.
  change (map_Forall
            (fun (_ : string) s => length (Pandas.values s) = Pandas.nrows Examples.raw_batch)
            (Pandas.columns Examples.raw_batch)).
  by_computation.
Qed.

Lemma clean_raw_batch :
  DataProcessor.clean_data Examples.py_str Examples.raw_batch = Ok Examples.cleaned.
Proof. vm_compute. reflexivity. Qed.

Example cleaned_raw_batch :
  Pandas.nrows Examples.cleaned = 4%nat /\
  Pandas.values <$> Pandas.columns Examples.cleaned !! "symbol"
    = Some [PStr "AAPL"; PStr "MSFT"; PStr "NVDA"; PStr "AMD"] /\
  Pandas.values <$> Pandas.columns Examples.cleaned !! "volume"
    = Some (PFloat <$> [Float64.of_Z 1200000; S754_nan; Float64.of_Z 950000;
                        Float64.of_Z 12345]).
Proof. vm_compute. repeat split; reflexivity. Qed.

Lemma clean_data_drops_error_rows_witness :
  Pandas.wf Examples.raw_batch /\
  DataProcessor.clean_data Examples.py_str Examples.raw_batch = Ok Examples.cleaned /\
  Pandas.wf Examples.cleaned.
Proof.
  split; [exact wf_raw_batch|]. split; [exact clean_raw_batch|].
  exact (proj1 (clean_data_drops_error_rows Examples.py_str Examples.raw_batch
                  Examples.cleaned wf_raw_batch clean_raw_batch)).
Defined.

(** ** The batch loop of the scraper *)

Section ScraperFacts.

Import StockScraper.

Lemma summary_row_other (cells : list string) (data : gmap string pyval) (k : string) :
  k ∉ ["previous_close"; "open"; "volume"; "market_cap"; "pe_ratio"] ->
  summary_row cells data !! k = data !! k.
Proof.
  rewrite !not_elem_of_cons. intros (? & ? & ? & ? & ? & _).
  unfold summary_row. destruct cells as [|c1 [|c2 cells]]; try done.
  repeat case_match; try done; by rewrite lookup_insert_ne.
Qed.

Lemma extract_yahoo_summary_data_other (rows : list (list string)) (k : string) :
  k ∉ ["previous_close"; "open"; "volume"; "market_cap"; "pe_ratio"] ->
  extract_yahoo_summary_data rows !! k = None.
Proof.
  intros Hk. unfold extract_yahoo_summary_data.
  assert (forall data : gmap string pyval,
            data !! k = None ->
            foldl (fun data cells => summary_row cells data) data rows !! k = None) as H.
  { induction rows as [|cells rows IH]; intros data Hd; cbn; [done|].
    apply IH. by rewrite summary_row_other. }
  by apply H.
Qed.

Lemma set_if_found_other key f element (data : gmap string pyval) (k : string) :
  k <> key -> set_if_found key f element data !! k = data !! k.
Proof. intros Hk. destruct element; cbn; [by rewrite lookup_insert_ne|done]. Qed.

Section WithWorld.

Variable World : Type.
Variable http_get : string -> World -> (string + Page) * World.
Variable clock : World -> string * World.
Variable pause : World -> World.

Local Abbreviation yahoo := (scrape_yahoo_finance World http_get clock).
Local Abbreviation one := (scrape_stock_data World http_get clock).
Local Abbreviation loop := (scrape_loop World http_get clock pause).
Local Abbreviation batch := (scrape_multiple_stocks World http_get clock pause).
Local Abbreviation trace := (outcomes World http_get clock pause).

(** The record of a page has the symbol and no error; the record of a
    failed request has the symbol and an error. *)
Lemma scrape_yahoo_finance_keys (symbol : string) (w : World) :
  (yahoo symbol w).1 !! "symbol" = Some (PStr symbol) /\
  no_error (yahoo symbol w).1 = match (http_get symbol w).1 with
                                | inr _ => true
                                | inl _ => false
                                end.
Proof.
  unfold scrape_yahoo_finance, no_error.
  destruct (http_get symbol w) as [[message|page] w1]; cbn.
  - split; [done|]. apply bool_decide_eq_false_2. by rewrite lookup_insert_eq.
  - destruct (clock w1) as [t w2]. cbn.
    assert (forall k v, k <> "timestamp" -> k <> "company_name" -> k <> "change_percent" ->
              k <> "change" -> k <> "current_price" ->
              k ∉ ["previous_close"; "open"; "volume"; "market_cap"; "pe_ratio"] ->
              (<["source":=PStr "yahoo"]> (<["symbol":=PStr symbol]> ∅) : gmap string pyval)
                !! k = v ->
              (<["timestamp":=PStr t]>
                 (set_if_found "company_name"
                    (fun text => PStr (Py.strip (Py.before_char "(" text)))
                    (name_element page)
                    (extract_yahoo_summary_data (table_rows page)
                     ∪ set_if_found "change_percent" clean_percentage
                         (change_percent_element page)
                         (set_if_found "change" clean_price (change_element page)
                            (set_if_found "current_price" clean_price (price_element page)
                               (<["source":=PStr "yahoo"]> (<["symbol":=PStr symbol]> ∅))))))
                : gmap string pyval) !! k = v) as Hlook.
    { intros k v ? ? ? ? ? Hk <-.
      rewrite lookup_insert_ne, set_if_found_other by done.
      rewrite lookup_union_r by (by apply extract_yahoo_summary_data_other).
      by rewrite !set_if_found_other by done. }
    split.
    + apply Hlook; try done. by_computation.
    + apply bool_decide_eq_true_2. apply Hlook; try done. by_computation.
Qed.

Lemma scrape_stock_data_keys (symbol : string) (w : World) :
  (one symbol w).1 !! "symbol" = Some (PStr symbol) /\
  no_error (one symbol w).1 = match (http_get symbol w).1 with
                              | inr _ => true
                              | inl _ => false
                              end.
Proof.
  destruct (scrape_yahoo_finance_keys symbol w) as [Hs He].
  unfold scrape_stock_data. destruct (yahoo symbol w) as [data w1]. cbn in *.
  destruct (no_error data) eqn:Hok; [cbn; rewrite Hok; by split|].
  destruct (clock w1) as [t w2]. cbn. rewrite <- He. split; [done|].
  unfold no_error. apply bool_decide_eq_false_2. by rewrite lookup_insert_eq.
Qed.

Lemma length_outcomes (symbols : list string) (w : World) :
  length (trace symbols w) = length symbols.
Proof.
  revert w. induction symbols as [|symbol rest IH]; intros w; cbn; [done|].
  destruct (one symbol w) as [data w1]. cbn. by rewrite IH.
Qed.

Lemma outcomes_symbol (symbols : list string) (w : World) (i : nat) (data : gmap string pyval) :
  trace symbols w !! i = Some data ->
  exists symbol, symbols !! i = Some symbol /\ data !! "symbol" = Some (PStr symbol).
Proof.
  revert w i. induction symbols as [|symbol rest IH]; intros w i H; cbn in H; [done|].
  pose proof (scrape_stock_data_keys symbol w) as [Hs _].
  destruct (one symbol w) as [data0 w1]. destruct i as [|i]; cbn in *.
  - injection H as <-. eauto.
  - by eapply IH.
Qed.

Lemma scrape_loop_outcomes (symbols : list string) (acc : list (gmap string pyval)) (w : World) :
  (loop symbols acc w).1
    = (acc ++ List.filter no_error (trace symbols w))%list.
Proof.
  revert acc w. induction symbols as [|symbol rest IH]; intros acc w; cbn.
  - by rewrite app_nil_r.
  - destruct (one symbol w) as [data w1]. rewrite IH. cbn.
    destruct (no_error data); [by rewrite <- app_assoc|done].
Qed.

End WithWorld.

End ScraperFacts.

Section FromRecords.

Import Pandas.

Lemma from_records_lookup (records : list (gmap string pyval)) (key : string) :
  columns (from_records records) !! key =
    if decide (key ∈ record_keys records) then Some (record_column records key) else None.
Proof.
  unfold from_records. cbn. rewrite map_lookup_imap, lookup_gset_to_gmap.
  case_decide as Hk.
  - by rewrite option_guard_True.
  - by rewrite option_guard_False.
Qed.

Lemma record_keys_elem (records : list (gmap string pyval)) (key : string) :
  key ∈ record_keys records <-> exists d, d ∈ records /\ is_Some (d !! key).
Proof.
  induction records as [|d records IH]; cbn.
  - split; [set_solver|]. intros (d & Hd & _). by apply elem_of_nil in Hd.
  - rewrite elem_of_union, IH, elem_of_dom. split.
    + intros [Hd|(d' & Hd' & Hk)]; [exists d|exists d']; rewrite elem_of_cons; auto.
    + intros (d' & Hd' & Hk). apply elem_of_cons in Hd' as [->|Hd']; eauto.
Qed.

Lemma infer_objects_strings (l : list string) :
  infer_objects (PStr <$> l) = mkSeries Object (PStr <$> l).
Proof. destruct l as [|s l]; reflexivity. Qed.

End FromRecords.

Section BatchFacts.

Import StockScraper.

Lemma kept_records (symbols : list string) (outs : list (gmap string pyval)) :
  length outs = length symbols ->
  (forall i data, outs !! i = Some data ->
     exists symbol, symbols !! i = Some symbol /\ data !! "symbol" = Some (PStr symbol)) ->
  map (fun d => default (PFloat S754_nan) (d !! "symbol")) (List.filter no_error outs)
    = PStr <$> Claimed.kept_symbols symbols outs.
Proof.
  unfold Claimed.kept_symbols.
  revert outs. induction symbols as [|symbol rest IH]; intros [|data outs] Hlen Hsym;
    try done.
  change (zip (symbol :: rest) (data :: outs)) with ((symbol, data) :: zip rest outs).
  rewrite filter_cons. cbn [List.filter snd].
  destruct (Hsym 0%nat data eq_refl) as (symbol' & [= <-] & Hd).
  assert (map (fun d => default (PFloat S754_nan) (d !! "symbol")) (List.filter no_error outs)
          = PStr <$> (filter (fun p => no_error p.2 = true) (zip rest outs)).*1) as Hrest.
  { apply IH; [by injection Hlen|]. intros i d Hi. by apply (Hsym (S i)). }
  destruct (no_error data) eqn:Hok.
  - rewrite decide_True by done. cbn. by rewrite Hd, Hrest.
  - rewrite decide_False by done. exact Hrest.
Qed.

Lemma filter_no_error_nil (outs : list (gmap string pyval)) :
  List.filter no_error outs = [] <-> Forall (fun o => no_error o = false) outs.
Proof.
  induction outs as [|o outs IH]; cbn.
  - split; [by constructor|done].
  - destruct (no_error o) eqn:Ho.
    + split; [done|]. intros H. apply Forall_cons in H as [H _]. congruence.
    + rewrite IH. split; [by constructor|]. by intros [_ ?]%Forall_cons.
Qed.

End BatchFacts.

(** C2.  A batch returns [None] exactly when no symbol of it was
    scraped without error, and a dataset otherwise; a dataset it returns
    has a row at least, so that [None] is never a dataset without rows.
    A symbol is scraped without error exactly when its request gave a
    page. *)
Theorem batch_failure_is_explicit
    (World : Type) (http_get : string -> World -> (string + StockScraper.Page) * World)
    (clock : World -> string * World) (pause : World -> World)
    (symbols : list string) (w : World) :
  let outs := StockScraper.outcomes World http_get clock pause symbols w in
  let result := (StockScraper.scrape_multiple_stocks World http_get clock pause symbols w).1 in
  (result = None <-> Forall (fun o => StockScraper.no_error o = false) outs) /\
  (Exists (fun o => StockScraper.no_error o = true) outs -> exists df, result = Some df) /\
  (forall df, result = Some df -> (0 < Pandas.nrows df)%nat) /\
  (forall symbol w',
     StockScraper.no_error (StockScraper.scrape_stock_data World http_get clock symbol w').1
       = match (http_get symbol w').1 with
         | inr _ => true
         | inl _ => false
         end).
Proof.
  intros outs result.
  assert (result = match List.filter StockScraper.no_error outs with
                   | [] => None
                   | records => Some (Pandas.from_records records)
                   end) as Hres.
  { subst result outs. unfold StockScraper.scrape_multiple_stocks.
    pose proof (scrape_loop_outcomes World http_get clock pause symbols [] w) as Hl.
    destruct (StockScraper.scrape_loop _ _ _ _ symbols [] w) as [all w1]. cbn in Hl.
    rewrite <- Hl. by destruct all. }
  pose proof (filter_no_error_nil outs) as Hnil.
  destruct (List.filter StockScraper.no_error outs) as [|r records] eqn:Hf; rewrite Hres.
  - split; [split; [intros _; by apply Hnil|done]|]. split; [|split].
    + intros Hex. apply Exists_exists in Hex as (o & Ho & Hok).
      assert (Forall (fun o => StockScraper.no_error o = false) outs) as Hall by by apply Hnil.
      rewrite Forall_forall in Hall. specialize (Hall o Ho). congruence.
    + done.
    + intros symbol w'. apply scrape_stock_data_keys.
  - split; [split; [done|]|].
    { intros Hall. apply Hnil in Hall. discriminate. }
    split; [eauto|]. split.
    + intros df [= <-]. cbn. lia.
    + intros symbol w'. apply scrape_stock_data_keys.
Qed.

(** On a network where FAIL cannot be fetched, the batch FAIL, AAPL
    gives a dataset of one record, that of AAPL: the failed symbol has
    no record, tagged or not. *)
Lemma failed_symbol_has_no_record :
  exists df,
    (StockScraper.scrape_multiple_stocks unit Examples.http_get Examples.clock Examples.pause
       ["FAIL"; "AAPL"] tt).1 = Some df /\
    Pandas.nrows df = 1%nat /\
    Pandas.values <$> Pandas.columns df !! "symbol" = Some [PStr "AAPL"] /\
    Pandas.columns df !! "error" = None /\
    length ["FAIL"; "AAPL"] = 2%nat.
Proof. eexists. split; [vm_compute; reflexivity|]. vm_compute. repeat split; reflexivity. Qed.

(** C3, amended.  The dataset of a batch has one record for each
    symbol that was scraped without error, in the order of the symbols,
    and none for the others; when there is no such symbol there is no
    dataset. *)
Theorem raw_dataset_holds_the_successes
    (World : Type) (http_get : string -> World -> (string + StockScraper.Page) * World)
    (clock : World -> string * World) (pause : World -> World)
    (symbols : list string) (w : World) :
  let kept :=
    Claimed.kept_symbols symbols
      (StockScraper.outcomes World http_get clock pause symbols w) in
  match (StockScraper.scrape_multiple_stocks World http_get clock pause symbols w).1 with
  | Some df =>
      kept <> [] /\
      Pandas.nrows df = length kept /\
      Pandas.columns df !! "symbol" = Some (Pandas.mkSeries Pandas.Object (PStr <$> kept))
  | None => kept = []
  end.
Proof.
  intros kept.
  set (outs := StockScraper.outcomes World http_get clock pause symbols w) in *.
  assert (map (fun d => default (PFloat S754_nan) (d !! "symbol")) (List.filter StockScraper.no_error outs)
          = PStr <$> kept) as Hkept.
  { apply kept_records; [apply length_outcomes|]. intros i data Hi.
    by eapply outcomes_symbol. }
  unfold StockScraper.scrape_multiple_stocks.
  pose proof (scrape_loop_outcomes World http_get clock pause symbols [] w) as Hl.
  destruct (StockScraper.scrape_loop _ _ _ _ symbols [] w) as [all w1]. cbn in Hl.
  fold outs in Hl. subst all.
  destruct (List.filter StockScraper.no_error outs) as [|r records] eqn:Hf; cbn [fst].
  - cbn in Hkept. by destruct kept.
  - assert (length (r :: records) = length kept) as Hlen.
    { rewrite <- (length_map (fun d => default (PFloat S754_nan) (d !! "symbol"))), Hkept.
      by rewrite length_fmap. }
    split; [by destruct kept|]. split; [exact Hlen|].
    rewrite from_records_lookup, decide_True.
    + unfold Pandas.record_column. by rewrite Hkept, infer_objects_strings.
    + apply record_keys_elem. exists r. split; [by left|].
      assert (r ∈ outs) as Hr.
      { apply list_elem_of_In, (proj1 (filter_In StockScraper.no_error r outs)).
        rewrite Hf. by left. }
      apply list_elem_of_lookup in Hr as [i Hi].
      destruct (outcomes_symbol _ _ _ _ _ _ _ _ Hi) as (symbol & _ & Hs). by rewrite Hs.
Qed.

(** ** [process_data] *)

(** C10.  [process_data] always returns: [None] when the file cannot
    be read, when its frame is empty and when one of the four steps
    raises, and the frame of the last step when all of them complete. *)
Theorem process_data_never_raises
    (py_str : pyval -> string) (numeric_of_str : string -> pyval)
    (to_timestamp : pyval -> option Z) (now : Z)
    (read_csv : string -> result Pandas.DataFrame) (input_file : string) :
  DataProcessor.process_data py_str numeric_of_str to_timestamp now read_csv input_file =
    Ok match read_csv input_file with
       | Raise _ => None
       | Ok df =>
           if Pandas.empty df then None
           else
             match DataProcessor.clean_data py_str df with
             | Raise _ => None
             | Ok cleaned =>
                 match DataProcessor.standardize_formats numeric_of_str to_timestamp now
                         cleaned with
                 | Raise _ => None
                 | Ok standardized =>
                     match DataProcessor.handle_missing_values standardized with
                     | Raise _ => None
                     | Ok filled =>
                         match DataProcessor.add_derived_metrics filled with
                         | Raise _ => None
                         | Ok derived => Some derived
                         end
                     end
                 end
             end
       end.
Proof.
  unfold DataProcessor.process_data, DataProcessor.try_except, DataProcessor.run_steps.
  unfold mbind, result_bind.
  destruct (read_csv input_file) as [df|e]; [|reflexivity].
  destruct (Pandas.empty df); [reflexivity|].
  destruct (DataProcessor.clean_data py_str df) as [cleaned|e]; [|reflexivity].
  destruct (DataProcessor.standardize_formats _ _ _ cleaned) as [standardized|e];
    [|reflexivity].
  destruct (DataProcessor.handle_missing_values standardized) as [filled|e]; [|reflexivity].
  destruct (DataProcessor.add_derived_metrics filled) as [derived|e]; reflexivity.
Qed.

(** A file that cannot be read; frames on which a step raises (a volume
    that overflows in [clean_data], a median of 1.5 for the integer
    volumes in [handle_missing_values], a company name without symbol);
    and a file that is processed to the end. *)
Example process_data_examples :
  let process := DataProcessor.process_data Examples.py_str Examples.numeric_of_str
                   Examples.to_timestamp 0 in
  let steps := DataProcessor.run_steps Examples.py_str Examples.numeric_of_str
                 Examples.to_timestamp 0 in
  let column name cells :=
    Pandas.mkFrame (length cells) {[ name := Pandas.mkSeries Pandas.Object cells ]} in
  process (fun _ => Raise IOError) "missing.csv" = Ok None /\
  steps (column "volume" [PStr "1e400K"]) = Raise OverflowError /\
  process (fun _ => Ok (column "volume" [PStr "1e400K"])) "raw.csv" = Ok None /\
  steps (column "volume" [PStr "1"; PStr "2"; PNone]) = Raise TypeError /\
  process (fun _ => Ok (column "volume" [PStr "1"; PStr "2"; PNone])) "raw.csv" = Ok None /\
  steps (column "company_name" [PNone]) = Raise KeyError /\
  process (fun _ => Ok (column "company_name" [PNone])) "raw.csv" = Ok None /\
  process (fun _ => Ok (column "volume" [])) "raw.csv" = Ok None /\
  process (fun _ => Ok Examples.raw_batch) "raw.csv" = Ok (Some Examples.processed).
Proof. vm_compute. repeat split; reflexivity. Qed.

(** ** Running the pipeline on its own output *)

Section NumericColumns.

Import Pandas Invariants.

Lemma is_nan_eq (x : spec_float) : Float64.is_nan x = true -> x = S754_nan.
Proof. by destruct x. Qed.

Lemma clean_numeric_value_range (v r : pyval) :
  DataProcessor.clean_numeric_value v = Ok r -> cleaned_cell r.
Proof.
  unfold DataProcessor.clean_numeric_value, cleaned_cell.
  destruct (isna v); [intros [= <-]; by left|].
  destruct v as [|x|z|text|t]; intros H; try (injection H as <-; auto; fail).
  - apply bind_Ok in H as (x & _ & H). injection H as <-. by right.
  - destruct (Py.re_sub_outside _ text); [injection H as <-; by left|].
    destruct (Py.float_of_str _); injection H as <-; auto.
Qed.

Lemma clean_numeric_value_float (v : pyval) :
  is_float v = true -> DataProcessor.clean_numeric_value v = Ok (renull v).
Proof.
  destruct v as [|x|z|text|t]; try done. intros _.
  unfold DataProcessor.clean_numeric_value. cbn. by destruct (Float64.is_nan x).
Qed.

Lemma mapM_ext_Ok {A B : Type} (f : A -> result B) (g : A -> B) (l : list A) :
  Forall (fun a => f a = Ok (g a)) l -> mapM f l = Ok (map g l).
Proof.
  induction 1 as [|a l Ha Hl IH]; cbn; [done|]. by rewrite Ha, IH.
Qed.

Lemma forallb_Forall {A : Type} (p : A -> bool) (l : list A) :
  forallb p l = true <-> Forall (fun a => p a = true) l.
Proof.
  induction l as [|a l IH]; cbn; [split; [by constructor|done]|].
  rewrite andb_true_iff, IH, Forall_cons. done.
Qed.

Lemma mapM_range {A B : Type} (f : A -> result B) (P : B -> Prop) (l : list A) (l' : list B) :
  (forall a b, f a = Ok b -> P b) -> mapM f l = Ok l' -> Forall P l'.
Proof.
  intros HP. revert l'. induction l as [|a l IH]; intros l' H; cbn in H.
  - injection H as <-. constructor.
  - apply bind_Ok in H as (b & Hb & H). apply bind_Ok in H as (bs & Hbs & H).
    injection H as <-. constructor; eauto.
Qed.

Section WithReader.

Variable numeric_of_str : string -> pyval.

(** After [to_numeric] a list of cleaned cells is a canonical column
    with the same numbers. *)
Lemma to_numeric_infer_cleaned (l : list pyval) :
  Forall cleaned_cell l ->
  values (to_numeric numeric_of_str (infer_objects l)) = map (fun v => PFloat (to_float v)) l /\
  canonical (to_numeric numeric_of_str (infer_objects l)).
Proof.
  intros Hl.
  assert (forallb is_number_val l = true) as Hnum.
  { apply forallb_Forall. eapply Forall_impl; [exact Hl|].
    intros v [->|Hv]; [done|]. by destruct v. }
  assert (forallb is_float (map (fun v => PFloat (to_float v)) l) = true) as Hfl.
  { apply forallb_Forall, Forall_map. by apply Forall_true. }
  assert (forallb is_none l = false -> forallb is_int l = false) as Hint.
  { clear Hnum Hfl. induction Hl as [|v l Hv Hl IH]; cbn; [done|].
    destruct Hv as [->|Hv]; [done|]. by destruct v. }
  unfold infer_objects. rewrite Hnum. cbn [negb].
  destruct (forallb is_none l) eqn:Hnone.
  - unfold to_numeric. cbn [dtype_of values].
    assert (map (coerce_cell numeric_of_str) l = l) as ->.
    { clear Hnum Hfl Hint Hl. induction l as [|v l IH]; [done|]. cbn in Hnone.
      apply andb_true_iff in Hnone as [Hv Hnone]. destruct v; try done.
      cbn. by rewrite IH. }
    destruct (forallb is_int l) eqn:Hi.
    + assert (l = []) as ->.
      { destruct l as [|v l]; [done|]. cbn in Hnone, Hi.
        apply andb_true_iff in Hnone as [Hv _]. apply andb_true_iff in Hi as [Hv' _].
        by destruct v. }
      split; [done|]. split; [done|]. right. done.
    + cbn. split; [done|]. split; [done|]. by left.
  - rewrite (Hint eq_refl). unfold to_numeric. cbn. split; [done|]. split; [done|]. by left.
Qed.

(** The same of the column [apply] makes of cleaned cells: without
    rows it is a numeric column without rows. *)
Lemma to_numeric_applied_cleaned (s : Series) (l : list pyval) :
  length l = length (values s) ->
  Forall cleaned_cell l ->
  values (to_numeric numeric_of_str (applied s l)) = map (fun v => PFloat (to_float v)) l /\
  canonical (to_numeric numeric_of_str (applied s l)).
Proof.
  intros Hlen Hl. destruct (values s) as [|v vs] eqn:Hs.
  - destruct l; [|done]. rewrite applied_nil by done.
    assert (values (to_numeric numeric_of_str (mkSeries (dtype_of s) [])) = []) as Hnil.
    { unfold to_numeric. by destruct (dtype_of s). }
    split; [done|]. split; [by rewrite Hnil|]. right. split; [|done].
    unfold to_numeric. by destruct (dtype_of s).
  - rewrite applied_cons by (by rewrite Hs). by apply to_numeric_infer_cleaned.
Qed.

(** Cleaning a canonical column again and converting it gives its own
    cells back. *)
Lemma canonical_renormalize (s sa : Series) :
  canonical s ->
  apply DataProcessor.clean_numeric_value s = Ok sa ->
  values (to_numeric numeric_of_str sa) = values s /\
  canonical (to_numeric numeric_of_str sa).
Proof.
  intros [Hfl _] H. apply apply_Ok in H as (l & Hl & ->).
  apply forallb_Forall in Hfl.
  rewrite (mapM_ext_Ok _ renull) in Hl.
  2:{ eapply Forall_impl; [exact Hfl|]. intros v Hv. by apply clean_numeric_value_float. }
  injection Hl as <-.
  destruct (to_numeric_applied_cleaned s (map renull (values s))) as [Hv Hc].
  { by rewrite length_map. }
  { apply Forall_map. eapply Forall_impl; [exact Hfl|]. intros [|x| | |] Hx; try done.
    unfold cleaned_cell. cbn. destruct (Float64.is_nan x); auto. }
  split; [|done]. rewrite Hv, map_map. clear Hv Hc.
  induction Hfl as [|v l Hv Hl IH]; [done|]. cbn. rewrite IH. f_equal.
  destruct v as [|x| | |]; try done. cbn. destruct (Float64.is_nan x) eqn:Hx; [|done].
  cbn. by rewrite (is_nan_eq x Hx).
Qed.

(** Two canonical columns with the same cells, the second made from
    the first by [apply] and [to_numeric], have the same dtype. *)
Lemma canonical_renormalize_dtype (s sa : Series) :
  canonical s ->
  apply DataProcessor.clean_numeric_value s = Ok sa ->
  dtype_of (to_numeric numeric_of_str sa) = dtype_of s.
Proof.
  intros Hcan H. destruct (canonical_renormalize s sa Hcan H) as [Hv [_ Hty']].
  destruct Hcan as [_ [Hty|[Hty Hnil]]].
  - destruct Hty' as [Hf|[_ Hnil']]; [congruence|].
    apply apply_Ok in H as (l & Hl & ->). rewrite Hnil' in Hv.
    rewrite applied_nil by done. unfold to_numeric. cbn [dtype_of]. by rewrite Hty.
  - apply apply_Ok in H as (l & Hl & ->). rewrite applied_nil by done.
    unfold to_numeric. cbn [dtype_of]. by destruct (dtype_of s).
Qed.

End WithReader.

End NumericColumns.

Section FillFacts.

Import Pandas Invariants.

Lemma ffill_from_idem (last : option pyval) (l : list pyval) :
  (forall w, last = Some w -> isna w = false) ->
  ffill_from last (ffill_from last l) = ffill_from last l.
Proof.
  revert last. induction l as [|v r IH]; intros last Hlast; [done|]. cbn.
  destruct (isna v) eqn:Hv.
  - destruct last as [w|]; cbn.
    + rewrite (Hlast w eq_refl). f_equal. by apply IH.
    + rewrite Hv. f_equal. by apply IH.
  - cbn. rewrite Hv. f_equal. apply IH. by intros w [= <-].
Qed.

Lemma ffill_from_floats (last : option pyval) (l : list pyval) :
  (forall w, last = Some w -> is_float w = true) ->
  forallb is_float l = true ->
  forallb is_float (ffill_from last l) = true.
Proof.
  revert last. induction l as [|v r IH]; intros last Hlast Hl; [done|]. cbn in *.
  apply andb_true_iff in Hl as [Hv Hr].
  destruct (isna v); [destruct last as [w|]|]; cbn; apply andb_true_iff; split;
    auto; apply IH; auto; by intros w' [= <-].
Qed.

Lemma fill_cell_idem (x : spec_float) (v : pyval) :
  fill_cell x (fill_cell x v) = fill_cell x v.
Proof.
  unfold fill_cell. destruct (isna v) eqn:Hv; [|by rewrite Hv].
  cbn. by destruct (Float64.is_nan x).
Qed.

Lemma present_floats_fill_nan (l : list pyval) :
  present_floats (map (fill_cell S754_nan) l) = present_floats l.
Proof.
  unfold present_floats. induction l as [|v l IH]; [done|]. cbn.
  unfold fill_cell at 1. destruct (isna v) eqn:Hv; cbn; [done|].
  rewrite Hv. cbn. unfold fill_cell at 1. rewrite Hv. by f_equal.
Qed.

Lemma fill_cell_present (x : spec_float) (l : list pyval) :
  Float64.is_nan x = false ->
  forall y, map (fill_cell y) (map (fill_cell x) l) = map (fill_cell x) l.
Proof.
  intros Hx y. rewrite map_map. apply map_ext. intros v. unfold fill_cell.
  destruct (isna v) eqn:Hv; cbn; [by rewrite Hx|by rewrite Hv].
Qed.

(** Filling the missing cells with the median twice is filling them
    once. *)
Lemma fill_median_idem (l : list pyval) :
  let filled := map (fill_cell (median_of (present_floats l))) l in
  map (fill_cell (median_of (present_floats filled))) filled = filled.
Proof.
  cbn zeta. destruct (Float64.is_nan (median_of (present_floats l))) eqn:Hm.
  - rewrite (is_nan_eq _ Hm), present_floats_fill_nan, (is_nan_eq _ Hm), map_map.
    apply map_ext. intros v. apply fill_cell_idem.
  - by apply fill_cell_present.
Qed.

Lemma fill_values_idem (c : string) (l : list pyval) :
  fill_values c (fill_values c l) = fill_values c l.
Proof.
  unfold fill_values. repeat case_bool_decide.
  - by apply ffill_from_idem.
  - rewrite map_map. apply map_ext. intros v. apply fill_cell_idem.
  - apply fill_median_idem.
Qed.

Lemma length_fillna_value (x : spec_float) (s s' : Series) :
  fillna_value x s = Ok s' -> length (values s') = length (values s).
Proof.
  unfold fillna_value. intros H.
  destruct (dtype_of s); repeat case_match; simplify_eq; cbn; by rewrite ?length_map.
Qed.

Lemma length_fill_column (c : string) (s s' : Series) :
  DataProcessor.fill_column c s = Ok s' -> length (values s') = length (values s).
Proof.
  unfold DataProcessor.fill_column. intros H. repeat case_match; simplify_eq; try done.
  - apply length_ffill_from.
  - by eapply length_fillna_value.
  - by eapply length_fillna_value.
Qed.

(** On a canonical column the policy is [fill_values], and the column
    stays canonical. *)
Lemma fill_column_canonical (c : string) (s s' : Series) :
  canonical s ->
  DataProcessor.fill_column c s = Ok s' ->
  values s' = fill_values c (values s) /\ canonical s'.
Proof.
  intros [Hfl [Hty|[Hty Hnil]]] H; unfold DataProcessor.fill_column in H;
    rewrite Hty in H; cbn [is_number] in H; unfold fill_values.
  - repeat case_bool_decide.
    + injection H as <-. cbn. split; [done|]. split; [|by left].
      by apply ffill_from_floats.
    + unfold fillna_value in H. rewrite Hty in H. injection H as <-. cbn.
      split; [done|]. split; [|by left]. apply forallb_Forall, Forall_map.
      apply forallb_Forall in Hfl. eapply Forall_impl; [exact Hfl|].
      intros v Hv. unfold fill_cell. cbn. by destruct (isna v).
    + unfold fillna_value in H. rewrite Hty in H. injection H as <-. cbn.
      split; [done|]. split; [|by left]. apply forallb_Forall, Forall_map.
      apply forallb_Forall in Hfl. eapply Forall_impl; [exact Hfl|].
      intros v Hv. unfold fill_cell. cbn. by destruct (isna v).
  - assert (s' = s) as ->.
    { destruct s as [ty l]. cbn [dtype_of values] in *. subst l.
      unfold fillna_value in H. cbn [dtype_of values] in H.
      repeat case_bool_decide; destruct ty; try done; by injection H as <-. }
    rewrite Hnil. split; [by repeat case_bool_decide|]. split; [done|]. right. done.
Qed.

Lemma fill_column_nil (c : string) (s s' : Series) :
  values s = [] -> DataProcessor.fill_column c s = Ok s' -> s' = s.
Proof.
  intros Hnil H. destruct s as [ty l]. cbn [values] in Hnil. subst l.
  unfold DataProcessor.fill_column, fillna_value in H. cbn [dtype_of values] in H.
  repeat case_bool_decide; destruct ty; try done; by injection H as <-.
Qed.

Lemma fill_column_canonical_dtype (c : string) (s s' : Series) :
  canonical s -> DataProcessor.fill_column c s = Ok s' -> dtype_of s' = dtype_of s.
Proof.
  intros [_ [Hty|[_ Hnil]]] H; [|by rewrite (fill_column_nil _ _ _ Hnil H)].
  unfold DataProcessor.fill_column, fillna_value in H. rewrite Hty in H.
  cbn [is_number] in H. repeat case_bool_decide; by injection H as <-.
Qed.

(** A column that is no price and no change column: filling it twice
    is filling it once, whatever its dtype. *)
Lemma fill_column_other_idem (c : string) (s s' : Series) :
  c ∉ ["current_price"; "previous_close"; "open"] ->
  c ∉ ["change"; "change_percent"] ->
  DataProcessor.fill_column c s = Ok s' ->
  DataProcessor.fill_column c s' = Ok s'.
Proof.
  intros Hp Hc. unfold DataProcessor.fill_column.
  rewrite !(bool_decide_eq_false_2 _ Hp), !(bool_decide_eq_false_2 _ Hc).
  destruct (is_number (dtype_of s)) eqn:Hnum.
  2:{ intros [= <-]. by rewrite Hnum. }
  unfold fillna_value, median. destruct s as [ty l]. cbn [dtype_of values] in *.
  destruct ty; try done.
  - intros [= <-]. cbn [dtype_of values]. f_equal. f_equal. apply fill_median_idem.
  - intros [= <-]. done.
  - destruct (negb (existsb isna l) || Float64.is_nan (median_of (present_floats l))) eqn:Hcond.
    + intros [= <-]. cbn [dtype_of values]. by rewrite Hcond.
    + destruct (exact_int _) as [z|]; [|done]. intros [= <-]. cbn [dtype_of values].
      assert (existsb isna (map (fun v => if isna v then PInt z else v) l) = false) as ->; [|done].
      clear. induction l as [|v l IH]; [done|]. cbn. rewrite IH.
      destruct (isna v) eqn:Hv; cbn; [done|]. by rewrite Hv.
Qed.

(** A column of missing cells only stays so. *)
Lemma fill_column_all_missing (c : string) (s s' : Series) :
  c ∉ ["change"; "change_percent"] ->
  Forall (fun v => isna v = true) (values s) ->
  DataProcessor.fill_column c s = Ok s' ->
  Forall (fun v => isna v = true) (values s').
Proof.
  intros Hc Hall. unfold DataProcessor.fill_column.
  rewrite (bool_decide_eq_false_2 _ Hc).
  destruct (is_number (dtype_of s)); [|by intros [= <-]].
  case_bool_decide.
  - intros [= <-]. cbn. clear -Hall. induction Hall as [|v l Hv Hl IH]; [done|].
    cbn. rewrite Hv. by constructor.
  - assert (median s = S754_nan) as ->.
    { unfold median, present_floats.
      assert (List.filter (fun v => negb (isna v)) (values s) = []) as ->; [|done].
      clear -Hall. induction Hall as [|v l Hv Hl IH]; [done|]. cbn. by rewrite Hv. }
    unfold fillna_value. intros Hf.
    destruct (dtype_of s); repeat case_match; simplify_eq; try done; cbn.
    all: apply Forall_map; eapply Forall_impl; [exact Hall|]; intros v Hv; cbn; by rewrite Hv.
Qed.

End FillFacts.

Section ThreeSteps.

Import Pandas Invariants.

Variable py_str : pyval -> string.
Variable numeric_of_str : string -> pyval.
Variable to_timestamp : pyval -> option Z.
Variable now : Z.

Lemma length_to_numeric (s : Series) :
  length (values (to_numeric numeric_of_str s)) = length (values s).
Proof.
  unfold to_numeric. destruct (dtype_of s); try done; cbn.
  - destruct (forallb _ _); cbn; by rewrite !length_map.
  - by rewrite length_map.
Qed.

(** The frame after the first three steps of the pipeline. *)
Variables df cleaned standardized filled : DataFrame.
Hypothesis Hclean : DataProcessor.clean_data py_str df = Ok cleaned.
Hypothesis Hstd :
  DataProcessor.standardize_formats numeric_of_str to_timestamp now cleaned = Ok standardized.
Hypothesis Hfill : DataProcessor.handle_missing_values standardized = Ok filled.

Lemma three_steps_nrows : nrows filled = nrows (DataProcessor.drop_error_rows df).
Proof using Hclean Hstd Hfill.
  apply clean_data_Ok in Hclean as (Hn & _). apply standardize_formats_Ok in Hstd as (Hn' & _).
  apply handle_missing_values_Ok in Hfill as (Hn'' & _). cbn zeta in Hn. congruence.
Qed.

Lemma three_steps_numeric (c : string) :
  c ∈ DataProcessor.numeric_columns ->
  match columns (DataProcessor.drop_error_rows df) !! c with
  | Some s0 =>
      exists sa sc,
        apply DataProcessor.clean_numeric_value s0 = Ok sa /\
        DataProcessor.fill_column c (to_numeric numeric_of_str sa) = Ok sc /\
        columns filled !! c = Some sc /\
        length (values sc) = length (values s0)
  | None => columns filled !! c = None
  end.
Proof using Hclean Hstd Hfill.
  intros Hc.
  apply clean_data_Ok in Hclean as (_ & Hnum & _). cbn zeta in Hnum.
  apply standardize_formats_Ok in Hstd as (_ & Hnum' & _).
  apply handle_missing_values_Ok in Hfill as (_ & Hcols).
  assert (c <> "company_name") as Hne by (intros ->; revert Hc; by_computation).
  specialize (Hnum c Hc). specialize (Hnum' c Hc). specialize (Hcols c Hne).
  destruct (columns (DataProcessor.drop_error_rows df) !! c) as [s0|].
  - destruct Hnum as (sa & Hsa & Ha). rewrite Ha in Hnum'. cbn in Hnum'.
    rewrite Hnum' in Hcols. destruct Hcols as (sc & Hsc & Hf).
    exists sa, sc. repeat split; try done.
    rewrite (length_fill_column _ _ _ Hsc), length_to_numeric. by eapply length_apply.
  - rewrite Hnum in Hnum'. cbn in Hnum'. by rewrite Hnum' in Hcols.
Qed.

Lemma three_steps_market_cap :
  match columns (DataProcessor.drop_error_rows df) !! "market_cap" with
  | Some s0 =>
      exists sa sc,
        apply (fun v => Ok (DataProcessor.clean_market_cap_value py_str v)) s0 = Ok sa /\
        DataProcessor.fill_column "market_cap" sa = Ok sc /\
        columns filled !! "market_cap" = Some sc
  | None => columns filled !! "market_cap" = None
  end.
Proof using Hclean Hstd Hfill.
  apply clean_data_Ok in Hclean as (_ & _ & _ & Hcap & _). cbn zeta in Hcap.
  apply standardize_formats_Ok in Hstd as (_ & _ & Hoth).
  apply handle_missing_values_Ok in Hfill as (_ & Hcols).
  specialize (Hoth "market_cap" ltac:(by_computation) ltac:(done) ltac:(done) ltac:(done)).
  specialize (Hcols "market_cap" ltac:(done)). rewrite Hoth in Hcols.
  destruct (columns (DataProcessor.drop_error_rows df) !! "market_cap") as [s0|].
  - destruct Hcap as (sa & Hsa & Ha). rewrite Ha in Hcols.
    destruct Hcols as (sc & Hsc & Hf). by exists sa, sc.
  - by rewrite Hcap in Hcols.
Qed.

Lemma three_steps_other (c : string) :
  c ∉ Claimed.cleaned_columns -> c <> "timestamp" -> c <> "processed_at" ->
  match columns (DataProcessor.drop_error_rows df) !! c with
  | Some s0 =>
      exists sc,
        DataProcessor.fill_column c s0 = Ok sc /\
        columns filled !! c = Some sc /\
        length (values sc) = length (values s0)
  | None => columns filled !! c = None
  end.
Proof using Hclean Hstd Hfill.
  intros Hc Ht Hp.
  assert ((c ∉ DataProcessor.numeric_columns) /\ c <> "volume" /\ c <> "company_name")
    as (Hn & Hv & Hname).
  { unfold Claimed.cleaned_columns in Hc. rewrite elem_of_app, !elem_of_cons in Hc.
    repeat split; intros ?; apply Hc; subst; auto. }
  apply clean_data_Ok in Hclean as (_ & _ & _ & _ & _ & Hoth). cbn zeta in Hoth.
  apply standardize_formats_Ok in Hstd as (_ & _ & Hoth').
  apply handle_missing_values_Ok in Hfill as (_ & Hcols).
  specialize (Hcols c Hname). rewrite (Hoth' c Hn Ht Hv Hp), (Hoth c Hc) in Hcols.
  destruct (columns (DataProcessor.drop_error_rows df) !! c) as [s0|]; [|done].
  destruct Hcols as (sc & Hsc & Hf). exists sc. repeat split; try done.
  by eapply length_fill_column.
Qed.

End ThreeSteps.

Section DropAgain.

Import Pandas.

Lemma select_mask_all (errors : list pyval) {A : Type} (xs : list A) :
  Forall (fun v => isna v = true) errors ->
  (length xs <= length errors)%nat ->
  select_mask (map isna errors) xs = xs.
Proof.
  intros Hall. revert xs. induction Hall as [|e errors He Hall IH]; intros [|x xs] Hlen;
    cbn in *; try done; [lia|].
  rewrite He. f_equal. apply IH. lia.
Qed.

(** The error cells that [drop_error_rows] keeps are missing. *)
Lemma drop_error_rows_error (df : DataFrame) (s : Series) :
  columns (DataProcessor.drop_error_rows df) !! "error" = Some s ->
  Forall (fun v => isna v = true) (values s).
Proof.
  rewrite drop_error_rows_lookup. destruct (columns df !! "error") as [e|]; [|done].
  cbn. intros [= <-]. cbn. unfold isna_mask.
  rewrite select_mask_zip.
  change (Forall (fun v => isna v = true)
            (Claimed.rows_without_error (values e) (values e))).
  rewrite rows_without_error_self. apply Forall_forall.
  intros v Hv. by apply list_elem_of_filter in Hv as [? _].
Qed.

(** On a frame whose error cells are all missing, [drop_error_rows]
    leaves a column of full length as it is. *)
Lemma drop_error_rows_same (d : DataFrame) (c : string) :
  match columns d !! "error" with
  | Some e => Forall (fun v => isna v = true) (values e) /\ length (values e) = nrows d
  | None => True
  end ->
  (forall s, columns d !! c = Some s -> length (values s) = nrows d) ->
  columns (DataProcessor.drop_error_rows d) !! c = columns d !! c.
Proof.
  intros He Hlen. rewrite drop_error_rows_lookup.
  destruct (columns d !! "error") as [e|]; [|done]. destruct He as [Hall Hn].
  destruct (columns d !! c) as [s|]; [|done]. cbn. f_equal.
  unfold isna_mask. rewrite select_mask_all; [by destruct s|done|].
  rewrite Hn, (Hlen s eq_refl). done.
Qed.

End DropAgain.

Section MarketCap.

Import Pandas Invariants.

Lemma contains_lstrip (p : ascii -> bool) (c : ascii) (s : string) :
  p c = false -> Py.contains c (Py.lstrip_by p s) = Py.contains c s.
Proof.
  intros Hc. induction s as [|a r IH]; [done|]. cbn.
  destruct (p a) eqn:Ha; [|done]. rewrite IH.
  destruct (Ascii.eqb_spec a c) as [->|]; [congruence|done].
Qed.

Lemma contains_rstrip (p : ascii -> bool) (c : ascii) (s : string) :
  p c = false -> Py.contains c (Py.rstrip_by p s) = Py.contains c s.
Proof.
  intros Hc. induction s as [|a r IH]; [done|]. cbn.
  destruct (Py.rstrip_by p r) as [|b r'] eqn:Hr.
  - cbn in IH. rewrite <- IH. destruct (p a) eqn:Ha; cbn; [|done].
    destruct (Ascii.eqb_spec a c) as [->|]; [congruence|done].
  - cbn [Py.contains]. by rewrite <- IH.
Qed.

Lemma contains_strip (c : ascii) (s : string) :
  Py.is_space c = false -> Py.contains c (Py.strip s) = Py.contains c s.
Proof. intros Hc. unfold Py.strip. by rewrite contains_rstrip, contains_lstrip. Qed.

Variable py_str : pyval -> string.

Lemma clean_market_cap_value_range (v : pyval) :
  text_cell (DataProcessor.clean_market_cap_value py_str v).
Proof.
  unfold DataProcessor.clean_market_cap_value, text_cell.
  destruct (isna v); [by left|]. right. destruct v; eauto.
Qed.

(** The category does not change when the market cap is cleaned
    again. *)
Lemma categorize_market_cap_cleaned (v : pyval) :
  text_cell v ->
  DataProcessor.categorize_market_cap (DataProcessor.clean_market_cap_value py_str v)
    = DataProcessor.categorize_market_cap v.
Proof.
  intros [->|[s ->]]; [done|].
  unfold DataProcessor.clean_market_cap_value, DataProcessor.categorize_market_cap.
  cbn [isna]. by rewrite !contains_strip.
Qed.

Lemma infer_objects_text (l : list pyval) :
  Forall text_cell l -> infer_objects l = mkSeries Object l.
Proof.
  intros Hl. unfold infer_objects.
  destruct (forallb is_number_val l) eqn:Hnum; cbn [negb]; [|done].
  assert (forallb is_none l = true) as ->; [|done].
  clear -Hl Hnum. induction Hl as [|v l Hv Hl IH]; [done|]. cbn in *.
  apply andb_true_iff in Hnum as [Hn Hnum]. rewrite (IH Hnum).
  destruct Hv as [->|[s ->]]; done.
Qed.

Lemma apply_pure (f : pyval -> pyval) (s : Series) :
  apply (fun v => Ok (f v)) s = Ok (applied s (map f (values s))).
Proof. unfold apply. by rewrite mapM_pure. Qed.

(** The column [apply] makes of texts: an [object] column, or the
    column without rows with its own dtype. *)
Lemma applied_text (s : Series) (f : pyval -> pyval) :
  (forall v, text_cell (f v)) ->
  applied s (map f (values s))
    = mkSeries (match values s with [] => dtype_of s | _ => Object end) (map f (values s)).
Proof.
  intros Hf. unfold applied. destruct (values s) as [|v l] eqn:Hs; [done|].
  apply infer_objects_text, Forall_map, Forall_true, Hf.
Qed.

(** The market cap column after the first three steps. *)
Lemma market_cap_column (s0 sa sc : Series) :
  apply (fun v => Ok (DataProcessor.clean_market_cap_value py_str v)) s0 = Ok sa ->
  DataProcessor.fill_column "market_cap" sa = Ok sc ->
  sc = mkSeries (match values s0 with [] => dtype_of s0 | _ => Object end)
                (map (DataProcessor.clean_market_cap_value py_str) (values s0)).
Proof.
  rewrite apply_pure. intros [= <-].
  rewrite applied_text by apply clean_market_cap_value_range.
  destruct (values s0) as [|v l] eqn:Hs.
  - intros H. by apply fill_column_nil in H.
  - unfold DataProcessor.fill_column. cbn. by intros [= <-].
Qed.

End MarketCap.

Section PercentExt.

Import Pandas.

(** The percentage of three columns depends on their cells only. *)
Lemma percent_of_ext (a b c a' b' c' m m' : Series) :
  values a' = values a -> values b' = values b -> values c' = values c ->
  DataProcessor.percent_of a b c = Ok m ->
  DataProcessor.percent_of a' b' c' = Ok m' ->
  m' = m.
Proof.
  intros Ha Hb Hc H H'.
  apply percent_of_Ok in H as (Hty & Hlen & Hrows).
  apply percent_of_Ok in H' as (Hty' & Hlen' & Hrows').
  rewrite Ha, Hb, Hc in Hlen', Hrows'.
  destruct m as [ty l], m' as [ty' l']. cbn in *. subst ty ty'. f_equal.
  apply list_eq. intros i.
  destruct (values a !! i) as [x|] eqn:Hx, (values b !! i) as [y|] eqn:Hy,
           (values c !! i) as [z|] eqn:Hz;
    try (by rewrite (Hrows _ _ _ _ Hx Hy Hz), (Hrows' _ _ _ _ Hx Hy Hz)).
  all: apply lookup_ge_None in Hx || apply lookup_ge_None in Hy || apply lookup_ge_None in Hz.
  all: rewrite !(lookup_ge_None_2) by lia; done.
Qed.

(** A column computed by [apply] depends on the cells only. *)
Lemma apply_ext f (s s' : Series) :
  values s' = values s -> dtype_of s' = dtype_of s -> apply f s' = apply f s.
Proof. unfold apply, applied. by intros -> ->. Qed.

End PercentExt.

Section Rerun.

Import Pandas Invariants.

Variable py_str : pyval -> string.
Variable numeric_of_str : string -> pyval.
Variable to_timestamp : pyval -> option Z.
Variables now now' : Z.

(** The first run, on [df], and the second, on its result [d1]. *)
Variables df a1 b1 c1 d1 a2 b2 c2 d2 : DataFrame.
Hypothesis Hwf : wf df.
Hypothesis Ha1 : DataProcessor.clean_data py_str df = Ok a1.
Hypothesis Hb1 : DataProcessor.standardize_formats numeric_of_str to_timestamp now a1 = Ok b1.
Hypothesis Hc1 : DataProcessor.handle_missing_values b1 = Ok c1.
Hypothesis Hd1 : DataProcessor.add_derived_metrics c1 = Ok d1.
Hypothesis Ha2 : DataProcessor.clean_data py_str d1 = Ok a2.
Hypothesis Hb2 : DataProcessor.standardize_formats numeric_of_str to_timestamp now' a2 = Ok b2.
Hypothesis Hc2 : DataProcessor.handle_missing_values b2 = Ok c2.
Hypothesis Hd2 : DataProcessor.add_derived_metrics c2 = Ok d2.

Lemma numeric_not_derived (c : string) :
  c ∈ DataProcessor.numeric_columns -> c ∉ Claimed.derived_columns.
Proof.
  assert (Forall (fun c => c ∉ Claimed.derived_columns) DataProcessor.numeric_columns) as H
    by by_computation.
  rewrite Forall_forall in H. apply H.
Qed.

Lemma derived_is_other (c : string) :
  c ∈ Claimed.derived_columns ->
  (c ∉ Claimed.cleaned_columns) /\ c <> "timestamp" /\ c <> "processed_at" /\
  (c ∉ ["current_price"; "previous_close"; "open"]) /\
  (c ∉ ["change"; "change_percent"]).
Proof.
  assert (Forall (fun c => (c ∉ Claimed.cleaned_columns) /\ c <> "timestamp" /\
                           c <> "processed_at" /\
                           (c ∉ ["current_price"; "previous_close"; "open"]) /\
                           (c ∉ ["change"; "change_percent"]))
                 Claimed.derived_columns) as H by by_computation.
  rewrite Forall_forall in H. apply H.
Qed.

Lemma rerun_nrows : nrows d1 = nrows (DataProcessor.drop_error_rows df).
Proof using Ha1 Hb1 Hc1 Hd1.
  apply add_derived_metrics_Ok in Hd1 as (Hn & _). rewrite Hn.
  by eapply three_steps_nrows.
Qed.

Lemma rerun_length_dropped (c : string) (s0 : Series) :
  columns (DataProcessor.drop_error_rows df) !! c = Some s0 ->
  length (values s0) = nrows d1.
Proof using Hwf Ha1 Hb1 Hc1 Hd1.
  intros Hs0. rewrite rerun_nrows. by apply (wf_drop_error_rows df Hwf c).
Qed.

(** The error column of the first result has missing cells only. *)
Lemma rerun_error_column :
  match columns d1 !! "error" with
  | Some e => Forall (fun v => isna v = true) (values e) /\ length (values e) = nrows d1
  | None => True
  end.
Proof using Hwf Ha1 Hb1 Hc1 Hd1.
  pose proof (three_steps_other _ _ _ _ _ _ _ _ Ha1 Hb1 Hc1 "error"
                ltac:(by_computation) ltac:(done) ltac:(done)) as H.
  pose proof Hd1 as Hd. apply add_derived_metrics_Ok in Hd as (_ & Hoth & _).
  rewrite (Hoth "error") by by_computation.
  destruct (columns (DataProcessor.drop_error_rows df) !! "error") as [s0|] eqn:Hs0.
  - destruct H as (sc & Hsc & -> & Hlen). split.
    + eapply fill_column_all_missing; [|by eapply drop_error_rows_error|exact Hsc].
      by_computation.
    + rewrite Hlen. by eapply rerun_length_dropped.
  - by rewrite H.
Qed.

(** A source column of the numeric kind keeps its cells in the second
    run. *)
Lemma rerun_numeric (c : string) :
  c ∈ DataProcessor.numeric_columns ->
  match columns c1 !! c with
  | Some s1 =>
      exists s2, columns c2 !! c = Some s2 /\ values s2 = values s1 /\
                 dtype_of s2 = dtype_of s1
  | None => columns c2 !! c = None
  end.
Proof using All.
  intros Hc.
  pose proof (numeric_not_derived c Hc) as Hnd.
  pose proof (three_steps_numeric _ _ _ _ _ _ _ _ Ha1 Hb1 Hc1 c Hc) as H1.
  pose proof (three_steps_numeric _ _ _ _ _ _ _ _ Ha2 Hb2 Hc2 c Hc) as H2.
  pose proof Hd1 as Hd. apply add_derived_metrics_Ok in Hd as (_ & Hoth & _).
  assert (columns (DataProcessor.drop_error_rows d1) !! c = columns c1 !! c) as Hdrop.
  { rewrite <- (Hoth c Hnd). apply drop_error_rows_same; [apply rerun_error_column|].
    intros s Hs. rewrite (Hoth c Hnd) in Hs.
    destruct (columns (DataProcessor.drop_error_rows df) !! c) as [s0|] eqn:Hs0.
    - destruct H1 as (sa & sc & _ & _ & Hf & Hlen). rewrite Hf in Hs. injection Hs as <-.
      rewrite Hlen. by eapply rerun_length_dropped.
    - by rewrite H1 in Hs. }
  rewrite Hdrop in H2.
  destruct (columns (DataProcessor.drop_error_rows df) !! c) as [s0|].
  - destruct H1 as (sa & s1 & Hsa & Hs1 & Hf1 & _). rewrite Hf1 in H2 |- *.
    destruct H2 as (sa2 & s2 & Hsa2 & Hs2 & Hf2 & _). exists s2. split; [done|].
    apply apply_Ok in Hsa as (l & Hl & ->).
    destruct (to_numeric_applied_cleaned numeric_of_str s0 l) as [_ Hcan].
    { by apply mapM_Ok in Hl as [Hlen _]. }
    { eapply mapM_range; [|exact Hl]. apply clean_numeric_value_range. }
    destruct (fill_column_canonical _ _ _ Hcan Hs1) as [Hv1 Hcan1].
    destruct (canonical_renormalize numeric_of_str _ _ Hcan1 Hsa2) as [Hv2 Hcan2].
    destruct (fill_column_canonical _ _ _ Hcan2 Hs2) as [Hv3 _].
    split; [by rewrite Hv3, Hv2, Hv1, fill_values_idem|].
    rewrite (fill_column_canonical_dtype _ _ _ Hcan2 Hs2).
    by apply canonical_renormalize_dtype.
  - rewrite H1 in H2 |- *. exact H2.
Qed.

(** The market cap column of the second run is that of the first,
    cleaned again. *)
Lemma rerun_market_cap :
  match columns c1 !! "market_cap" with
  | Some s1 =>
      Forall text_cell (values s1) /\
      exists s2, columns c2 !! "market_cap" = Some s2 /\
                 values s2 = map (DataProcessor.clean_market_cap_value py_str) (values s1) /\
                 dtype_of s2 = dtype_of s1
  | None => columns c2 !! "market_cap" = None
  end.
Proof using All.
  pose proof (three_steps_market_cap _ _ _ _ _ _ _ _ Ha1 Hb1 Hc1) as H1.
  pose proof (three_steps_market_cap _ _ _ _ _ _ _ _ Ha2 Hb2 Hc2) as H2.
  pose proof Hd1 as Hd. apply add_derived_metrics_Ok in Hd as (_ & Hoth & _).
  assert (columns (DataProcessor.drop_error_rows d1) !! "market_cap"
          = columns c1 !! "market_cap") as Hdrop.
  { rewrite <- (Hoth "market_cap") by by_computation.
    apply drop_error_rows_same; [apply rerun_error_column|].
    intros s Hs. rewrite (Hoth "market_cap") in Hs by by_computation.
    destruct (columns (DataProcessor.drop_error_rows df) !! "market_cap") as [s0|] eqn:Hs0.
    - destruct H1 as (sa & sc & Hsa & Hsc & Hf). rewrite Hf in Hs. injection Hs as <-.
      rewrite (market_cap_column _ _ _ _ Hsa Hsc). cbn. rewrite length_map.
      by eapply rerun_length_dropped.
    - by rewrite H1 in Hs. }
  rewrite Hdrop in H2.
  destruct (columns (DataProcessor.drop_error_rows df) !! "market_cap") as [s0|].
  - destruct H1 as (sa & s1 & Hsa & Hs1 & Hf1). rewrite Hf1 in H2 |- *.
    destruct H2 as (sa2 & s2 & Hsa2 & Hs2 & Hf2).
    rewrite (market_cap_column _ _ _ _ Hsa Hs1) in *. cbn [values dtype_of] in *. split.
    + apply Forall_map, Forall_true, clean_market_cap_value_range.
    + exists s2. split; [done|]. rewrite (market_cap_column _ _ _ _ Hsa2 Hs2).
      cbn [values dtype_of]. split; [done|]. by destruct (values s0).
  - rewrite H1 in H2 |- *. exact H2.
Qed.

(** A column that the first run did not derive is the same after the
    second run as after the first, up to the derivation. *)
Lemma rerun_other (c : string) :
  c ∈ Claimed.derived_columns ->
  columns d1 !! c = columns c1 !! c ->
  columns c2 !! c = columns c1 !! c.
Proof using All.
  intros Hc Hkept.
  destruct (derived_is_other c Hc) as (Hn & Ht & Hp & Hprice & Hchange).
  pose proof (three_steps_other _ _ _ _ _ _ _ _ Ha1 Hb1 Hc1 c Hn Ht Hp) as H1.
  pose proof (three_steps_other _ _ _ _ _ _ _ _ Ha2 Hb2 Hc2 c Hn Ht Hp) as H2.
  assert (columns (DataProcessor.drop_error_rows d1) !! c = columns c1 !! c) as Hdrop.
  { rewrite <- Hkept. apply drop_error_rows_same; [apply rerun_error_column|].
    intros s Hs. rewrite Hkept in Hs.
    destruct (columns (DataProcessor.drop_error_rows df) !! c) as [s0|] eqn:Hs0.
    - destruct H1 as (sc & _ & Hf & Hlen). rewrite Hf in Hs. injection Hs as <-.
      rewrite Hlen. by eapply rerun_length_dropped.
    - by rewrite H1 in Hs. }
  rewrite Hdrop in H2.
  destruct (columns (DataProcessor.drop_error_rows df) !! c) as [s0|].
  - destruct H1 as (s1 & Hs1 & Hf1 & _). rewrite Hf1 in H2 |- *.
    destruct H2 as (s2 & Hs2 & Hf2 & _).
    rewrite (fill_column_other_idem _ _ _ Hprice Hchange Hs1) in Hs2. by injection Hs2 as <-.
  - rewrite H1 in H2 |- *. exact H2.
Qed.

End Rerun.

(** C9.  When the four steps have turned a well-formed frame into [d1]
    and, run on [d1], turn it into [d2], the four derived columns of
    [d2] are those of [d1]: momentum and volatility are recomputed from
    the same prices and not scaled again, and the two categories are
    unchanged. *)
Theorem rerun_keeps_derived_columns
    (py_str : pyval -> string) (numeric_of_str : string -> pyval)
    (to_timestamp : pyval -> option Z) (now now' : Z)
    (df d1 d2 : Pandas.DataFrame) :
  Pandas.wf df ->
  DataProcessor.run_steps py_str numeric_of_str to_timestamp now df = Ok d1 ->
  DataProcessor.run_steps py_str numeric_of_str to_timestamp now' d1 = Ok d2 ->
  forall c, c ∈ Claimed.derived_columns ->
            Pandas.columns d2 !! c = Pandas.columns d1 !! c.
Proof.
  intros Hwf H1 H2.
  unfold DataProcessor.run_steps in H1, H2.
  apply bind_Ok in H1 as (a1 & Ha1 & H1). apply bind_Ok in H1 as (b1 & Hb1 & H1).
  apply bind_Ok in H1 as (c1 & Hc1 & Hd1).
  apply bind_Ok in H2 as (a2 & Ha2 & H2). apply bind_Ok in H2 as (b2 & Hb2 & H2).
  apply bind_Ok in H2 as (c2 & Hc2 & Hd2).
  pose proof (rerun_numeric py_str numeric_of_str to_timestamp now now'
                df a1 b1 c1 d1 a2 b2 c2 d2 Hwf Ha1 Hb1 Hc1 Hd1 Ha2 Hb2 Hc2 Hd2) as Hnum.
  pose proof (rerun_market_cap py_str numeric_of_str to_timestamp now now'
                df a1 b1 c1 d1 a2 b2 c2 d2 Hwf Ha1 Hb1 Hc1 Hd1 Ha2 Hb2 Hc2 Hd2) as Hcap.
  pose proof (rerun_other py_str numeric_of_str to_timestamp now now'
                df a1 b1 c1 d1 a2 b2 c2 d2 Hwf Ha1 Hb1 Hc1 Hd1 Ha2 Hb2 Hc2 Hd2) as Hoth.
  pose proof (Hnum "current_price" ltac:(by_computation)) as Ncp.
  pose proof (Hnum "previous_close" ltac:(by_computation)) as Npc.
  pose proof (Hnum "day_high" ltac:(by_computation)) as Ndh.
  pose proof (Hnum "day_low" ltac:(by_computation)) as Ndl.
  pose proof (Hnum "change_percent" ltac:(by_computation)) as Nch.
  apply add_derived_metrics_Ok in Hd1 as (_ & _ & Hm1 & Hv1 & Hk1 & Hp1).
  apply add_derived_metrics_Ok in Hd2 as (_ & _ & Hm2 & Hv2 & Hk2 & Hp2).
  intros c Hc. unfold Claimed.derived_columns in Hc. rewrite !elem_of_cons in Hc.
  destruct Hc as [->|[->|[->|[->|Hc]]]]; [| | | |by apply elem_of_nil in Hc].
  - (* price_momentum *)
    specialize (Hoth "price_momentum" ltac:(by_computation)).
    destruct (Pandas.columns c1 !! "current_price") as [p|],
             (Pandas.columns c1 !! "previous_close") as [q|].
    + destruct Ncp as (p' & Ep & Hp' & _), Npc as (q' & Eq & Hq' & _). rewrite Ep, Eq in Hm2.
      destruct Hm1 as (m1 & Hm1 & E1), Hm2 as (m2 & Hm2 & E2). rewrite E1, E2. f_equal.
      by eapply percent_of_ext; [..|exact Hm1|exact Hm2].
    + destruct Ncp as (p' & Ep & _). rewrite Ep, Npc in Hm2. by rewrite Hm2, Hm1, Hoth.
    + rewrite Ncp in Hm2. by rewrite Hm2, Hm1, Hoth.
    + rewrite Ncp in Hm2. by rewrite Hm2, Hm1, Hoth.
  - (* daily_volatility *)
    specialize (Hoth "daily_volatility" ltac:(by_computation)).
    destruct (Pandas.columns c1 !! "day_high") as [h|],
             (Pandas.columns c1 !! "day_low") as [l|].
    + destruct Ndh as (h' & Eh & Hh' & _), Ndl as (l' & El & Hl' & _). rewrite Eh, El in Hv2.
      destruct Hv1 as (p & v1 & Hp & Hv1 & E1), Hv2 as (p' & v2 & Hp'' & Hv2 & E2).
      rewrite Hp in Ncp. destruct Ncp as (p2 & Ep & Hpv & _). rewrite Hp'' in Ep.
      injection Ep as <-. rewrite E1, E2. f_equal.
      by eapply percent_of_ext; [..|exact Hv1|exact Hv2].
    + destruct Ndh as (h' & Eh & _). rewrite Eh, Ndl in Hv2. by rewrite Hv2, Hv1, Hoth.
    + rewrite Ndh in Hv2. by rewrite Hv2, Hv1, Hoth.
    + rewrite Ndh in Hv2. by rewrite Hv2, Hv1, Hoth.
  - (* market_cap_category *)
    specialize (Hoth "market_cap_category" ltac:(by_computation)).
    destruct (Pandas.columns c1 !! "market_cap") as [caps|].
    + destruct Hcap as (Htext & caps' & Ec & Hcaps' & Hty). rewrite Ec in Hk2.
      destruct Hk1 as (k1 & Hk1 & E1), Hk2 as (k2 & Hk2 & E2). rewrite E1, E2. f_equal.
      rewrite apply_pure in Hk1, Hk2. injection Hk1 as <-. injection Hk2 as <-.
      assert (map (fun v => PStr (DataProcessor.categorize_market_cap v))
                  (map (DataProcessor.clean_market_cap_value py_str) (Pandas.values caps))
              = map (fun v => PStr (DataProcessor.categorize_market_cap v))
                    (Pandas.values caps)) as Hsame.
      { rewrite map_map. apply Forall_fmap_ext_1. eapply Forall_impl; [exact Htext|].
        intros v Hv. cbn. f_equal. by apply categorize_market_cap_cleaned. }
      unfold Pandas.applied. rewrite Hcaps', Hty, Hsame.
      by destruct (Pandas.values caps).
    + rewrite Hcap in Hk2. by rewrite Hk2, Hk1, Hoth.
  - (* performance_category *)
    specialize (Hoth "performance_category" ltac:(by_computation)).
    destruct (Pandas.columns c1 !! "change_percent") as [changes|].
    + destruct Nch as (changes' & Ec & Hch & Hty). rewrite Ec in Hp2.
      destruct Hp1 as (k1 & Hq1 & E1), Hp2 as (k2 & Hq2 & E2). rewrite E1, E2. f_equal.
      rewrite (apply_ext _ _ _ Hch Hty), Hq1 in Hq2. by injection Hq2.
    + rewrite Nch in Hp2. by rewrite Hp2, Hp1, Hoth.
Qed.

Lemma first_run :
  DataProcessor.run_steps Examples.py_str Examples.numeric_of_str Examples.to_timestamp 0
    Examples.raw_batch = Ok Examples.processed.
Proof. vm_compute. reflexivity. Qed.

Lemma second_run :
  DataProcessor.run_steps Examples.py_str Examples.numeric_of_str Examples.to_timestamp 1
    Examples.processed = Ok Examples.processed_twice.
Proof. vm_compute. reflexivity. Qed.

Lemma price_momentum_is_derived : "price_momentum" ∈ Claimed.derived_columns.
Proof. by_computation. Qed.

Lemma rerun_keeps_derived_columns_witness :
  Pandas.wf Examples.raw_batch /\
  DataProcessor.run_steps Examples.py_str Examples.numeric_of_str Examples.to_timestamp 0
    Examples.raw_batch = Ok Examples.processed /\
  DataProcessor.run_steps Examples.py_str Examples.numeric_of_str Examples.to_timestamp 1
    Examples.processed = Ok Examples.processed_twice /\
  Pandas.columns Examples.processed_twice !! "price_momentum"
    = Pandas.columns Examples.processed !! "price_momentum".
Proof.
  split; [exact wf_raw_batch|]. split; [exact first_run|]. split; [exact second_run|].
  exact (rerun_keeps_derived_columns Examples.py_str Examples.numeric_of_str
           Examples.to_timestamp 0 1 Examples.raw_batch Examples.processed
           Examples.processed_twice wf_raw_batch first_run second_run
           "price_momentum" price_momentum_is_derived).
Defined.

(** The first run on the example batch: the momentum is 10 for the
    first row and an infinity where the previous close is 0. *)
Example run_steps_example :
  Pandas.values <$> Pandas.columns Examples.processed !! "price_momentum"
    = Some [PFloat (Float64.of_Z 10); PFloat (S754_infinity false);
            PFloat (Float64.of_Z 2100); PFloat (Float64.of_Z 300)] /\
  Pandas.values <$> Pandas.columns Examples.processed !! "market_cap_category"
    = Some [PStr "Mega Cap"; PStr "Unknown"; PStr "Large Cap"; PStr "Small Cap"] /\
  Pandas.values <$> Pandas.columns Examples.processed !! "volume"
    = Some [PInt 1200000; PInt 950000; PInt 950000; PInt 12345] /\
  Pandas.columns Examples.processed_twice !! "daily_volatility"
    = Pandas.columns Examples.processed !! "daily_volatility".
Proof. vm_compute. repeat split; reflexivity. Qed.

(** * Further properties of the code *)

(** ** Signs and NaN in the rounding of binary64 *)

Section RoundingFacts.

Lemma shr_1_nonneg (mrs : shr_record) : 0 <= shr_m mrs -> 0 <= shr_m (shr_1 mrs).
Proof. destruct mrs as [[|[p|p|]|p] r s]; cbn; lia. Qed.

Lemma iter_shr_1_nonneg (p : positive) (mrs : shr_record) :
  0 <= shr_m mrs -> 0 <= shr_m (SpecFloat.iter_pos shr_1 p mrs).
Proof.
  revert mrs. induction p as [p IH|p IH|]; intros mrs H; cbn.
  - apply IH, IH. by apply shr_1_nonneg.
  - by apply IH, IH.
  - by apply shr_1_nonneg.
Qed.

Lemma shr_fexp_nonneg (m e : Z) (l : location) :
  0 <= m -> 0 <= shr_m (shr_fexp Float64.prec Float64.emax m e l).1.
Proof.
  intros H. unfold shr_fexp, shr.
  assert (0 <= shr_m (shr_record_of_loc m l)) as H0 by (by destruct l as [|[]]).
  destruct (_ - e); cbn; [done| |done]. by apply iter_shr_1_nonneg.
Qed.

Lemma round_nearest_even_nonneg (m : Z) (l : location) :
  0 <= m -> 0 <= round_nearest_even m l.
Proof. intros H. destruct l as [|[]]; cbn; try lia. destruct (Z.even m); lia. Qed.

(** Rounding never makes a NaN and keeps the sign it is given. *)
Lemma binary_round_aux_sign (sx : bool) (mx ex : Z) (lx : location) :
  0 <= mx ->
  match binary_round_aux Float64.prec Float64.emax sx mx ex lx with
  | S754_zero s | S754_infinity s | S754_finite s _ _ => s = sx
  | S754_nan => False
  end.
Proof.
  intros H. unfold binary_round_aux.
  pose proof (shr_fexp_nonneg mx ex lx H) as H1.
  destruct (shr_fexp _ _ mx ex lx) as [mrs' e']. cbn in H1.
  pose proof (shr_fexp_nonneg _ e' loc_Exact
                (round_nearest_even_nonneg _ (loc_of_shr_record mrs') H1)) as H2.
  destruct (shr_fexp _ _ _ e' loc_Exact) as [mrs'' e'']. cbn in H2.
  destruct (shr_m mrs'') as [|m|m]; [done| |lia].
  by destruct (e'' <=? _).
Qed.

Lemma binary_normalize_sign (m e : Z) :
  match binary_normalize Float64.prec Float64.emax m e false with
  | S754_zero s | S754_infinity s | S754_finite s _ _ => s = (m <? 0)
  | S754_nan => False
  end.
Proof.
  destruct m as [|p|p]; cbn [binary_normalize]; [done| |].
  - unfold binary_round. destruct (shl_align _ _ _) as [mz ez].
    by apply (binary_round_aux_sign false).
  - unfold binary_round. destruct (shl_align _ _ _) as [mz ez].
    by apply (binary_round_aux_sign true).
Qed.

Lemma of_Z_not_nan (z : Z) : Float64.is_nan (Float64.of_Z z) = false.
Proof.
  unfold Float64.of_Z. pose proof (binary_normalize_sign z 0) as H.
  by destruct (binary_normalize _ _ z 0 false).
Qed.

Lemma of_decimal_sign (neg : bool) (m e10 : Z) :
  0 <= m ->
  match Float64.of_decimal neg m e10 with
  | S754_zero s | S754_infinity s | S754_finite s _ _ => s = neg
  | S754_nan => False
  end.
Proof.
  intros Hm. unfold Float64.of_decimal. destruct m as [|p|p]; [done| |lia].
  destruct (0 <=? e10) eqn:He.
  - pose proof (binary_normalize_sign (if neg then - (Z.pos p * 10 ^ e10) else Z.pos p * 10 ^ e10) 0)
      as H.
    assert (0 < Z.pos p * 10 ^ e10) as Hpos.
    { apply Z.mul_pos_pos; [done|]. apply Z.pow_pos_nonneg; lia. }
    assert (((if neg then - (Z.pos p * 10 ^ e10) else Z.pos p * 10 ^ e10) <? 0) = neg) as Hs.
    { destruct neg; [apply Z.ltb_lt|apply Z.ltb_ge]; lia. }
    rewrite Hs in H. exact H.
  - unfold Float64.div, SFdiv.
    destruct (SFdiv_core_binary _ _ _ _ _ _) as [[mz ez] lz] eqn:Hcore.
    replace (xorb neg false) with neg by (by destruct neg).
    apply binary_round_aux_sign.
    unfold SFdiv_core_binary in Hcore.
    set (m' := match _ - _ - _ with Z0 => _ | Zpos _ => _ | Zneg _ => _ end) in Hcore.
    assert (0 <= m') as Hm'.
    { subst m'. destruct (_ - _ - _); [lia| |lia]. apply Z.shiftl_nonneg. lia. }
    pose proof (Z.div_pos m' (Z.pos (Z.to_pos (10 ^ (- e10)))) Hm' ltac:(lia)) as Hq.
    unfold Z.div in Hq. destruct (Z.div_eucl m' _) as [q r]. cbn in Hq.
    by injection Hcore as <- _ _.
Qed.

End RoundingFacts.

(** ** What [float()] reads in a cleaned text *)

Section FloatTextFacts.

Import Text.

Lemma all_chars_lstrip (p q : ascii -> bool) (s : string) :
  all_chars p s = true -> all_chars p (Py.lstrip_by q s) = true.
Proof.
  induction s as [|a r IH]; [done|]. cbn. intros [Ha Hr]%andb_true_iff.
  destruct (q a); [by apply IH|]. cbn. by rewrite Ha, Hr.
Qed.

Lemma all_chars_rstrip (p q : ascii -> bool) (s : string) :
  all_chars p s = true -> all_chars p (Py.rstrip_by q s) = true.
Proof.
  induction s as [|a r IH]; [done|]. cbn. intros [Ha Hr]%andb_true_iff.
  specialize (IH Hr). destruct (Py.rstrip_by q r) as [|b r'].
  - destruct (q a); [done|]. cbn. by rewrite Ha.
  - cbn in *. by rewrite Ha, IH.
Qed.

Lemma all_chars_strip_underscores (p : ascii -> bool) (prev : ascii) (s u : string) :
  all_chars p s = true -> Py.strip_underscores_from prev s = Some u ->
  all_chars p u = true.
Proof.
  revert prev u. induction s as [|a r IH]; intros prev u Hs H; cbn in H.
  - destruct (Ascii.eqb prev "_"); by simplify_eq.
  - cbn in Hs. apply andb_true_iff in Hs as [Ha Hr].
    destruct (Ascii.eqb a "_").
    + destruct (Py.is_digit prev); [by eapply IH|done].
    + destruct (_ && _); [done|].
      destruct (Py.strip_underscores_from a r) as [u'|] eqn:Hu; [|done].
      injection H as <-. cbn. rewrite Ha. by eapply IH.
Qed.

Lemma all_chars_app (p : ascii -> bool) (s t : string) :
  all_chars p (s ++ t) = all_chars p s && all_chars p t.
Proof.
  induction s as [|a r IH]; [done|].
  change (all_chars p (String a (r ++ t)) = all_chars p (String a r) && all_chars p t).
  cbn [all_chars]. by rewrite IH, andb_assoc.
Qed.

Lemma span_digits_digits (s d t : string) :
  Py.span_digits s = (d, t) -> all_chars Py.is_digit d = true.
Proof.
  revert d t. induction s as [|a r IH]; intros d t H; cbn in H; [by simplify_eq|].
  destruct (Py.is_digit a) eqn:Ha; [|by simplify_eq].
  destruct (Py.span_digits r) as [d' t']. injection H as <- <-. cbn.
  rewrite Ha. by eapply IH.
Qed.

Lemma digits_value_from_nonneg (acc : Z) (d : string) :
  all_chars Py.is_digit d = true -> 0 <= acc -> 0 <= Py.digits_value_from acc d.
Proof.
  revert acc. induction d as [|a r IH]; intros acc Hd Hacc; [done|]. cbn in *.
  apply andb_true_iff in Hd as [Ha Hr]. apply IH; [done|].
  unfold Py.is_digit in Ha. apply andb_true_iff in Ha as [Ha _].
  apply N.leb_le in Ha. unfold Py.digit_val. lia.
Qed.

(** A decimal literal is read as a number with the sign it is written
    with, never as a NaN. *)
Lemma parse_decimal_sign (u : string) (x : spec_float) :
  Py.parse_decimal u = Some x ->
  match x with
  | S754_zero s | S754_infinity s | S754_finite s _ _ => s = (Py.split_sign u).1
  | S754_nan => False
  end.
Proof.
  unfold Py.parse_decimal. destruct (Py.split_sign u) as [neg r]. cbn [fst].
  destruct (Py.span_digits r) as [ip r1] eqn:Hip.
  destruct (match r1 with
            | EmptyString => (EmptyString, r1)
            | String a t => if Ascii.eqb a "." then Py.span_digits t else (EmptyString, r1)
            end) as [fp r2] eqn:Hfp.
  assert (all_chars Py.is_digit (ip ++ fp) = true) as Hds.
  { rewrite all_chars_app, (span_digits_digits _ _ _ Hip). cbn.
    destruct r1 as [|a t]; [by injection Hfp as <- _|].
    destruct (Ascii.eqb a "."); [by eapply span_digits_digits|by injection Hfp as <- _]. }
  destruct (ip ++ fp)%string as [|c ds] eqn:Hcat; [done|].
  destruct (Py.parse_exponent r2) as [e|]; [|done]. intros [= <-].
  apply of_decimal_sign. by apply digits_value_from_nonneg.
Qed.

Lemma lower_char_numeric (a : ascii) :
  numeric_char a = true -> Py.lower_char a = a.
Proof. destruct a as [[] [] [] [] [] [] [] []]; vm_compute; intros H; done. Qed.

Lemma numeric_char_letters (a : ascii) :
  numeric_char a = true -> Ascii.eqb a "i" = false /\ Ascii.eqb a "n" = false.
Proof. destruct a as [[] [] [] [] [] [] [] []]; vm_compute; intros H; done. Qed.

Lemma parse_inf_nan_numeric (u : string) :
  all_chars numeric_char u = true -> Py.parse_inf_nan u = None.
Proof.
  intros Hu. unfold Py.parse_inf_nan.
  assert (all_chars numeric_char (Py.split_sign u).2 = true) as Hr.
  { unfold Py.split_sign. destruct u as [|a r]; [done|]. cbn in Hu.
    apply andb_true_iff in Hu as [Ha Hr].
    destruct (Ascii.eqb a "-"); [done|]. destruct (Ascii.eqb a "+"); [done|].
    cbn. by rewrite Ha, Hr. }
  destruct (Py.split_sign u) as [neg r]. cbn in Hr.
  destruct r as [|a r]; [done|]. cbn in Hr. apply andb_true_iff in Hr as [Ha _].
  cbn [Py.map_str]. rewrite (lower_char_numeric a Ha).
  destruct (numeric_char_letters a Ha) as [Hi Hn].
  cbn [String.eqb]. by rewrite Hi, Hn.
Qed.

Lemma digit_or_point_unsigned (a : ascii) :
  digit_or_point a = true ->
  numeric_char a = true /\ Ascii.eqb a "-" = false /\ Ascii.eqb a "+" = false.
Proof. destruct a as [[] [] [] [] [] [] [] []]; vm_compute; intros H; done. Qed.

Lemma all_chars_impl (p q : ascii -> bool) (s : string) :
  (forall a, p a = true -> q a = true) -> all_chars p s = true -> all_chars q s = true.
Proof.
  intros Hpq. induction s as [|a r IH]; [done|]. cbn.
  intros [Ha Hr]%andb_true_iff. by rewrite (Hpq a Ha), IH.
Qed.

(** The text that [float()] parses after it has skipped the blanks and
    checked the underscores keeps the class of the text it was given. *)
Lemma float_of_ascii_inv (p : ascii -> bool) (s : string) (x : spec_float) :
  all_chars p s = true -> Py.float_of_ascii s = Some x ->
  exists u, all_chars p u = true /\
            (Py.parse_decimal u = Some x \/
             (Py.parse_decimal u = None /\ Py.parse_inf_nan u = Some x)).
Proof.
  intros Hs. unfold Py.float_of_ascii, Py.strip_underscores.
  destruct (Py.strip_underscores_from _ _) as [u|] eqn:Hu; [|done]. cbn.
  intros H. exists u. split.
  - eapply all_chars_strip_underscores; [|exact Hu].
    by apply all_chars_rstrip, all_chars_lstrip.
  - destruct (Py.parse_decimal u); [left; congruence|by right].
Qed.

(** A text made of digits, points and minus signs is never read as a
    NaN. *)
Lemma float_of_numeric_text (s : string) (x : spec_float) :
  all_chars numeric_char s = true -> Py.float_of_ascii s = Some x ->
  Float64.is_nan x = false.
Proof.
  intros Hs H. destruct (float_of_ascii_inv _ _ _ Hs H) as (u & Hu & [Hd|[_ Hn]]).
  - apply parse_decimal_sign in Hd. by destruct x.
  - by rewrite parse_inf_nan_numeric in Hn.
Qed.

(** A text made of digits and points is read as a number that is not
    negative. *)
Lemma float_of_unsigned_text (s : string) (x : spec_float) :
  all_chars digit_or_point s = true -> Py.float_of_ascii s = Some x ->
  match x with
  | S754_zero sg | S754_infinity sg | S754_finite sg _ _ => sg = false
  | S754_nan => False
  end.
Proof.
  intros Hs H. destruct (float_of_ascii_inv _ _ _ Hs H) as (u & Hu & [Hd|[_ Hn]]).
  - apply parse_decimal_sign in Hd.
    assert ((Py.split_sign u).1 = false) as Hsign.
    { destruct u as [|a r]; [done|]. cbn in Hu. apply andb_true_iff in Hu as [Ha _].
      destruct (digit_or_point_unsigned a Ha) as (_ & Hm & Hp).
      unfold Py.split_sign. by rewrite Hm, Hp. }
    by rewrite Hsign in Hd.
  - rewrite parse_inf_nan_numeric in Hn; [done|].
    eapply all_chars_impl; [|exact Hu]. intros a Ha. by apply digit_or_point_unsigned.
Qed.

End FloatTextFacts.

(** ** The cleaners of one value: results and exceptions *)

Section CleanerFacts.

Import Text.

Lemma clean_numeric_value_result (value r : pyval) :
  DataProcessor.clean_numeric_value value = Ok r ->
  r = PNone \/ exists x, r = PFloat x /\ Float64.is_nan x = false.
Proof.
  destruct value as [|x|z|text|t].
  - intros [= <-]. by left.
  - unfold DataProcessor.clean_numeric_value. cbn [isna].
    destruct (Float64.is_nan x) eqn:Hx; intros [= <-]; [by left|]. right. by exists x.
  - unfold DataProcessor.clean_numeric_value, Py.float_of_int. cbn [isna].
    destruct (Float64.is_inf (Float64.of_Z z)); cbn; [done|].
    intros [= <-]. right. eexists. split; [done|]. apply of_Z_not_nan.
  - rewrite clean_numeric_value_text.
    pose proof (kept_numeric_text text) as Hc.
    destruct (List.filter _ _) as [|c kept]; [intros [= <-]; by left|].
    destruct (Py.float_of_ascii _) as [x|] eqn:Hx; intros [= <-]; [|by left].
    right. exists x. split; [done|]. by eapply float_of_numeric_text.
  - intros [= <-]. by left.
Qed.

Lemma clean_numeric_value_fixed (r : pyval) :
  r = PNone \/ (exists x, r = PFloat x /\ Float64.is_nan x = false) ->
  DataProcessor.clean_numeric_value r = Ok r.
Proof.
  intros [->|(x & -> & Hx)]; [done|].
  unfold DataProcessor.clean_numeric_value. cbn. by rewrite Hx.
Qed.

Lemma trunc_unsigned (x : spec_float) (z : Z) :
  match x with
  | S754_zero sg | S754_infinity sg | S754_finite sg _ _ => sg = false
  | S754_nan => False
  end ->
  Float64.trunc x = Some z -> 0 <= z.
Proof.
  destruct x as [sg|sg| |sg m e]; cbn; try done.
  - by intros _ [= <-].
  - intros -> [= <-]. destruct (0 <=? e) eqn:He.
    + apply Z.mul_nonneg_nonneg; [done|]. apply Z.pow_nonneg. lia.
    + apply Z.div_pos; [done|]. apply Z.pow_pos_nonneg; lia.
Qed.

Lemma int_of_float_raises (x : spec_float) (e : exn) :
  Py.int_of_float x = Raise e ->
  (e = ValueError /\ Float64.is_nan x = true) \/
  (e = OverflowError /\ Float64.is_inf x = true).
Proof. destruct x; cbn; intros H; simplify_eq; auto. Qed.

Lemma scale_by_suffix_result (suffix : ascii) (multiplier : Z) (value_upper : string) :
  match DataProcessor.scale_by_suffix suffix multiplier value_upper with
  | Ok r => r = PNone \/ exists z, r = PInt z
  | Raise e => e = OverflowError
  end.
Proof.
  unfold DataProcessor.scale_by_suffix.
  destruct (Py.float_of_str _) as [number|]; [|by left].
  destruct (Py.int_of_float _) as [z|e] eqn:Hz; [right; by exists z|].
  apply int_of_float_raises in Hz as [[-> _]|[-> _]]; [by left|done].
Qed.

Lemma plain_volume_result (value : string) :
  match DataProcessor.plain_volume value with
  | Ok r => r = PNone \/ exists z, r = PInt z
  | Raise e => e = OverflowError
  end.
Proof.
  unfold DataProcessor.plain_volume.
  destruct (Py.float_of_str _) as [x|]; [|by left].
  destruct (Py.int_of_float x) as [z|e] eqn:Hz; [right; by exists z|].
  apply int_of_float_raises in Hz as [[-> _]|[-> _]]; [by left|done].
Qed.

Lemma scan_suffixes_none (value_upper : string) :
  Py.contains "K" value_upper = false ->
  Py.contains "M" value_upper = false ->
  Py.contains "B" value_upper = false ->
  DataProcessor.scan_suffixes DataProcessor.multipliers value_upper = None.
Proof. intros HK HM HB. cbn. by rewrite HK, HM, HB. Qed.

End CleanerFacts.

(** X1.  [clean_numeric_value] raises in one case only,
    [OverflowError] on an integer too large for a float; on every other
    value it returns [None] or a float that is not a NaN, whatever the
    text it is given. *)
Theorem clean_numeric_value_raises_only_on_a_huge_int (value : pyval) :
  match DataProcessor.clean_numeric_value value with
  | Ok r => r = PNone \/ exists x, r = PFloat x /\ Float64.is_nan x = false
  | Raise e =>
      e = OverflowError /\
      exists z, value = PInt z /\ Float64.is_inf (Float64.of_Z z) = true
  end.
Proof.
  destruct (DataProcessor.clean_numeric_value value) as [r|e] eqn:H.
  - by eapply clean_numeric_value_result.
  - unfold DataProcessor.clean_numeric_value in H.
    destruct (isna value); [done|].
    destruct value as [|x|z|text|t]; try done.
    + unfold Py.float_of_int in H.
      destruct (Float64.is_inf (Float64.of_Z z)) eqn:Hinf; cbn in H; [|done].
      injection H as <-. split; [done|]. by exists z.
    + destruct (Py.re_sub_outside _ text); [done|]. by destruct (Py.float_of_str _).
Qed.

(** X2.  A value that [clean_numeric_value] has returned is
    returned as it is when it is cleaned again. *)
Theorem clean_numeric_value_idempotent (value r : pyval) :
  DataProcessor.clean_numeric_value value = Ok r ->
  DataProcessor.clean_numeric_value r = Ok r.
Proof.
  intros H. destruct (clean_numeric_value_result value r H) as [->|(x & -> & Hx)].
  - reflexivity.
  - unfold DataProcessor.clean_numeric_value. cbn [isna]. by rewrite Hx.
Qed.

Lemma clean_numeric_value_idempotent_witness :
  DataProcessor.clean_numeric_value (PStr "$1,234.50") = Ok (PFloat (Prim2SF 1234.5%float)) /\
  DataProcessor.clean_numeric_value (PFloat (Prim2SF 1234.5%float))
    = Ok (PFloat (Prim2SF 1234.5%float)).
Proof.
  assert (H : DataProcessor.clean_numeric_value (PStr "$1,234.50")
              = Ok (PFloat (Prim2SF 1234.5%float))) by (vm_compute; reflexivity).
  split; [exact H|].
  exact (clean_numeric_value_idempotent (PStr "$1,234.50") (PFloat (Prim2SF 1234.5%float)) H).
Defined.

(** X3.  [clean_volume_value] returns [None] or an integer,
    and the only exception it lets through is [OverflowError], the one
    [int()] raises on an infinite number: it is not a [ValueError] and
    so passes the handlers of the function.  On a float, it is raised
    exactly on the infinities. *)
Theorem clean_volume_value_raises_only_overflow :
  (forall value : pyval,
     match DataProcessor.clean_volume_value value with
     | Ok r => r = PNone \/ exists z, r = PInt z
     | Raise e => e = OverflowError
     end) /\
  (forall x : spec_float,
     DataProcessor.clean_volume_value (PFloat x) = Raise OverflowError
     <-> Float64.is_inf x = true).
Proof.
  split.
  - intros value. unfold DataProcessor.clean_volume_value.
    destruct (isna value) eqn:Hna; [by left|].
    destruct value as [|x|z|text|t]; try (by left).
    + destruct (Py.int_of_float x) as [z|e] eqn:Hz; cbn; [right; by exists z|].
      apply int_of_float_raises in Hz as [[_ Hnan]|[-> _]]; [|done].
      cbn in Hna. congruence.
    + right. by exists z.
    + rewrite scan_suffixes_first.
      destruct (Claimed.first_suffix _) as [[c multiplier]|];
        [apply scale_by_suffix_result|apply plain_volume_result].
  - intros x. by destruct x.
Qed.

(** X4.  Without a suffix K, M or B the minus sign of a
    volume is dropped with the other characters, so the integer read is
    never negative ("-5" gives 5), while under a suffix the sign is kept
    ("-5K" gives -5000). *)
Theorem volume_without_suffix_is_not_negative (value : string) (z : Z) :
  let value_upper := Py.remove_char "," (Py.upper value) in
  Py.contains "K" value_upper = false ->
  Py.contains "M" value_upper = false ->
  Py.contains "B" value_upper = false ->
  DataProcessor.clean_volume_value (PStr value) = Ok (PInt z) ->
  0 <= z /\
  DataProcessor.clean_volume_value (PStr "-5") = Ok (PInt 5) /\
  DataProcessor.clean_volume_value (PStr "-5K") = Ok (PInt (-5000)).
Proof.
  intros value_upper HK HM HB H. split; [|split; vm_compute; reflexivity].
  unfold DataProcessor.clean_volume_value in H. cbn [isna] in H.
  fold value_upper in H. rewrite (scan_suffixes_none _ HK HM HB) in H.
  rewrite plain_volume_text in H.
  destruct (Py.float_of_ascii _) as [x|] eqn:Hx; [|done].
  apply float_of_unsigned_text in Hx; [|apply digits_and_point_text].
  destruct (Py.int_of_float x) as [z'|e] eqn:Hz; [|by destruct e].
  injection H as ->. unfold Py.int_of_float in Hz.
  destruct (Float64.trunc x) as [z'|] eqn:Ht; [|by destruct (Float64.is_nan x)].
  injection Hz as ->. by eapply trunc_unsigned.
Qed.

Lemma volume_without_suffix_is_not_negative_witness :
  0 <= 5 /\
  DataProcessor.clean_volume_value (PStr "-5") = Ok (PInt 5) /\
  DataProcessor.clean_volume_value (PStr "-5K") = Ok (PInt (-5000)).
Proof.
  exact (volume_without_suffix_is_not_negative "-5" 5 eq_refl eq_refl eq_refl eq_refl).
Defined.

Section PriceFacts.

Local Open Scope N_scope.

Lemma keep_price_low (c : N) :
  StockScraper.keep_price c = true ->
  c < 127 /\ Text.numeric_char (ascii_of_N c) = true.
Proof.
  unfold StockScraper.keep_price, Text.numeric_char.
  intros [[[Hlo Hhi]%andb_true_iff| ->%N.eqb_eq]%orb_true_iff| ->%N.eqb_eq]%orb_true_iff;
    [|done..].
  apply N.leb_le in Hlo, Hhi. split; [lia|].
  replace c with (48 + (c - 48)) by lia. rewrite digit_char; [done|lia].
Qed.

Lemma keep_price_scalar (c : N) :
  StockScraper.keep_price c = true -> Unicode.is_scalar c = true.
Proof.
  intros [Hc _]%keep_price_low. unfold Unicode.is_scalar, Unicode.is_surrogate.
  destruct (N.ltb_spec c 1114112); [|lia]. by destruct (N.leb_spec 55296 c); [lia|].
Qed.

(** On a text, [clean_price] hands to [float()] the characters of
    [0-9.-] of the text, when there are any. *)
Lemma clean_price_text (text : string) :
  StockScraper.clean_price text =
    Claimed.cell_of_float
      (match List.filter StockScraper.keep_price (Unicode.decode text) with
       | [] => None
       | kept => Py.float_of_ascii (Py.to_ascii kept)
       end).
Proof.
  unfold StockScraper.clean_price. destruct text as [|a text]; [done|].
  rewrite (float_of_str_re_sub _ _ keep_price_scalar). unfold Py.re_sub_outside.
  destruct (List.filter _ _) as [|c kept]; [done|].
  destruct (Unicode.encode (c :: kept)) as [|b cleaned] eqn:Hcleaned.
  { by apply encode_nil in Hcleaned. }
  by destruct (Py.float_of_ascii _).
Qed.

Lemma clean_price_result (text : string) :
  StockScraper.clean_price text = PNone \/
  exists x, StockScraper.clean_price text = PFloat x /\ Float64.is_nan x = false.
Proof.
  rewrite clean_price_text.
  assert (Text.all_chars Text.numeric_char
            (Py.to_ascii (List.filter StockScraper.keep_price (Unicode.decode text))) = true)
    as Hc.
  { apply (to_ascii_class StockScraper.keep_price).
    - intros c Hc _. by apply keep_price_low.
    - intros c [Hc _]%keep_price_low. lia.
    - intros d Hd. unfold Text.numeric_char. by rewrite digit_char.
    - apply forallb_filter_self. }
  destruct (List.filter _ _) as [|c kept]; [by left|].
  destruct (Py.float_of_ascii _) as [x|] eqn:Hx; [|by left].
  right. exists x. split; [done|]. by eapply float_of_numeric_text.
Qed.

Lemma ascii_digit_is_decimal (c : N) :
  48 <= c -> c <= 57 -> Unicode.is_decimal c = true.
Proof.
  intros Hlo Hhi.
  assert (c = 48 \/ c = 49 \/ c = 50 \/ c = 51 \/ c = 52 \/ c = 53 \/ c = 54 \/ c = 55 \/
          c = 56 \/ c = 57) as H by lia.
  repeat (destruct H as [->|H]; [done|]). by subst.
Qed.

(** The two patterns keep the same characters of a text whose decimal
    digits are ASCII digits. *)
Lemma keep_price_numeric (text : string) :
  Text.ascii_digits text = true ->
  List.filter StockScraper.keep_price (Unicode.decode text)
    = List.filter DataProcessor.keep_numeric (Unicode.decode text).
Proof.
  unfold Text.ascii_digits. rewrite forallb_forall. intros Hascii.
  apply filter_ext_in. intros c Hc. specialize (Hascii c Hc).
  unfold StockScraper.keep_price, DataProcessor.keep_numeric. do 2 f_equal.
  destruct (Unicode.is_decimal c) eqn:Hd.
  - cbn in Hascii. apply N.ltb_lt in Hascii.
    destruct (is_decimal_Some c Hd) as [d Hd'].
    apply to_decimal_Some in Hd' as (Hd' & _ & _ & Hlow). destruct (Hlow Hascii) as [Hlo ->].
    destruct (N.leb_spec 48 (48 + d)); [|lia]. by destruct (N.leb_spec (48 + d) 57); [|lia].
  - destruct (N.leb_spec 48 c) as [Hlo|]; [|done].
    destruct (N.leb_spec c 57) as [Hhi|]; [|done].
    by rewrite ascii_digit_is_decimal in Hd.
Qed.

Lemma ascii_digits_of_ascii (text : string) :
  Text.is_ascii text = true -> Text.ascii_digits text = true.
Proof.
  unfold Text.is_ascii, Text.ascii_digits.
  induction text as [|a r IH]; [done|]. cbn [Text.all_chars].
  intros [Ha Hr]%andb_true_iff. cbn [Unicode.decode]. cbv zeta. rewrite Ha.
  cbn [forallb]. rewrite Ha, (IH Hr). by destruct (Unicode.is_decimal _).
Qed.

End PriceFacts.

(** X5.  On a text whose decimal digits are ASCII digits, which
    every ASCII text is, the scraper's [clean_price] and
    [clean_percentage] compute what the processor's
    [clean_numeric_value] computes; on every text the two functions of
    the scraper agree, and the processor leaves a price cleaned by the
    scraper as it is.  The patterns differ on the digits of other
    scripts: [[0-9]] drops them, [[\d]] keeps them. *)
Theorem clean_price_is_clean_numeric_value (text : string) :
  (Text.is_ascii text = true -> Text.ascii_digits text = true) /\
  (Text.ascii_digits text = true ->
   DataProcessor.clean_numeric_value (PStr text) = Ok (StockScraper.clean_price text)) /\
  StockScraper.clean_percentage text = StockScraper.clean_price text /\
  DataProcessor.clean_numeric_value (StockScraper.clean_price text)
    = Ok (StockScraper.clean_price text) /\
  StockScraper.clean_price Examples.arabic_indic_123 = PNone /\
  DataProcessor.clean_numeric_value (PStr Examples.arabic_indic_123)
    = Ok (PFloat (Prim2SF 123%float)).
Proof.
  split; [apply ascii_digits_of_ascii|].
  split; [|split; [done|split; [|split; vm_compute; reflexivity]]].
  - intros Hascii. by rewrite clean_numeric_value_text, clean_price_text, keep_price_numeric.
  - by apply clean_numeric_value_fixed, clean_price_result.
Qed.

Lemma clean_price_is_clean_numeric_value_witness :
  DataProcessor.clean_numeric_value (PStr "$1,234.50") = Ok (StockScraper.clean_price "$1,234.50").
Proof.
  exact (proj1 (proj2 (clean_price_is_clean_numeric_value "$1,234.50")) eq_refl).
Defined.

(** X6.  After [clean_market_cap_value] the category of
    [categorize_market_cap] is "Unknown" exactly for a missing value: a
    number is turned into its text first and is then classified as a
    text; and on a text the cleaning does not change the category. *)
Theorem market_cap_unknown_means_missing (py_str : pyval -> string) :
  (forall value : pyval,
     DataProcessor.categorize_market_cap (DataProcessor.clean_market_cap_value py_str value)
       = "Unknown" <-> isna value = true) /\
  (forall text : string,
     DataProcessor.categorize_market_cap
       (DataProcessor.clean_market_cap_value py_str (PStr text))
     = DataProcessor.categorize_market_cap (PStr text)) /\
  DataProcessor.categorize_market_cap (PInt 5) = "Unknown".
Proof.
  split; [|split; [|done]].
  - intros value. unfold DataProcessor.clean_market_cap_value.
    destruct (isna value) eqn:Hna; [done|].
    assert (forall s, DataProcessor.categorize_market_cap (PStr s) <> "Unknown") as Hs.
    { intros s. unfold DataProcessor.categorize_market_cap. cbn [isna].
      repeat case_match; done. }
    split; [|done]. intros H. exfalso. destruct value; by eapply Hs.
  - intros text. apply categorize_market_cap_cleaned. right. by exists text.
Qed.

(** ** Stripping blanks and parenthesised segments *)

Section StripFacts.

Import Text.

Lemma lstrip_by_head (p : ascii -> bool) (s : string) :
  match Py.lstrip_by p s with
  | String a _ => p a = false
  | EmptyString => True
  end.
Proof. induction s as [|a r IH]; [done|]. cbn. by destruct (p a) eqn:Ha. Qed.

Lemma rstrip_by_idem (p : ascii -> bool) (s : string) :
  Py.rstrip_by p (Py.rstrip_by p s) = Py.rstrip_by p s.
Proof.
  induction s as [|a r IH]; [done|]. cbn.
  destruct (Py.rstrip_by p r) as [|b r'] eqn:Hr.
  - destruct (p a) eqn:Ha; [done|]. cbn. by rewrite Ha.
  - cbn [Py.rstrip_by] in IH |- *. by rewrite IH.
Qed.

Lemma rstrip_by_keeps_head (p : ascii -> bool) (a : ascii) (r : string) :
  p a = false -> exists r', Py.rstrip_by p (String a r) = String a r'.
Proof. intros Ha. cbn. destruct (Py.rstrip_by p r); rewrite ?Ha; eauto. Qed.

Lemma lstrip_rstrip_lstrip (p : ascii -> bool) (s : string) :
  Py.lstrip_by p (Py.rstrip_by p (Py.lstrip_by p s)) = Py.rstrip_by p (Py.lstrip_by p s).
Proof.
  pose proof (lstrip_by_head p s) as H. destruct (Py.lstrip_by p s) as [|a r]; [done|].
  destruct (rstrip_by_keeps_head p a r H) as [r' ->]. cbn. by rewrite H.
Qed.

Lemma strip_idem (s : string) : Py.strip (Py.strip s) = Py.strip s.
Proof. unfold Py.strip. by rewrite lstrip_rstrip_lstrip, rstrip_by_idem. Qed.

Lemma contains_lstrip_true (p : ascii -> bool) (c : ascii) (s : string) :
  Py.contains c (Py.lstrip_by p s) = true -> Py.contains c s = true.
Proof.
  induction s as [|a r IH]; [done|]. cbn. destruct (p a); [|done].
  intros H. rewrite (IH H). apply orb_true_r.
Qed.

Lemma contains_rstrip_true (p : ascii -> bool) (c : ascii) (s : string) :
  Py.contains c (Py.rstrip_by p s) = true -> Py.contains c s = true.
Proof.
  induction s as [|a r IH]; [done|]. cbn.
  destruct (Py.rstrip_by p r) as [|b r'].
  - destruct (p a); [done|]. cbn. rewrite orb_false_r. intros ->. done.
  - cbn [Py.contains] in *. intros [->|H]%orb_true_iff; [done|].
    rewrite (IH H). apply orb_true_r.
Qed.










End StripFacts.



(** ** The order of floats and the performance labels *)

Section OrderFacts.

Lemma SFltb_leb_trans (a b c : spec_float) :
  SFltb a b = true -> SFleb b c = true -> SFltb a c = true.
Proof.
  unfold SFltb, SFleb.
  destruct a as [sa|sa| |sa ma ea], b as [sb|sb| |sb mb eb], c as [sc|sc| |sc mc ec];
    cbn; try done;
    try (destruct sa; try done); try (destruct sb; try done); try (destruct sc; try done).
  all: change (Pos.compare_cont Eq ?x ?y) with (Pos.compare x y).
  all: destruct (Z.compare_spec ea eb); try done;
       destruct (Z.compare_spec eb ec); try done;
       destruct (Z.compare_spec ea ec); try lia; try done; subst.
  all: try (destruct (Pos.compare_spec ma mb); try done;
            destruct (Pos.compare_spec mb mc); try done;
            destruct (Pos.compare_spec ma mc); cbn; try lia; try done).
Qed.

End OrderFacts.

(** X9.  [categorize_performance] is monotone: of two
    numbers, the greater never gets the lower label.  The thresholds
    5, 2, -2 and -5 themselves belong to the class below them, an
    infinite change is classified by its sign, and a missing one is
    "Unknown". *)
Theorem categorize_performance_is_monotone (x y : spec_float) (a b : string) :
  Pandas.float_le x y ->
  DataProcessor.categorize_performance (PFloat x) = Ok a ->
  DataProcessor.categorize_performance (PFloat y) = Ok b ->
  (Labels.performance_rank a <= Labels.performance_rank b)%nat /\
  DataProcessor.categorize_performance (PFloat (Float64.of_Z 5)) = Ok "Positive" /\
  DataProcessor.categorize_performance (PFloat (Float64.of_Z 2)) = Ok "Neutral" /\
  DataProcessor.categorize_performance (PFloat (Float64.of_Z (-2))) = Ok "Negative" /\
  DataProcessor.categorize_performance (PFloat (Float64.of_Z (-5))) = Ok "Strong Negative" /\
  DataProcessor.categorize_performance (PFloat (S754_infinity false)) = Ok "Strong Positive" /\
  DataProcessor.categorize_performance (PFloat (S754_infinity true)) = Ok "Strong Negative" /\
  DataProcessor.categorize_performance (PFloat S754_nan) = Ok "Unknown" /\
  DataProcessor.categorize_performance PNone = Ok "Unknown".
Proof.
  intros Hxy Ha Hb. split; [|vm_compute; repeat split; reflexivity].
  unfold Pandas.float_le in Hxy.
  unfold DataProcessor.categorize_performance in Ha, Hb. cbn [isna] in Ha, Hb.
  assert (Float64.is_nan x = false /\ Float64.is_nan y = false) as [Hx Hy].
  { destruct x, y; done. }
  rewrite Hx in Ha. rewrite Hy in Hb.
  unfold mbind, result_bind, Float64.gtb in Ha, Hb. cbv beta iota in Ha, Hb.
  pose proof (fun k H => SFltb_leb_trans k x y H Hxy) as Htrans.
  destruct (SFltb (Float64.of_Z 5) x) eqn:H5.
  { rewrite (Htrans _ H5) in Hb. by simplify_eq. }
  destruct (SFltb (Float64.of_Z 2) x) eqn:H2.
  { rewrite (Htrans _ H2) in Hb. injection Ha as <-.
    repeat case_match; simplify_eq; cbn; lia. }
  destruct (SFltb (Float64.of_Z (-2)) x) eqn:H2'.
  { rewrite (Htrans _ H2') in Hb. injection Ha as <-.
    repeat case_match; simplify_eq; cbn; lia. }
  destruct (SFltb (Float64.of_Z (-5)) x) eqn:H5'.
  { rewrite (Htrans _ H5') in Hb. injection Ha as <-.
    repeat case_match; simplify_eq; cbn; lia. }
  injection Ha as <-. cbn. lia.
Qed.

Lemma categorize_performance_is_monotone_witness :
  (Labels.performance_rank "Neutral" <= Labels.performance_rank "Strong Positive")%nat.
Proof.
  exact (proj1 (categorize_performance_is_monotone
                  (Float64.of_Z 1) (Float64.of_Z 7) "Neutral" "Strong Positive"
                  eq_refl eq_refl eq_refl)).
Defined.

(** ** The example batch, step by step *)

Section StageFacts.

Lemma wf_lookup (df : Pandas.DataFrame) :
  Pandas.wf df <->
  map_Forall (fun (_ : string) s => length (Pandas.values s) = Pandas.nrows df)
             (Pandas.columns df).
Proof. done. Qed.

Lemma wf_cleaned : Pandas.wf Examples.cleaned.
Proof. apply wf_lookup. by_computation. Qed.

Lemma standardize_cleaned :
  DataProcessor.standardize_formats Examples.numeric_of_str Examples.to_timestamp 0
    Examples.cleaned = Ok Stages.standardized.
Proof. vm_compute. reflexivity. Qed.

Lemma wf_standardized : Pandas.wf Stages.standardized.
Proof. apply wf_lookup. by_computation. Qed.

Lemma fill_standardized :
  DataProcessor.handle_missing_values Stages.standardized = Ok Stages.filled.
Proof. vm_compute. reflexivity. Qed.

Lemma wf_filled : Pandas.wf Stages.filled.
Proof. apply wf_lookup. by_computation. Qed.

Lemma derive_filled : DataProcessor.add_derived_metrics Stages.filled = Ok Examples.processed.
Proof. vm_compute. reflexivity. Qed.

Lemma standardized_change_percent :
  Pandas.columns Stages.standardized !! "change_percent" = Some Stages.change_percent.
Proof. vm_compute. reflexivity. Qed.

Lemma standardized_day_high :
  Pandas.columns Stages.standardized !! "day_high" = Some Stages.day_high.
Proof. vm_compute. reflexivity. Qed.

Lemma standardized_company_name :
  Pandas.columns Stages.standardized !! "company_name" = Some Stages.company_name.
Proof. vm_compute. reflexivity. Qed.

Lemma standardized_symbol :
  Pandas.columns Stages.standardized !! "symbol" = Some Stages.symbol.
Proof. vm_compute. reflexivity. Qed.

Lemma change_percent_is_a_change : "change_percent" ∈ ["change"; "change_percent"].
Proof. by_computation. Qed.

Lemma day_high_is_no_price : "day_high" ∉ ["current_price"; "previous_close"; "open"].
Proof. by_computation. Qed.

Lemma day_high_is_no_change : "day_high" ∉ ["change"; "change_percent"].
Proof. by_computation. Qed.

Lemma day_high_is_no_name : "day_high" <> "company_name".
Proof. done. Qed.

Lemma names_only_has_names :
  is_Some (Pandas.columns Stages.names_only !! "company_name").
Proof. by_computation. Qed.

Lemma names_only_has_no_symbol : Pandas.columns Stages.names_only !! "symbol" = None.
Proof. vm_compute. reflexivity. Qed.

Lemma range_only_has_high : is_Some (Pandas.columns Stages.range_only !! "day_high").
Proof. by_computation. Qed.

Lemma range_only_has_low : is_Some (Pandas.columns Stages.range_only !! "day_low").
Proof. by_computation. Qed.

Lemma range_only_has_no_price : Pandas.columns Stages.range_only !! "current_price" = None.
Proof. vm_compute. reflexivity. Qed.

Lemma process_raw_batch :
  DataProcessor.process_data Examples.py_str Examples.numeric_of_str Examples.to_timestamp 0
    (fun _ => Ok Examples.raw_batch) "raw.csv" = Ok (Some Examples.processed).
Proof. vm_compute. reflexivity. Qed.

Lemma wf_processed : Pandas.wf Examples.processed.
Proof. apply wf_lookup. by_computation. Qed.

Lemma processed_change_percent :
  Pandas.columns Examples.processed !! "change_percent" = Some Stages.processed_change.
Proof. vm_compute. reflexivity. Qed.

Lemma processed_change_cells :
  Forall (fun v => Pandas.is_number_val v = true) (Pandas.values Stages.processed_change).
Proof. by_computation. Qed.

End StageFacts.

(** ** The shape of the frame through the steps *)

Section StepShapes.

Import Pandas.

Lemma drop_error_rows_is_Some (df : DataFrame) (c : string) :
  is_Some (columns (DataProcessor.drop_error_rows df) !! c) <-> is_Some (columns df !! c).
Proof.
  rewrite drop_error_rows_lookup. destruct (columns df !! "error"); [|done].
  by rewrite fmap_is_Some.
Qed.

Lemma nrows_drop_error_rows (df : DataFrame) :
  wf df ->
  nrows (DataProcessor.drop_error_rows df) =
    match columns df !! "error" with
    | Some e => length (filter (fun v => isna v = true) (values e))
    | None => nrows df
    end.
Proof.
  intros Hwf. unfold DataProcessor.drop_error_rows.
  destruct (columns df !! "error") as [e|] eqn:He; [|done]. cbn.
  unfold mask_rows, isna_mask.
  rewrite (length_select_mask _ _ (values e)), select_mask_zip.
  - rewrite <- rows_without_error_self. done.
  - rewrite length_replicate. symmetry. by apply (Hwf "error").
Qed.

Lemma clean_data_is_Some (py_str : pyval -> string) (df d : DataFrame) (c : string) :
  DataProcessor.clean_data py_str df = Ok d ->
  is_Some (columns d !! c) <-> is_Some (columns df !! c).
Proof.
  intros H. rewrite <- (drop_error_rows_is_Some df c).
  apply clean_data_Ok in H as (_ & Hnum & Hvol & Hcap & Hname & Hother).
  set (df0 := DataProcessor.drop_error_rows df) in *.
  assert (forall f,
            match columns df0 !! c with
            | Some s0 => exists s', apply f s0 = Ok s' /\ columns d !! c = Some s'
            | None => columns d !! c = None
            end -> is_Some (columns d !! c) <-> is_Some (columns df0 !! c)) as Hcase.
  { intros f Hm. destruct (columns df0 !! c) as [s0|].
    - destruct Hm as (s' & _ & ->). split; eauto.
    - rewrite Hm. done. }
  destruct (decide (c ∈ DataProcessor.numeric_columns)) as [Hc|Hc1];
    [by eapply Hcase, Hnum|].
  destruct (decide (c = "volume")) as [->|Hc2]; [by eapply Hcase, Hvol|].
  destruct (decide (c = "market_cap")) as [->|Hc3]; [by eapply Hcase, Hcap|].
  destruct (decide (c = "company_name")) as [->|Hc4]; [by eapply Hcase, Hname|].
  rewrite Hother; [done|].
  unfold Claimed.cleaned_columns. rewrite elem_of_app, !elem_of_cons, elem_of_nil. tauto.
Qed.

Section Standardized.

Variable numeric_of_str : string -> pyval.
Variable to_timestamp : pyval -> option Z.
Variable now : Z.

(** The three columns [standardize_formats] treats apart. *)
Lemma standardize_formats_special (df d : DataFrame) :
  DataProcessor.standardize_formats numeric_of_str to_timestamp now df = Ok d ->
  columns d !! "processed_at"
    = Some (mkSeries Datetime64 (replicate (nrows df) (PTime now))) /\
  match columns df !! "volume" with
  | Some s => exists s', astype_Int64 (to_numeric numeric_of_str s) = Ok s' /\
                         columns d !! "volume" = Some s'
  | None => columns d !! "volume" = None
  end /\
  match columns df !! "timestamp" with
  | Some s => exists s', to_datetime to_timestamp s = Ok s' /\
                         columns d !! "timestamp" = Some s'
  | None => columns d !! "timestamp" = None
  end.
Proof.
  unfold DataProcessor.standardize_formats. intros H.
  apply bind_Ok in H as (d1 & Hd1 & H). apply bind_Ok in H as (d2 & Hd2 & H).
  apply bind_Ok in H as (d3 & Hd3 & H). injection H as <-. cbn.
  apply update_col_Ok in Hd1 as (Hn1 & Ho1 & Hi1).
  apply update_cols_Ok in Hd2 as (Hn2 & Ho2 & _); [|apply NoDup_numeric_columns].
  apply update_col_Ok in Hd3 as (Hn3 & Ho3 & Hi3).
  split; [|split].
  - rewrite lookup_insert_eq. do 3 f_equal. congruence.
  - rewrite lookup_insert_ne by done.
    rewrite Ho2, Ho1 in Hi3 by (done || by_computation). exact Hi3.
  - rewrite lookup_insert_ne, Ho3, Ho2 by (done || by_computation). exact Hi1.
Qed.

Lemma astype_Int64_Ok (s s' : Series) :
  astype_Int64 s = Ok s' ->
  dtype_of s' = NullableInt64 /\
  length (values s') = length (values s) /\
  Forall (fun v => v = PNone \/ exists z, v = PInt z) (values s').
Proof.
  unfold astype_Int64. intros H. apply bind_Ok in H as (l & Hl & H). injection H as <-.
  cbn. split; [done|]. apply mapM_Ok in Hl as [Hlen Hall]. split; [done|].
  apply Forall_lookup. intros i v Hv.
  destruct (lookup_lt_is_Some_2 (values s) i) as [x Hx].
  { rewrite <- Hlen. by eapply lookup_lt_Some. }
  destruct (Hall i x Hx) as (y & Hy & Hi). rewrite Hv in Hi. injection Hi as <-.
  unfold cell_to_Int64 in Hy. destruct (isna x); [injection Hy as <-; by left|].
  destruct x as [|f|z|t|t]; try done.
  - destruct (exact_int f) as [z|]; [|done]. destruct (in_int64 z); [|done].
    injection Hy as <-. right. by exists z.
  - destruct (in_int64 z); [|done]. injection Hy as <-. right. by exists z.
Qed.

Lemma to_datetime_Ok (s s' : Series) :
  to_datetime to_timestamp s = Ok s' ->
  dtype_of s' = Datetime64 /\ length (values s') = length (values s).
Proof.
  unfold to_datetime. destruct (dtype_of s) eqn:Hty; intros H;
    try (apply bind_Ok in H as (l & Hl & H); injection H as <-; cbn;
         split; [done|]; by apply mapM_Ok in Hl as [Hlen _]).
  injection H as <-. done.
Qed.

Lemma standardize_formats_is_Some (df d : DataFrame) (c : string) :
  DataProcessor.standardize_formats numeric_of_str to_timestamp now df = Ok d ->
  c <> "processed_at" ->
  is_Some (columns d !! c) <-> is_Some (columns df !! c).
Proof.
  intros H Hc. pose proof (standardize_formats_special _ _ H) as (_ & Hvol & Hts).
  apply standardize_formats_Ok in H as (_ & Hnum & Hother).
  destruct (decide (c ∈ DataProcessor.numeric_columns)) as [Hin|Hout].
  { rewrite (Hnum c Hin). by rewrite fmap_is_Some. }
  destruct (decide (c = "volume")) as [->|Hc2].
  { destruct (columns df !! "volume"); [destruct Hvol as (s' & _ & ->)|rewrite Hvol];
      split; eauto. }
  destruct (decide (c = "timestamp")) as [->|Hc3].
  { destruct (columns df !! "timestamp"); [destruct Hts as (s' & _ & ->)|rewrite Hts];
      split; eauto. }
  by rewrite Hother.
Qed.

Lemma wf_standardize_formats (df d : DataFrame) :
  wf df ->
  DataProcessor.standardize_formats numeric_of_str to_timestamp now df = Ok d ->
  wf d.
Proof.
  intros Hwf H. pose proof (standardize_formats_special _ _ H) as (Hstamp & Hvol & Hts).
  apply standardize_formats_Ok in H as (Hn & Hnum & Hother).
  intros c s Hs. rewrite Hn.
  destruct (decide (c = "processed_at")) as [->|Hc1].
  { rewrite Hstamp in Hs. injection Hs as <-. cbn. by rewrite length_replicate. }
  destruct (decide (c ∈ DataProcessor.numeric_columns)) as [Hin|Hout].
  { rewrite (Hnum c Hin) in Hs. destruct (columns df !! c) as [s0|] eqn:Hs0; [|done].
    injection Hs as <-. rewrite length_to_numeric. by apply (Hwf c). }
  destruct (decide (c = "volume")) as [->|Hc2].
  { destruct (columns df !! "volume") as [s0|] eqn:Hs0; [|by rewrite Hvol in Hs].
    destruct Hvol as (s' & Hs' & Hd). rewrite Hs in Hd. injection Hd as <-.
    apply astype_Int64_Ok in Hs' as (_ & -> & _). rewrite length_to_numeric.
    by apply (Hwf "volume"). }
  destruct (decide (c = "timestamp")) as [->|Hc3].
  { destruct (columns df !! "timestamp") as [s0|] eqn:Hs0; [|by rewrite Hts in Hs].
    destruct Hts as (s' & Hs' & Hd). rewrite Hs in Hd. injection Hd as <-.
    apply to_datetime_Ok in Hs' as (_ & ->). by apply (Hwf "timestamp"). }
  rewrite Hother in Hs by done. by apply (Hwf c).
Qed.

End Standardized.

End StepShapes.

(** X10.  The frame [standardize_formats] returns has the
    rows and the columns of the frame it was given, and one column
    more, processed_at, which holds the time of the call in every row
    (an older column of that name is replaced).  Each of the numeric
    columns has a numeric dtype, the volume is a nullable integer
    column, the timestamp a datetime column. *)
Theorem standardize_formats_postcondition
    (numeric_of_str : string -> pyval) (to_timestamp : pyval -> option Z) (now : Z)
    (df d : Pandas.DataFrame) :
  Pandas.wf df ->
  DataProcessor.standardize_formats numeric_of_str to_timestamp now df = Ok d ->
  Pandas.wf d /\
  Pandas.nrows d = Pandas.nrows df /\
  Pandas.columns d !! "processed_at"
    = Some (Pandas.mkSeries Pandas.Datetime64 (replicate (Pandas.nrows df) (PTime now))) /\
  (forall c, c <> "processed_at" ->
     is_Some (Pandas.columns d !! c) <-> is_Some (Pandas.columns df !! c)) /\
  (forall c s, c ∈ DataProcessor.numeric_columns -> Pandas.columns d !! c = Some s ->
     Pandas.is_number (Pandas.dtype_of s) = true) /\
  (forall s, Pandas.columns d !! "volume" = Some s ->
     Pandas.dtype_of s = Pandas.NullableInt64 /\
     Forall (fun v => v = PNone \/ exists z, v = PInt z) (Pandas.values s)) /\
  (forall s, Pandas.columns d !! "timestamp" = Some s ->
     Pandas.dtype_of s = Pandas.Datetime64).
Proof.
  intros Hwf H. split; [by eapply wf_standardize_formats|].
  pose proof (standardize_formats_special _ _ _ _ _ H) as (Hstamp & Hvol & Hts).
  pose proof (standardize_formats_Ok _ _ _ _ _ H) as (Hn & Hnum & _).
  split; [done|]. split; [done|].
  split; [intros c Hc; by eapply standardize_formats_is_Some|].
  split; [|split].
  - intros c s Hc Hs. rewrite (Hnum c Hc) in Hs.
    destruct (Pandas.columns df !! c); [|done]. injection Hs as <-.
    apply to_numeric_is_number.
  - intros s Hs. destruct (Pandas.columns df !! "volume"); [|by rewrite Hvol in Hs].
    destruct Hvol as (s' & Hs' & Hd). rewrite Hs in Hd. injection Hd as <-.
    by apply astype_Int64_Ok in Hs' as (? & _ & ?).
  - intros s Hs. destruct (Pandas.columns df !! "timestamp"); [|by rewrite Hts in Hs].
    destruct Hts as (s' & Hs' & Hd). rewrite Hs in Hd. injection Hd as <-.
    by eapply to_datetime_Ok.
Qed.

Lemma standardize_formats_postcondition_witness :
  Pandas.wf Examples.cleaned /\
  DataProcessor.standardize_formats Examples.numeric_of_str Examples.to_timestamp 0
    Examples.cleaned = Ok Stages.standardized /\
  Pandas.wf Stages.standardized.
Proof.
  split; [exact wf_cleaned|]. split; [exact standardize_cleaned|].
  exact (proj1 (standardize_formats_postcondition Examples.numeric_of_str
                  Examples.to_timestamp 0 Examples.cleaned Stages.standardized
                  wf_cleaned standardize_cleaned)).
Defined.

(** ** The numeric columns after the first two steps *)

Section CanonicalFacts.

Import Pandas Invariants.

Lemma fill_column_float (c : string) (s : Series) :
  canonical s -> exists s', DataProcessor.fill_column c s = Ok s'.
Proof.
  intros [_ [Hty|[Hty Hnil]]]; unfold DataProcessor.fill_column, fillna_value.
  - rewrite Hty. cbn. repeat case_bool_decide; eauto.
  - rewrite Hty, Hnil. cbn. destruct (dtype_of s); repeat case_bool_decide; eauto.
Qed.

Lemma cleaned_then_standardized (numeric_of_str : string -> pyval) (s0 sa : Series) :
  apply DataProcessor.clean_numeric_value s0 = Ok sa ->
  canonical (to_numeric numeric_of_str sa).
Proof.
  intros H. apply apply_Ok in H as (l & Hl & ->).
  apply to_numeric_applied_cleaned.
  - by apply mapM_Ok in Hl as [Hlen _].
  - eapply mapM_range; [|exact Hl]. intros a b. apply clean_numeric_value_range.
Qed.

End CanonicalFacts.

(** X11.  After [clean_data] and [standardize_formats],
    each of the numeric columns of the frame holds floats only and is
    a float64 column (in a frame without rows it may be a column
    without cells of another numeric dtype); so the fill of
    [handle_missing_values] never fails on such a column. *)
Theorem numeric_columns_become_float_columns
    (py_str : pyval -> string) (numeric_of_str : string -> pyval)
    (to_timestamp : pyval -> option Z) (now : Z)
    (df cleaned standardized : Pandas.DataFrame) (c : string) (s : Pandas.Series) :
  DataProcessor.clean_data py_str df = Ok cleaned ->
  DataProcessor.standardize_formats numeric_of_str to_timestamp now cleaned
    = Ok standardized ->
  c ∈ DataProcessor.numeric_columns ->
  Pandas.columns standardized !! c = Some s ->
  Invariants.canonical s /\
  exists s', DataProcessor.fill_column c s = Ok s'.
Proof.
  intros Hclean Hstd Hc Hs.
  apply clean_data_Ok in Hclean as (_ & Hnum & _). cbn zeta in Hnum.
  apply standardize_formats_Ok in Hstd as (_ & Hnum' & _).
  specialize (Hnum c Hc). specialize (Hnum' c Hc). rewrite Hs in Hnum'.
  destruct (Pandas.columns (DataProcessor.drop_error_rows df) !! c) as [s0|].
  - destruct Hnum as (sa & Hsa & Ha). rewrite Ha in Hnum'. injection Hnum' as ->.
    pose proof (cleaned_then_standardized numeric_of_str _ _ Hsa) as Hcan.
    split; [exact Hcan|]. by apply fill_column_float.
  - by rewrite Hnum in Hnum'.
Qed.

Lemma day_high_is_numeric : "day_high" ∈ DataProcessor.numeric_columns.
Proof. by_computation. Qed.

Lemma numeric_columns_become_float_columns_witness :
  Invariants.canonical Stages.day_high.
Proof.
  exact (proj1 (numeric_columns_become_float_columns Examples.py_str Examples.numeric_of_str
                  Examples.to_timestamp 0 Examples.raw_batch Examples.cleaned
                  Stages.standardized "day_high" Stages.day_high clean_raw_batch
                  standardize_cleaned day_high_is_numeric standardized_day_high)).
Defined.

(** ** Filling the missing values *)

Section FillShapes.

Import Pandas.

Lemma fillna_value_present (x : spec_float) (s s' : Series) (i : nat) (v : pyval) :
  fillna_value x s = Ok s' -> values s !! i = Some v -> isna v = false ->
  values s' !! i = Some v.
Proof.
  unfold fillna_value. intros H Hv Hna.
  destruct (dtype_of s); repeat case_match; simplify_eq; cbn; try done;
    by rewrite list_lookup_fmap, Hv; cbn; rewrite Hna.
Qed.

Lemma fill_column_present (c : string) (s s' : Series) (i : nat) (v : pyval) :
  DataProcessor.fill_column c s = Ok s' -> values s !! i = Some v -> isna v = false ->
  values s' !! i = Some v.
Proof.
  unfold DataProcessor.fill_column. intros H Hv Hna.
  repeat case_match; simplify_eq; try done.
  - cbn. rewrite ffill_from_lookup, Hv. cbn. by rewrite Hna.
  - by eapply fillna_value_present.
  - by eapply fillna_value_present.
Qed.

Lemma fill_with_lookup (l other : list pyval) (i : nat) (v : pyval) :
  l !! i = Some v ->
  fill_with l other !! i
    = Some (match other !! i with
            | Some o => if isna v then o else v
            | None => v
            end).
Proof.
  revert other i. induction l as [|x l IH]; intros other i Hv; [done|].
  destruct other as [|o other]; [by rewrite lookup_nil|].
  destruct i as [|i]; cbn in *; [by injection Hv as ->|by apply IH].
Qed.

Lemma length_fill_with (l other : list pyval) : length (fill_with l other) = length l.
Proof.
  revert other. induction l as [|x l IH]; intros [|o other]; cbn; try done.
  by rewrite IH.
Qed.

(** The company names after [handle_missing_values]. *)
Lemma handle_missing_values_names (df d : DataFrame) :
  DataProcessor.handle_missing_values df = Ok d ->
  match columns df !! "company_name" with
  | Some names =>
      exists names' symbol symbol',
        DataProcessor.fill_column "company_name" names = Ok names' /\
        columns df !! "symbol" = Some symbol /\
        DataProcessor.fill_column "symbol" symbol = Ok symbol' /\
        columns d !! "company_name" = Some (fillna_series symbol' names')
  | None => columns d !! "company_name" = None
  end.
Proof.
  unfold DataProcessor.handle_missing_values. intros H.
  apply bind_Ok in H as (d1 & Hd1 & H). apply map_columns_Ok in Hd1 as [Hn Hcols].
  pose proof (Hcols "company_name") as Hname. pose proof (Hcols "symbol") as Hsym.
  destruct (columns df !! "company_name") as [names|].
  - destruct Hname as (names' & Hnames' & Hd1). rewrite Hd1 in H.
    apply bind_Ok in H as (symbol' & Hsymbol' & H). injection H as <-.
    apply get_col_Ok in Hsymbol'.
    destruct (columns df !! "symbol") as [symbol|]; [|by rewrite Hsym in Hsymbol'].
    destruct Hsym as (s' & Hs' & Hd). rewrite Hsymbol' in Hd. injection Hd as <-.
    exists names', symbol, symbol'. cbn. by rewrite lookup_insert_eq.
  - rewrite Hname in H. injection H as <-. done.
Qed.

Lemma handle_missing_values_is_Some (df d : DataFrame) (c : string) :
  DataProcessor.handle_missing_values df = Ok d ->
  is_Some (columns d !! c) <-> is_Some (columns df !! c).
Proof.
  intros H. destruct (decide (c = "company_name")) as [->|Hc].
  - apply handle_missing_values_names in H.
    destruct (columns df !! "company_name").
    + destruct H as (? & ? & ? & _ & _ & _ & ->). split; eauto.
    + by rewrite H.
  - apply handle_missing_values_Ok in H as [_ H]. specialize (H c Hc).
    destruct (columns df !! c).
    + destruct H as (? & _ & ->). split; eauto.
    + by rewrite H.
Qed.

Lemma wf_handle_missing_values (df d : DataFrame) :
  wf df -> DataProcessor.handle_missing_values df = Ok d -> wf d.
Proof.
  intros Hwf H c s Hs. pose proof (handle_missing_values_names _ _ H) as Hname.
  apply handle_missing_values_Ok in H as [Hn H]. rewrite Hn.
  destruct (decide (c = "company_name")) as [->|Hc].
  - destruct (columns df !! "company_name") as [names|] eqn:Hnames;
      [|by rewrite Hname in Hs].
    destruct Hname as (names' & ? & ? & Hf & _ & _ & Hd). rewrite Hs in Hd.
    injection Hd as ->. cbn. rewrite length_fill_with, (length_fill_column _ _ _ Hf).
    by apply (Hwf "company_name").
  - specialize (H c Hc). destruct (columns df !! c) as [s0|] eqn:Hs0;
      [|by rewrite H in Hs].
    destruct H as (s' & Hf & Hd). rewrite Hs in Hd. injection Hd as <-.
    rewrite (length_fill_column _ _ _ Hf). by apply (Hwf c).
Qed.

Lemma fill_column_object (c : string) (s : Series) :
  is_number (dtype_of s) = false -> DataProcessor.fill_column c s = Ok s.
Proof. intros H. unfold DataProcessor.fill_column. by rewrite H. Qed.

Lemma handle_missing_values_without_symbol (df : DataFrame) :
  is_Some (columns df !! "company_name") ->
  columns df !! "symbol" = None ->
  DataProcessor.handle_missing_values df =
    match map_columns DataProcessor.fill_column df with
    | Ok _ => Raise KeyError
    | Raise e => Raise e
    end.
Proof.
  intros [names Hnames] Hsymbol. unfold DataProcessor.handle_missing_values.
  destruct (map_columns DataProcessor.fill_column df) as [d1|e] eqn:Hd1; [|done].
  cbn. apply map_columns_Ok in Hd1 as [_ Hcols].
  pose proof (Hcols "company_name") as Hn. pose proof (Hcols "symbol") as Hs.
  rewrite Hnames in Hn. rewrite Hsymbol in Hs. destruct Hn as (names' & _ & ->).
  unfold get_col. by rewrite Hs.
Qed.

End FillShapes.

(** X12.  [handle_missing_values] changes missing cells
    only: it returns a frame with the rows and the columns of the frame
    it was given, in which every cell that held a value holds the same
    value. *)
Theorem handle_missing_values_keeps_what_is_present (df d : Pandas.DataFrame) :
  Pandas.wf df ->
  DataProcessor.handle_missing_values df = Ok d ->
  Pandas.wf d /\
  Pandas.nrows d = Pandas.nrows df /\
  (forall c, is_Some (Pandas.columns d !! c) <-> is_Some (Pandas.columns df !! c)) /\
  (forall c s i v,
     Pandas.columns df !! c = Some s -> Pandas.values s !! i = Some v -> isna v = false ->
     exists s', Pandas.columns d !! c = Some s' /\ Pandas.values s' !! i = Some v).
Proof.
  intros Hwf H. split; [by eapply wf_handle_missing_values|].
  split; [by apply handle_missing_values_Ok in H as [? _]|].
  split; [intros c; by apply handle_missing_values_is_Some|].
  intros c s i v Hs Hv Hna. destruct (decide (c = "company_name")) as [->|Hc].
  - apply handle_missing_values_names in H. rewrite Hs in H.
    destruct H as (names' & symbol & symbol' & Hf & _ & _ & Hd).
    eexists. split; [exact Hd|]. cbn.
    rewrite (fill_with_lookup _ _ i v) by (by eapply fill_column_present).
    rewrite Hna. by destruct (Pandas.values symbol' !! i).
  - apply handle_missing_values_Ok in H as [_ H]. specialize (H c Hc). rewrite Hs in H.
    destruct H as (s' & Hf & Hd). exists s'. split; [done|]. by eapply fill_column_present.
Qed.

Lemma handle_missing_values_keeps_what_is_present_witness :
  Pandas.wf Stages.standardized /\
  DataProcessor.handle_missing_values Stages.standardized = Ok Stages.filled /\
  Pandas.wf Stages.filled.
Proof.
  split; [exact wf_standardized|]. split; [exact fill_standardized|].
  exact (proj1 (handle_missing_values_keeps_what_is_present Stages.standardized Stages.filled
                  wf_standardized fill_standardized)).
Defined.

(** X13.  In a float column named change or change_percent,
    [handle_missing_values] puts 0.0 in every missing cell, so that no
    cell of the column is missing afterwards. *)
Theorem change_columns_are_filled_with_zero (df d : Pandas.DataFrame) (c : string)
    (s : Pandas.Series) :
  c ∈ ["change"; "change_percent"] ->
  DataProcessor.handle_missing_values df = Ok d ->
  Pandas.columns df !! c = Some s ->
  Pandas.dtype_of s = Pandas.Float64 ->
  exists s',
    Pandas.columns d !! c = Some s' /\
    Pandas.dtype_of s' = Pandas.Float64 /\
    Pandas.values s'
      = map (fun v => if isna v then PFloat (Float64.of_Z 0) else v) (Pandas.values s) /\
    Forall (fun v => isna v = false) (Pandas.values s').
Proof.
  intros Hc H Hs Hty.
  assert (c <> "company_name") as Hne by (intros ->; revert Hc; by_computation).
  assert (c ∉ ["current_price"; "previous_close"; "open"]) as Hprice.
  { revert Hc. rewrite !elem_of_cons. intros [->|[->|Hc]]; [by_computation..|].
    by apply elem_of_nil in Hc. }
  apply handle_missing_values_Ok in H as [_ H]. specialize (H c Hne). rewrite Hs in H.
  destruct H as (s' & Hf & Hd). exists s'. split; [done|].
  unfold DataProcessor.fill_column in Hf. rewrite Hty in Hf. cbn [Pandas.is_number] in Hf.
  rewrite (bool_decide_eq_false_2 _ Hprice), (bool_decide_eq_true_2 _ Hc) in Hf.
  unfold Pandas.fillna_value in Hf. rewrite Hty in Hf. injection Hf as <-. cbn.
  split; [done|]. split; [done|].
  apply Forall_map, Forall_true. intros v. by destruct (isna v) eqn:Hv.
Qed.

Lemma change_columns_are_filled_with_zero_witness :
  exists s',
    Pandas.columns Stages.filled !! "change_percent" = Some s' /\
    Forall (fun v => isna v = false) (Pandas.values s').
Proof.
  destruct (change_columns_are_filled_with_zero Stages.standardized Stages.filled
              "change_percent" Stages.change_percent change_percent_is_a_change
              fill_standardized standardized_change_percent eq_refl)
    as (s' & Hs' & _ & _ & Hall).
  exists s'. split; [exact Hs'|exact Hall].
Defined.

(** X14.  In a float column that is neither a price nor a
    change, [handle_missing_values] puts the median of the values of
    the column in every missing cell; a column without any value stays
    without any. *)
Theorem other_columns_are_filled_with_the_median (df d : Pandas.DataFrame) (c : string)
    (s : Pandas.Series) :
  c ∉ ["current_price"; "previous_close"; "open"] ->
  c ∉ ["change"; "change_percent"] ->
  c <> "company_name" ->
  DataProcessor.handle_missing_values df = Ok d ->
  Pandas.columns df !! c = Some s ->
  Pandas.dtype_of s = Pandas.Float64 ->
  exists s',
    Pandas.columns d !! c = Some s' /\
    Pandas.dtype_of s' = Pandas.Float64 /\
    Pandas.values s' = map (Invariants.fill_cell (Pandas.median s)) (Pandas.values s) /\
    (Forall (fun v => isna v = true) (Pandas.values s) ->
     Forall (fun v => isna v = true) (Pandas.values s')).
Proof.
  intros Hprice Hchange Hne H Hs Hty.
  apply handle_missing_values_Ok in H as [_ H]. specialize (H c Hne). rewrite Hs in H.
  destruct H as (s' & Hf & Hd). exists s'. split; [done|].
  split; [|split].
  - unfold DataProcessor.fill_column in Hf. rewrite Hty in Hf. cbn [Pandas.is_number] in Hf.
    rewrite (bool_decide_eq_false_2 _ Hprice), (bool_decide_eq_false_2 _ Hchange) in Hf.
    unfold Pandas.fillna_value in Hf. rewrite Hty in Hf. by injection Hf as <-.
  - unfold DataProcessor.fill_column in Hf. rewrite Hty in Hf. cbn [Pandas.is_number] in Hf.
    rewrite (bool_decide_eq_false_2 _ Hprice), (bool_decide_eq_false_2 _ Hchange) in Hf.
    unfold Pandas.fillna_value in Hf. rewrite Hty in Hf. by injection Hf as <-.
  - intros Hall. by eapply fill_column_all_missing.
Qed.

Lemma other_columns_are_filled_with_the_median_witness :
  exists s',
    Pandas.columns Stages.filled !! "day_high" = Some s' /\
    Pandas.values s'
      = map (Invariants.fill_cell (Pandas.median Stages.day_high))
            (Pandas.values Stages.day_high).
Proof.
  destruct (other_columns_are_filled_with_the_median Stages.standardized Stages.filled
              "day_high" Stages.day_high day_high_is_no_price day_high_is_no_change
              day_high_is_no_name fill_standardized standardized_day_high eq_refl)
    as (s' & Hs' & _ & Hv & _).
  exists s'. split; [exact Hs'|exact Hv].
Defined.

(** X15.  A missing company name takes the symbol of its row,
    and a name that is present is kept. *)
Theorem missing_company_name_takes_the_symbol (df d : Pandas.DataFrame)
    (names symbol : Pandas.Series) :
  DataProcessor.handle_missing_values df = Ok d ->
  Pandas.columns df !! "company_name" = Some names ->
  Pandas.columns df !! "symbol" = Some symbol ->
  Pandas.dtype_of names = Pandas.Object ->
  Pandas.dtype_of symbol = Pandas.Object ->
  exists names',
    Pandas.columns d !! "company_name" = Some names' /\
    Pandas.dtype_of names' = Pandas.Object /\
    length (Pandas.values names') = length (Pandas.values names) /\
    forall i v u,
      Pandas.values names !! i = Some v -> Pandas.values symbol !! i = Some u ->
      Pandas.values names' !! i = Some (if isna v then u else v).
Proof.
  intros H Hnames Hsymbol Hty Hty'.
  apply handle_missing_values_names in H. rewrite Hnames in H.
  destruct H as (names' & symbol0 & symbol' & Hf & Hs0 & Hf' & Hd).
  rewrite Hsymbol in Hs0. injection Hs0 as <-.
  rewrite fill_column_object in Hf by (by rewrite Hty).
  rewrite fill_column_object in Hf' by (by rewrite Hty').
  injection Hf as <-. injection Hf' as <-.
  eexists. split; [exact Hd|]. cbn. rewrite Hty, Hty'.
  split; [by rewrite decide_True|]. split; [apply length_fill_with|].
  intros i v u Hv Hu. by rewrite (fill_with_lookup _ _ i v Hv), Hu.
Qed.

Lemma missing_company_name_takes_the_symbol_witness :
  exists names',
    Pandas.columns Stages.filled !! "company_name" = Some names' /\
    length (Pandas.values names') = length (Pandas.values Stages.company_name).
Proof.
  destruct (missing_company_name_takes_the_symbol Stages.standardized Stages.filled
              Stages.company_name Stages.symbol fill_standardized
              standardized_company_name standardized_symbol eq_refl eq_refl)
    as (names' & Hn & _ & Hlen & _).
  exists names'. split; [exact Hn|exact Hlen].
Defined.

(** X16.  On a frame that has the column company_name and
    no column symbol, [handle_missing_values] never returns: when the
    fill of the columns itself completes it raises [KeyError]. *)
Theorem company_name_without_symbol_raises (df : Pandas.DataFrame) :
  is_Some (Pandas.columns df !! "company_name") ->
  Pandas.columns df !! "symbol" = None ->
  DataProcessor.handle_missing_values df =
    match Pandas.map_columns DataProcessor.fill_column df with
    | Ok _ => Raise KeyError
    | Raise e => Raise e
    end.
Proof.
  intros [names Hnames] Hsymbol. unfold DataProcessor.handle_missing_values.
  destruct (Pandas.map_columns DataProcessor.fill_column df) as [d1|e] eqn:Hd1; [|done].
  cbn. apply map_columns_Ok in Hd1 as [_ Hcols].
  pose proof (Hcols "company_name") as Hn. pose proof (Hcols "symbol") as Hs.
  rewrite Hnames in Hn. rewrite Hsymbol in Hs. destruct Hn as (names' & _ & ->).
  unfold Pandas.get_col. by rewrite Hs.
Qed.

Lemma company_name_without_symbol_raises_witness :
  DataProcessor.handle_missing_values Stages.names_only =
    match Pandas.map_columns DataProcessor.fill_column Stages.names_only with
    | Ok _ => Raise KeyError
    | Raise e => Raise e
    end.
Proof.
  exact (company_name_without_symbol_raises Stages.names_only names_only_has_names
           names_only_has_no_symbol).
Defined.

(** ** The derived columns and the whole of [process_data] *)

Section DerivedShapes.

Import Pandas.

Lemma has_column_true (col : string) (df : DataFrame) :
  has_column col df = true <-> is_Some (columns df !! col).
Proof. unfold has_column. by rewrite bool_decide_eq_true. Qed.

(** Without the current price the volatility raises: the exception
    of the difference when it has one, and otherwise the [KeyError] of
    the divisor. *)
Lemma add_derived_metrics_without_price (df : DataFrame) (high low : Series) :
  columns df !! "day_high" = Some high ->
  columns df !! "day_low" = Some low ->
  columns df !! "current_price" = None ->
  DataProcessor.add_derived_metrics df =
    match binop Float64.sub high low with
    | Ok _ => Raise KeyError
    | Raise e => Raise e
    end.
Proof.
  intros Hh Hl Hp. unfold DataProcessor.add_derived_metrics.
  rewrite (proj2 (has_column_false "current_price" df) Hp). cbn.
  rewrite (proj2 (has_column_true "day_high" df) ltac:(by rewrite Hh)).
  rewrite (proj2 (has_column_true "day_low" df) ltac:(by rewrite Hl)). cbn.
  unfold get_col. rewrite Hh, Hl, Hp. cbn. by destruct (binop Float64.sub high low).
Qed.

Lemma add_derived_metrics_without_price_raises (df : DataFrame) :
  is_Some (columns df !! "day_high") ->
  is_Some (columns df !! "day_low") ->
  columns df !! "current_price" = None ->
  exists e, DataProcessor.add_derived_metrics df = Raise e.
Proof.
  intros [high Hh] [low Hl] Hp. rewrite (add_derived_metrics_without_price _ _ _ Hh Hl Hp).
  destruct (binop Float64.sub high low) as [d|e]; eauto.
Qed.

(** The cells of two numeric columns can always be operated on. *)
Lemma zip_op_numeric (op : spec_float -> spec_float -> spec_float) (da db : dtype)
    (a b : list pyval) :
  is_number da = true -> is_number db = true ->
  exists l, zip_op op da db a b = Ok l.
Proof.
  intros Ha Hb. revert b. induction a as [|x a IH]; intros [|y b]; cbn; eauto.
  destruct (IH b) as [l ->]. destruct da, db; try done; cbn; eauto.
Qed.

Lemma binop_numeric (op : spec_float -> spec_float -> spec_float) (a b : Series) :
  is_number (dtype_of a) = true -> is_number (dtype_of b) = true ->
  exists s, binop op a b = Ok s.
Proof.
  intros Ha Hb. unfold binop.
  destruct (zip_op_numeric op _ _ (values a) (values b) Ha Hb) as [l ->]. cbn. eauto.
Qed.

Lemma mapM_labels (f : pyval -> result string) (l : list pyval) (l' : list pyval) :
  mapM (fun v => p ← f v; Ok (PStr p)) l = Ok l' ->
  exists labels, l' = PStr <$> labels /\ mapM f l = Ok labels.
Proof.
  revert l'. induction l as [|v l IH]; intros l' H; cbn in H.
  - injection H as <-. by exists [].
  - apply bind_Ok in H as (b & Hb & H). apply bind_Ok in H as (bs & Hbs & H).
    injection H as <-. apply bind_Ok in Hb as (p & Hp & Hb). injection Hb as <-.
    destruct (IH _ Hbs) as (labels & -> & Hl). exists (p :: labels).
    split; [done|]. cbn. by rewrite Hp, Hl.
Qed.

Lemma add_derived_metrics_is_Some (df d : DataFrame) (c : string) :
  DataProcessor.add_derived_metrics df = Ok d ->
  (is_Some (columns df !! c) -> is_Some (columns d !! c)) /\
  (is_Some (columns d !! c) -> is_Some (columns df !! c) \/ c ∈ Claimed.derived_columns).
Proof.
  intros H. apply add_derived_metrics_Ok in H as (_ & Hother & Hm & Hv & Hk & Hp).
  destruct (decide (c ∈ Claimed.derived_columns)) as [Hc|Hc].
  - split; [|by right]. intros Hdf. unfold Claimed.derived_columns in Hc.
    rewrite !elem_of_cons, elem_of_nil in Hc.
    destruct Hc as [->|[->|[->|[->|[]]]]].
    + destruct (columns df !! "current_price"), (columns df !! "previous_close");
        try (by rewrite Hm); destruct Hm as (m & _ & ->); eauto.
    + destruct (columns df !! "day_high"), (columns df !! "day_low");
        try (by rewrite Hv); destruct Hv as (p & v & _ & _ & ->); eauto.
    + destruct (columns df !! "market_cap"); [|by rewrite Hk].
      destruct Hk as (k & _ & ->). eauto.
    + destruct (columns df !! "change_percent"); [|by rewrite Hp].
      destruct Hp as (k & _ & ->). eauto.
  - rewrite (Hother c Hc). split; [done|by left].
Qed.

Lemma wf_add_derived_metrics (df d : DataFrame) :
  wf df -> DataProcessor.add_derived_metrics df = Ok d -> wf d.
Proof.
  intros Hwf H. apply add_derived_metrics_Ok in H as (Hn & Hother & Hm & Hv & Hk & Hp).
  intros c s Hs. rewrite Hn.
  destruct (decide (c ∈ Claimed.derived_columns)) as [Hc|Hc];
    [|rewrite (Hother c Hc) in Hs; by apply (Hwf c)].
  unfold Claimed.derived_columns in Hc. rewrite !elem_of_cons, elem_of_nil in Hc.
  destruct Hc as [->|[->|[->|[->|[]]]]].
  - destruct (columns df !! "current_price") as [a|] eqn:Ha;
      [destruct (columns df !! "previous_close") as [b|] eqn:Hb|];
      try (rewrite Hm in Hs; by apply (Hwf "price_momentum")).
    destruct Hm as (m & Hm & Hd). rewrite Hs in Hd. injection Hd as <-.
    apply percent_of_Ok in Hm as (_ & -> & _).
    rewrite (Hwf _ _ Ha), (Hwf _ _ Hb). lia.
  - destruct (columns df !! "day_high") as [h|] eqn:Hh;
      [destruct (columns df !! "day_low") as [l|] eqn:Hl|];
      try (rewrite Hv in Hs; by apply (Hwf "daily_volatility")).
    destruct Hv as (p & v & Hp' & Hv & Hd). rewrite Hs in Hd. injection Hd as <-.
    apply percent_of_Ok in Hv as (_ & -> & _).
    rewrite (Hwf _ _ Hh), (Hwf _ _ Hl), (Hwf _ _ Hp'). lia.
  - destruct (columns df !! "market_cap") as [caps|] eqn:Hcaps;
      [|rewrite Hk in Hs; by apply (Hwf "market_cap_category")].
    destruct Hk as (k & Hk & Hd). rewrite Hs in Hd. injection Hd as <-.
    rewrite (length_apply _ _ _ Hk). by apply (Hwf "market_cap").
  - destruct (columns df !! "change_percent") as [changes|] eqn:Hch;
      [|rewrite Hp in Hs; by apply (Hwf "performance_category")].
    destruct Hp as (k & Hk' & Hd). rewrite Hs in Hd. injection Hd as <-.
    rewrite (length_apply _ _ _ Hk'). by apply (Hwf "change_percent").
Qed.

End DerivedShapes.

(** X17.  The daily volatility divides by the current
    price without having tested that the column exists: on a frame that
    has day_high and day_low and no current_price,
    [add_derived_metrics] returns no frame.  The difference of the two
    columns is computed first; when they are numeric columns, as they
    are after the first steps of the pipeline, it succeeds and the
    look-up of the divisor raises [KeyError]; when they hold text, the
    difference raises [TypeError] before the divisor is looked up. *)
Theorem daily_volatility_needs_the_current_price
    (df : Pandas.DataFrame) (high low : Pandas.Series) :
  Pandas.columns df !! "day_high" = Some high ->
  Pandas.columns df !! "day_low" = Some low ->
  Pandas.columns df !! "current_price" = None ->
  (exists e, DataProcessor.add_derived_metrics df = Raise e) /\
  (Pandas.is_number (Pandas.dtype_of high) = true ->
   Pandas.is_number (Pandas.dtype_of low) = true ->
   DataProcessor.add_derived_metrics df = Raise KeyError) /\
  DataProcessor.add_derived_metrics Stages.range_as_text = Raise TypeError.
Proof.
  intros Hh Hl Hp. rewrite (add_derived_metrics_without_price _ _ _ Hh Hl Hp).
  split; [|split; [|vm_compute; reflexivity]].
  - destruct (Pandas.binop Float64.sub high low) as [d|e]; eauto.
  - intros Hnh Hnl. by destruct (binop_numeric Float64.sub high low Hnh Hnl) as [d ->].
Qed.

Lemma range_only_day_high :
  Pandas.columns Stages.range_only !! "day_high"
    = Some (Pandas.mkSeries Pandas.Float64 (Examples.floats [12])).
Proof. vm_compute. reflexivity. Qed.

Lemma range_only_day_low :
  Pandas.columns Stages.range_only !! "day_low"
    = Some (Pandas.mkSeries Pandas.Float64 (Examples.floats [10])).
Proof. vm_compute. reflexivity. Qed.

Lemma daily_volatility_needs_the_current_price_witness :
  DataProcessor.add_derived_metrics Stages.range_only = Raise KeyError.
Proof.
  exact (proj1 (proj2 (daily_volatility_needs_the_current_price Stages.range_only _ _
                         range_only_day_high range_only_day_low range_only_has_no_price))
           eq_refl eq_refl).
Defined.

(** X18.  [add_derived_metrics] only adds columns: the frame
    it returns has the rows of the frame it was given and the same
    cells in every column but the four it derives.  In a frame that
    has rows the market cap category is an object column that holds in
    every row the label of the market cap of the row, and the
    performance category likewise; in a frame without rows each of the
    two is a column without cells of the dtype of the column it is
    made from ([Series.apply] hands such a column back), so that the
    performance category of a float64 change_percent is a float64
    column. *)
Theorem add_derived_metrics_only_adds (df d : Pandas.DataFrame) :
  Pandas.wf df ->
  DataProcessor.add_derived_metrics df = Ok d ->
  Pandas.wf d /\
  Pandas.nrows d = Pandas.nrows df /\
  (forall c, c ∉ Claimed.derived_columns ->
     Pandas.columns d !! c = Pandas.columns df !! c) /\
  (forall c, is_Some (Pandas.columns df !! c) -> is_Some (Pandas.columns d !! c)) /\
  (forall caps, Pandas.columns df !! "market_cap" = Some caps ->
     Pandas.columns d !! "market_cap_category"
       = Some (match Pandas.values caps with
               | [] => Pandas.mkSeries (Pandas.dtype_of caps) []
               | cells =>
                   Pandas.mkSeries Pandas.Object
                     (PStr <$> map DataProcessor.categorize_market_cap cells)
               end)) /\
  (forall changes, Pandas.columns df !! "change_percent" = Some changes ->
     exists labels,
       Pandas.mapM DataProcessor.categorize_performance (Pandas.values changes) = Ok labels /\
       Pandas.columns d !! "performance_category"
         = Some (match Pandas.values changes with
                 | [] => Pandas.mkSeries (Pandas.dtype_of changes) []
                 | _ => Pandas.mkSeries Pandas.Object (PStr <$> labels)
                 end)) /\
  Pandas.columns (Examples.frame_of (DataProcessor.add_derived_metrics Stages.no_rows))
    !! "performance_category" = Some (Pandas.mkSeries Pandas.Float64 []).
Proof.
  intros Hwf H. split; [by eapply wf_add_derived_metrics|].
  pose proof (fun c => proj1 (add_derived_metrics_is_Some df d c H)) as Hmono.
  apply add_derived_metrics_Ok in H as (Hn & Hother & _ & _ & Hk & Hp).
  split; [done|]. split; [done|]. split; [done|]. split; [|split].
  - intros caps Hcaps. rewrite Hcaps in Hk. destruct Hk as (k & Hk' & ->).
    f_equal. rewrite apply_pure in Hk'. injection Hk' as <-.
    unfold Pandas.applied. destruct (Pandas.values caps) as [|v cells]; [done|].
    rewrite <- infer_objects_strings. f_equal. by rewrite <- list_fmap_compose.
  - intros changes Hch. rewrite Hch in Hp. destruct Hp as (k & Hk' & ->).
    apply apply_Ok in Hk' as (l & Hl & ->).
    apply mapM_labels in Hl as (labels & -> & Hl).
    exists labels. split; [done|]. unfold Pandas.applied.
    destruct (Pandas.values changes); [done|]. by rewrite infer_objects_strings.
  - vm_compute. reflexivity.
Qed.

Lemma add_derived_metrics_only_adds_witness :
  Pandas.wf Stages.filled /\
  DataProcessor.add_derived_metrics Stages.filled = Ok Examples.processed /\
  Pandas.wf Examples.processed.
Proof.
  split; [exact wf_filled|]. split; [exact derive_filled|].
  exact (proj1 (add_derived_metrics_only_adds Stages.filled Examples.processed
                  wf_filled derive_filled)).
Defined.

Section ProcessShapes.

Import Pandas.

Variable py_str : pyval -> string.
Variable numeric_of_str : string -> pyval.
Variable to_timestamp : pyval -> option Z.
Variable now : Z.
Variable read_csv : string -> result DataFrame.

Local Abbreviation steps := (DataProcessor.run_steps py_str numeric_of_str to_timestamp now).
Local Abbreviation process :=
  (DataProcessor.process_data py_str numeric_of_str to_timestamp now read_csv).

Lemma process_data_Some (input_file : string) (d : DataFrame) :
  process input_file = Ok (Some d) ->
  exists df, read_csv input_file = Ok df /\ empty df = false /\ steps df = Ok d.
Proof.
  unfold DataProcessor.process_data, DataProcessor.try_except, mbind, result_bind.
  destruct (read_csv input_file) as [df|e]; cbv beta iota; [|done].
  destruct (empty df) eqn:Hempty; cbv beta iota; [done|].
  destruct (steps df) as [d'|e] eqn:Hsteps; cbv beta iota; [|done].
  intros [= <-]. by exists df.
Qed.

Lemma process_data_Raise (input_file : string) (df : DataFrame) (e : exn) :
  read_csv input_file = Ok df -> steps df = Raise e -> process input_file = Ok None.
Proof.
  intros Hread Hsteps.
  unfold DataProcessor.process_data, DataProcessor.try_except, mbind, result_bind.
  rewrite Hread. destruct (empty df); [done|]. fold steps. by rewrite Hsteps.
Qed.

Lemma run_steps_Ok (df d : DataFrame) :
  steps df = Ok d ->
  exists a b c,
    DataProcessor.clean_data py_str df = Ok a /\
    DataProcessor.standardize_formats numeric_of_str to_timestamp now a = Ok b /\
    DataProcessor.handle_missing_values b = Ok c /\
    DataProcessor.add_derived_metrics c = Ok d.
Proof.
  unfold DataProcessor.run_steps. intros H.
  apply bind_Ok in H as (a & Ha & H). apply bind_Ok in H as (b & Hb & H).
  apply bind_Ok in H as (c & Hc & H). by exists a, b, c.
Qed.

Lemma is_Some_None {A : Type} (x y : option A) :
  (is_Some x <-> is_Some y) -> y = None -> x = None.
Proof. intros H ->. apply eq_None_not_Some. rewrite H. by intros [? ?]. Qed.

(** A frame on which the fourth or the third step raises for want of a
    column is a frame on which the steps raise. *)
Lemma run_steps_without_key (df : DataFrame) :
  (is_Some (columns df !! "company_name") /\ columns df !! "symbol" = None) \/
  (is_Some (columns df !! "day_high") /\ is_Some (columns df !! "day_low") /\
   columns df !! "current_price" = None) ->
  exists e, steps df = Raise e.
Proof.
  intros Hkeys. unfold DataProcessor.run_steps.
  destruct (DataProcessor.clean_data py_str df) as [a|e] eqn:Ha; [|by exists e]. cbn.
  destruct (DataProcessor.standardize_formats _ _ _ a) as [b|e] eqn:Hb; [|by exists e]. cbn.
  assert (forall k, k <> "processed_at" ->
            is_Some (columns b !! k) <-> is_Some (columns df !! k)) as Hab.
  { intros k Hk. rewrite (standardize_formats_is_Some _ _ _ _ _ _ Hb Hk).
    by apply (clean_data_is_Some _ _ _ _ Ha). }
  destruct Hkeys as [[Hn Hs]|(Hh & Hl & Hp)].
  - rewrite handle_missing_values_without_symbol.
    + destruct (map_columns _ b) as [?|e]; cbn; eauto.
    + by apply Hab.
    + eapply is_Some_None; [by apply Hab|done].
  - destruct (DataProcessor.handle_missing_values b) as [c|e] eqn:Hc; [|by exists e]. cbn.
    apply add_derived_metrics_without_price_raises.
    + rewrite (handle_missing_values_is_Some _ _ _ Hc). by apply Hab.
    + rewrite (handle_missing_values_is_Some _ _ _ Hc). by apply Hab.
    + eapply is_Some_None; [|exact Hp].
      rewrite (handle_missing_values_is_Some _ _ _ Hc). by apply Hab.
Qed.

End ProcessShapes.

(** X19.  A file that has the column company_name and no
    column symbol, or the columns day_high and day_low and no column
    current_price, is never processed: whatever its rows, one of the
    steps raises and [process_data] returns [None]. *)
Theorem process_data_needs_the_key_columns
    (py_str : pyval -> string) (numeric_of_str : string -> pyval)
    (to_timestamp : pyval -> option Z) (now : Z)
    (read_csv : string -> result Pandas.DataFrame) (input_file : string)
    (df : Pandas.DataFrame) :
  read_csv input_file = Ok df ->
  (is_Some (Pandas.columns df !! "company_name") /\ Pandas.columns df !! "symbol" = None) \/
  (is_Some (Pandas.columns df !! "day_high") /\ is_Some (Pandas.columns df !! "day_low") /\
   Pandas.columns df !! "current_price" = None) ->
  DataProcessor.process_data py_str numeric_of_str to_timestamp now read_csv input_file
    = Ok None.
Proof.
  intros Hread Hkeys.
  destruct (run_steps_without_key py_str numeric_of_str to_timestamp now df Hkeys) as [e He].
  by eapply process_data_Raise.
Qed.

Lemma process_data_needs_the_key_columns_witness :
  DataProcessor.process_data Examples.py_str Examples.numeric_of_str Examples.to_timestamp 0
    (fun _ => Ok Stages.range_only) "raw.csv" = Ok None.
Proof.
  exact (process_data_needs_the_key_columns Examples.py_str Examples.numeric_of_str
           Examples.to_timestamp 0 (fun _ => Ok Stages.range_only) "raw.csv"
           Stages.range_only eq_refl
           (or_intror (conj range_only_has_high
                         (conj range_only_has_low range_only_has_no_price)))).
Defined.

(** X20.  When [process_data] returns a frame for a file,
    the frame is well formed and has one row for each row of the file
    whose error cell is missing (every row, when the file has no error
    column); it keeps every column of the file and adds processed_at,
    which holds the time of the run in every row, and some of the four
    derived columns, nothing else. *)
Theorem process_data_shape
    (py_str : pyval -> string) (numeric_of_str : string -> pyval)
    (to_timestamp : pyval -> option Z) (now : Z)
    (read_csv : string -> result Pandas.DataFrame) (input_file : string)
    (df d : Pandas.DataFrame) :
  read_csv input_file = Ok df ->
  Pandas.wf df ->
  DataProcessor.process_data py_str numeric_of_str to_timestamp now read_csv input_file
    = Ok (Some d) ->
  Pandas.wf d /\
  Pandas.nrows d =
    match Pandas.columns df !! "error" with
    | Some e => length (filter (fun v => isna v = true) (Pandas.values e))
    | None => Pandas.nrows df
    end /\
  Pandas.columns d !! "processed_at"
    = Some (Pandas.mkSeries Pandas.Datetime64 (replicate (Pandas.nrows d) (PTime now))) /\
  (forall c, is_Some (Pandas.columns df !! c) -> is_Some (Pandas.columns d !! c)) /\
  (forall c, is_Some (Pandas.columns d !! c) ->
     is_Some (Pandas.columns df !! c) \/ c = "processed_at" \/ c ∈ Claimed.derived_columns).
Proof.
  intros Hread Hwf H. apply process_data_Some in H as (df' & Hread' & _ & H).
  rewrite Hread in Hread'. injection Hread' as <-.
  apply run_steps_Ok in H as (a & b & c & Ha & Hb & Hc & Hd).
  pose proof (wf_clean_data _ _ _ Hwf Ha) as Hwfa.
  pose proof (wf_standardize_formats _ _ _ _ _ Hwfa Hb) as Hwfb.
  pose proof (wf_handle_missing_values _ _ Hwfb Hc) as Hwfc.
  pose proof (standardize_formats_special _ _ _ _ _ Hb) as (Hstamp & _).
  pose proof (fun k => standardize_formats_is_Some _ _ _ _ _ k Hb) as Hkb.
  pose proof (fun k => clean_data_is_Some _ _ _ k Ha) as Hka.
  pose proof (fun k => handle_missing_values_is_Some _ _ k Hc) as Hkc.
  pose proof (fun k => add_derived_metrics_is_Some _ _ k Hd) as Hkd.
  assert (Pandas.nrows d = Pandas.nrows (DataProcessor.drop_error_rows df)) as Hn.
  { pose proof (three_steps_nrows _ _ _ _ _ _ _ _ Ha Hb Hc) as Hn3.
    apply add_derived_metrics_Ok in Hd as (-> & _). exact Hn3. }
  assert (Pandas.nrows d = Pandas.nrows a) as Hna.
  { rewrite Hn. symmetry. by apply clean_data_Ok in Ha as (? & _). }
  split; [by eapply wf_add_derived_metrics|].
  split; [rewrite Hn; by apply nrows_drop_error_rows|].
  split; [|split].
  - apply add_derived_metrics_Ok in Hd as (_ & Hother & _).
    rewrite Hother by by_computation.
    apply handle_missing_values_Ok in Hc as [_ Hc].
    specialize (Hc "processed_at" ltac:(done)). rewrite Hstamp in Hc.
    destruct Hc as (s' & Hs' & ->). rewrite fill_column_object in Hs' by done.
    injection Hs' as <-. by rewrite Hna.
  - intros k Hk. apply Hkd, Hkc. destruct (decide (k = "processed_at")) as [->|Hne].
    + rewrite Hstamp. eauto.
    + apply Hkb; [done|]. by apply Hka.
  - intros k Hk. apply Hkd in Hk as [Hk|Hk]; [|by auto].
    destruct (decide (k = "processed_at")) as [->|Hne]; [by auto|].
    left. apply Hka, Hkb; [done|]. by apply Hkc.
Qed.

Lemma process_data_shape_witness :
  Pandas.wf Examples.raw_batch /\
  Pandas.wf Examples.processed /\
  Pandas.nrows Examples.processed = 4%nat.
Proof.
  split; [exact wf_raw_batch|].
  destruct (process_data_shape Examples.py_str Examples.numeric_of_str Examples.to_timestamp 0
              (fun _ => Ok Examples.raw_batch) "raw.csv" Examples.raw_batch
              Examples.processed eq_refl wf_raw_batch process_raw_batch)
    as (Hwf & Hn & _).
  split; [exact Hwf|]. rewrite Hn. reflexivity.
Defined.

(** ** The records of the scraper *)

Section RecordFacts.

Import StockScraper Schema.

Lemma summary_row_values (cells : list string) (data : gmap string pyval) :
  (forall k v, data !! k = Some v -> summary_value k v) ->
  forall k v, summary_row cells data !! k = Some v -> summary_value k v.
Proof.
  intros Hdata k v. unfold summary_row.
  destruct cells as [|label [|value cells]]; [apply Hdata..|].
  assert (forall key, key ∈ ["previous_close"; "open"; "pe_ratio"] ->
            <[key := clean_price (Py.strip value)]> data !! k = Some v ->
            summary_value k v) as Hprice.
  { intros key Hkey. destruct (decide (k = key)) as [->|Hne].
    - rewrite lookup_insert_eq. intros [= <-]. right. split; [done|].
      apply clean_price_result.
    - rewrite lookup_insert_ne by done. apply Hdata. }
  assert (forall key, key ∈ ["volume"; "market_cap"] ->
            <[key := PStr (Py.strip value)]> data !! k = Some v ->
            summary_value k v) as Htext.
  { intros key Hkey. destruct (decide (k = key)) as [->|Hne].
    - rewrite lookup_insert_eq. intros [= <-]. left. split; [done|].
      eexists. split; [done|]. apply strip_idem.
    - rewrite lookup_insert_ne by done. apply Hdata. }
  repeat case_match; try apply Hdata;
    (apply Hprice; by_computation) || (apply Htext; by_computation).
Qed.

Lemma extract_yahoo_summary_data_values (rows : list (list string)) (k : string) (v : pyval) :
  extract_yahoo_summary_data rows !! k = Some v -> summary_value k v.
Proof.
  unfold extract_yahoo_summary_data.
  assert (forall data : gmap string pyval,
            (forall k v, data !! k = Some v -> summary_value k v) ->
            forall k v, foldl (fun data cells => summary_row cells data) data rows !! k = Some v ->
                        summary_value k v) as H.
  { induction rows as [|cells rows IH]; intros data Hdata; cbn; [done|].
    apply IH. by apply summary_row_values. }
  apply H. intros k' v' Hk. by rewrite lookup_empty in Hk.
Qed.

End RecordFacts.

(** X21.  [extract_yahoo_summary_data] stores nothing but the
    keys previous_close, open, volume, market_cap and pe_ratio; volume
    and market_cap keep the text of the cell without the blanks around
    it, the three others hold [None] or a float that is not a NaN.  A
    row counts when a key word occurs anywhere in its label and the
    last such row wins, so that the row "Avg. Volume" after the row
    "Volume" sets the volume. *)
Theorem summary_data_keys_and_values (rows : list (list string)) (k : string) (v : pyval) :
  StockScraper.extract_yahoo_summary_data rows !! k = Some v ->
  Schema.summary_value k v /\
  StockScraper.extract_yahoo_summary_data
    [["Volume"; "1,000"]; ["Avg. Volume"; "2,000"]; ["Beta"]] !! "volume"
    = Some (PStr "2,000").
Proof.
  intros H. split; [by eapply extract_yahoo_summary_data_values|].
  vm_compute. reflexivity.
Qed.

Lemma summary_data_keys_and_values_witness :
  Schema.summary_value "open" (PFloat (Prim2SF 187.5%float)).
Proof.
  exact (proj1 (summary_data_keys_and_values [["Open"; " 187.50 "]] "open"
                  (PFloat (Prim2SF 187.5%float)) eq_refl)).
Defined.

Section DatasetFacts.

Import StockScraper.

Variable World : Type.
Variable http_get : string -> World -> (string + Page) * World.
Variable clock : World -> string * World.
Variable pause : World -> World.

Local Abbreviation yahoo := (scrape_yahoo_finance World http_get clock).
Local Abbreviation one := (scrape_stock_data World http_get clock).
Local Abbreviation batch := (scrape_multiple_stocks World http_get clock pause).
Local Abbreviation trace := (outcomes World http_get clock pause).

(** The record of a page: its keys are among the raw columns, and the
    symbol, the source and the timestamp are always there. *)
Lemma page_record_keys (symbol : string) (w w1 : World) (page : Page) :
  http_get symbol w = (inr page, w1) ->
  let data := (yahoo symbol w).1 in
  (forall k, is_Some (data !! k) -> k ∈ Schema.raw_columns) /\
  data !! "symbol" = Some (PStr symbol) /\
  data !! "source" = Some (PStr "yahoo") /\
  data !! "timestamp" = Some (PStr (clock w1).1) /\
  data !! "error" = None.
Proof.
  intros Hget. unfold scrape_yahoo_finance. rewrite Hget.
  destruct (clock w1) as [t w2]. cbn [fst].
  set (base := (<["source":=PStr "yahoo"]> (<["symbol":=PStr symbol]> ∅) : gmap string pyval)).
  assert (forall k, k <> "timestamp" -> k <> "company_name" -> k <> "change_percent" ->
            k <> "change" -> k <> "current_price" ->
            k ∉ ["previous_close"; "open"; "volume"; "market_cap"; "pe_ratio"] ->
            (<["timestamp":=PStr t]>
               (set_if_found "company_name"
                  (fun text => PStr (Py.strip (Py.before_char "(" text)))
                  (name_element page)
                  (extract_yahoo_summary_data (table_rows page)
                   ∪ set_if_found "change_percent" clean_percentage
                       (change_percent_element page)
                       (set_if_found "change" clean_price (change_element page)
                          (set_if_found "current_price" clean_price (price_element page)
                             base))))
              : gmap string pyval) !! k = base !! k) as Hlook.
  { intros k ? ? ? ? ? Hk.
    rewrite lookup_insert_ne, set_if_found_other by done.
    rewrite lookup_union_r by (by apply extract_yahoo_summary_data_other).
    by rewrite !set_if_found_other by done. }
  split; [|split; [|split; [|split]]].
  - intros k Hk. destruct (decide (k ∈ Schema.raw_columns)) as [|Hout]; [done|exfalso].
    unfold Schema.raw_columns in Hout. rewrite !not_elem_of_cons in Hout.
    destruct Hout as (? & ? & ? & ? & ? & ? & ? & ? & ? & ? & ? & ? & _).
    rewrite Hlook in Hk; try done.
    + subst base. rewrite !lookup_insert_ne, lookup_empty in Hk by done.
      by destruct Hk.
    + rewrite !not_elem_of_cons. auto 10 using not_elem_of_nil.
  - rewrite Hlook by (done || by_computation). done.
  - rewrite Hlook by (done || by_computation). done.
  - by rewrite lookup_insert_eq.
  - rewrite Hlook by (done || by_computation). done.
Qed.

(** A record without error is the record of a page. *)
Lemma kept_record_keys (symbol : string) (w : World) :
  no_error (one symbol w).1 = true ->
  (forall k, is_Some ((one symbol w).1 !! k) -> k ∈ Schema.raw_columns) /\
  is_Some ((one symbol w).1 !! "symbol") /\
  is_Some ((one symbol w).1 !! "source") /\
  is_Some ((one symbol w).1 !! "timestamp").
Proof.
  intros Hok. pose proof (scrape_stock_data_keys World http_get clock symbol w) as [_ He].
  rewrite Hok in He.
  destruct (http_get symbol w) as [[message|page] w1] eqn:Hget; [done|].
  pose proof (page_record_keys symbol w w1 page Hget) as (Hkeys & Hs & Hsrc & Ht & Herr).
  cbn zeta in *. unfold scrape_stock_data.
  destruct (yahoo symbol w) as [data w2]. cbn [fst] in *.
  assert (no_error data = true) as ->.
  { unfold no_error. by apply bool_decide_eq_true_2. }
  cbn [fst]. rewrite Hs, Hsrc, Ht. eauto.
Qed.

Lemma outcomes_elem (symbols : list string) (w : World) (data : gmap string pyval) :
  data ∈ trace symbols w -> exists symbol w', data = (one symbol w').1.
Proof.
  revert w. induction symbols as [|symbol rest IH]; intros w; cbn.
  - intros H. by apply elem_of_nil in H.
  - destruct (one symbol w) as [data0 w1] eqn:Hone. intros [->|H]%elem_of_cons.
    + exists symbol, w. by rewrite Hone.
    + by eapply IH.
Qed.

Lemma batch_records (symbols : list string) (w : World) :
  (batch symbols w).1 =
    match List.filter no_error (trace symbols w) with
    | [] => None
    | records => Some (Pandas.from_records records)
    end.
Proof.
  unfold scrape_multiple_stocks.
  pose proof (scrape_loop_outcomes World http_get clock pause symbols [] w) as Hl.
  destruct (scrape_loop _ _ _ _ symbols [] w) as [all w1]. cbn in Hl.
  rewrite <- Hl. by destruct all.
Qed.

End DatasetFacts.

Section FromRecordsShape.

Import Pandas.

Lemma wf_from_records (records : list (gmap string pyval)) : wf (from_records records).
Proof.
  intros c s. rewrite from_records_lookup. case_decide; [|done]. intros [= <-].
  unfold record_column. by rewrite length_infer_objects, length_map.
Qed.

Lemma from_records_is_Some (records : list (gmap string pyval)) (key : string) :
  is_Some (columns (from_records records) !! key) <->
  exists d, d ∈ records /\ is_Some (d !! key).
Proof.
  rewrite from_records_lookup, <- record_keys_elem. case_decide; split; done.
Qed.

End FromRecordsShape.

(** X22.  The dataset [scrape_multiple_stocks] returns is well
    formed; its columns are among the twelve keys of the record of a
    page, with the symbol, the source and the timestamp always there.
    It has no error column, so that the filter of [clean_data] keeps
    all its rows, and no day_high, day_low, week_52_low, week_52_high
    or eps among the numeric columns the processor looks for. *)
Theorem raw_dataset_columns
    (World : Type) (http_get : string -> World -> (string + StockScraper.Page) * World)
    (clock : World -> string * World) (pause : World -> World)
    (symbols : list string) (w : World) (df : Pandas.DataFrame) :
  (StockScraper.scrape_multiple_stocks World http_get clock pause symbols w).1 = Some df ->
  Pandas.wf df /\
  (forall c, is_Some (Pandas.columns df !! c) -> c ∈ Schema.raw_columns) /\
  is_Some (Pandas.columns df !! "symbol") /\
  is_Some (Pandas.columns df !! "source") /\
  is_Some (Pandas.columns df !! "timestamp") /\
  Pandas.columns df !! "error" = None /\
  DataProcessor.drop_error_rows df = df /\
  (forall c, c ∈ ["day_high"; "day_low"; "week_52_low"; "week_52_high"; "eps"] ->
     Pandas.columns df !! c = None).
Proof.
  rewrite batch_records.
  destruct (List.filter _ _) as [|r records] eqn:Hf; [done|]. intros [= <-].
  assert (forall d, d ∈ r :: records ->
            exists symbol w',
              d = (StockScraper.scrape_stock_data World http_get clock symbol w').1 /\
              StockScraper.no_error d = true) as Hkept.
  { intros d Hd. rewrite <- Hf in Hd. apply list_elem_of_In, filter_In in Hd as [Hd Hok].
    apply list_elem_of_In, outcomes_elem in Hd as (symbol & w' & ->). eauto. }
  assert (forall c, is_Some (Pandas.columns (Pandas.from_records (r :: records)) !! c) ->
            c ∈ Schema.raw_columns) as Hcols.
  { intros c [d [Hd Hc]]%from_records_is_Some.
    destruct (Hkept d Hd) as (symbol & w' & -> & Hok).
    by apply (kept_record_keys World http_get clock symbol w' Hok). }
  assert (forall c, c ∉ Schema.raw_columns ->
            Pandas.columns (Pandas.from_records (r :: records)) !! c = None) as Hnone.
  { intros c Hc. apply eq_None_not_Some. intros Hs. by apply Hc, Hcols. }
  destruct (Hkept r ltac:(by left)) as (symbol & w' & Hr & Hok).
  destruct (kept_record_keys World http_get clock symbol w') as (_ & Hs & Hsrc & Ht);
    [by rewrite <- Hr|]. rewrite <- Hr in Hs, Hsrc, Ht.
  split; [apply wf_from_records|]. split; [exact Hcols|].
  split; [apply from_records_is_Some; exists r; split; [by left|done]|].
  split; [apply from_records_is_Some; exists r; split; [by left|done]|].
  split; [apply from_records_is_Some; exists r; split; [by left|done]|].
  split; [apply Hnone; by_computation|].
  split.
  - unfold DataProcessor.drop_error_rows. by rewrite Hnone by by_computation.
  - intros c Hc. apply Hnone. revert Hc. rewrite !elem_of_cons, elem_of_nil.
    intros [->|[->|[->|[->|[->|[]]]]]]; by_computation.
Qed.

Lemma scrape_example :
  (StockScraper.scrape_multiple_stocks unit Examples.http_get Examples.clock Examples.pause
     ["FAIL"; "AAPL"] tt).1 = Some Stages.dataset.
Proof. vm_compute. reflexivity. Qed.

Lemma raw_dataset_columns_witness :
  Pandas.wf Stages.dataset /\ Pandas.columns Stages.dataset !! "error" = None.
Proof.
  destruct (raw_dataset_columns unit Examples.http_get Examples.clock Examples.pause
              ["FAIL"; "AAPL"] tt Stages.dataset scrape_example)
    as (Hwf & _ & _ & _ & _ & Herr & _).
  split; [exact Hwf|exact Herr].
Defined.

(** X23.  When the request of a symbol fails, the record
    [scrape_stock_data] returns is the fallback, whatever the failure:
    the symbol, three missing prices, the time read after the failure
    and the error "Could not fetch data" (the message of the request
    is not kept, nor the source).  When the request gives a page, the
    record is the one of [scrape_yahoo_finance]. *)
Theorem failed_fetch_gives_the_fallback_record
    (World : Type) (http_get : string -> World -> (string + StockScraper.Page) * World)
    (clock : World -> string * World) (symbol : string) (w : World) :
  match http_get symbol w with
  | (inl message, w1) =>
      StockScraper.scrape_stock_data World http_get clock symbol w =
        ({[ "symbol" := PStr symbol; "current_price" := PNone; "change" := PNone;
            "change_percent" := PNone; "timestamp" := PStr (clock w1).1;
            "error" := PStr "Could not fetch data" ]}, (clock w1).2)
  | (inr page, w1) =>
      StockScraper.scrape_stock_data World http_get clock symbol w =
        StockScraper.scrape_yahoo_finance World http_get clock symbol w
  end.
Proof.
  pose proof (scrape_yahoo_finance_keys World http_get clock symbol w) as [_ He].
  unfold StockScraper.scrape_stock_data.
  destruct (http_get symbol w) as [[message|page] w1] eqn:Hget; cbn in He.
  - destruct (StockScraper.scrape_yahoo_finance _ _ _ symbol w) as [data w2] eqn:Hy.
    cbn in He. rewrite He.
    assert (w2 = w1) as ->.
    { unfold StockScraper.scrape_yahoo_finance in Hy. rewrite Hget in Hy. by injection Hy. }
    destruct (clock w1) as [t w3]. cbn [fst snd]. by f_equal.
  - destruct (StockScraper.scrape_yahoo_finance _ _ _ symbol w) as [data w2].
    cbn in He. by rewrite He.
Qed.

Section PageFacts.

Import StockScraper.


End PageFacts.



(** ** The requests and the pauses of a batch *)

Section LoggedFacts.

Import StockScraper Logged.

Variable respond : string -> string + Page.
Variable stamp : string.

Local Abbreviation get := (Logged.http_get respond).
Local Abbreviation clk := (Logged.clock stamp).

Lemma scrape_stock_data_log (symbol : string) (w : World) :
  (scrape_stock_data World get clk symbol w).2 = (w ++ [Request symbol; Now])%list.
Proof.
  pose proof (scrape_yahoo_finance_keys World get clk symbol w) as [_ He].
  unfold scrape_stock_data. unfold scrape_yahoo_finance in *.
  unfold Logged.http_get, Logged.clock in *. cbn [fst snd] in *.
  destruct (respond symbol) as [message|page]; cbn [fst snd] in *; rewrite He;
    cbn; by rewrite <- app_assoc.
Qed.

Lemma scrape_loop_log (symbols : list string) (acc : list (gmap string pyval)) (w : World) :
  (scrape_loop World get clk Logged.pause symbols acc w).2 = (w ++ batch_log symbols)%list.
Proof.
  revert acc w. induction symbols as [|symbol rest IH]; intros acc w.
  - cbn. by rewrite app_nil_r.
  - cbn [scrape_loop]. pose proof (scrape_stock_data_log symbol w) as Hone.
    destruct (scrape_stock_data World get clk symbol w) as [data w1]. cbn in Hone.
    subst w1. rewrite IH. destruct rest as [|next rest].
    + cbn. by rewrite app_nil_r.
    + unfold Logged.pause. cbn [batch_log]. rewrite <- !app_assoc. done.
Qed.

Lemma requested_batch_log (symbols : list string) :
  requested (batch_log symbols) = symbols.
Proof.
  induction symbols as [|symbol rest IH]; [done|].
  destruct rest as [|next rest]; [done|].
  change (requested (batch_log (symbol :: next :: rest)))
    with (symbol :: requested (batch_log (next :: rest))).
  by rewrite IH.
Qed.

Lemma sleeps_batch_log (symbols : list string) :
  sleeps (batch_log symbols) = (length symbols - 1)%nat.
Proof.
  induction symbols as [|symbol rest IH]; [done|].
  destruct rest as [|next rest]; [done|].
  change (sleeps (batch_log (symbol :: next :: rest)))
    with (S (sleeps (batch_log (next :: rest)))).
  rewrite IH. cbn. lia.
Qed.

End LoggedFacts.

(** X25.  A batch makes one request for each symbol, in the order
    of the symbols and whatever the answers, reads the clock once
    after each request, and pauses between two symbols only: there is
    no pause after the last symbol, so a batch of n symbols makes n - 1
    pauses. *)
Theorem batch_requests_and_pauses
    (respond : string -> string + StockScraper.Page) (stamp : string)
    (symbols : list string) :
  let log :=
    (StockScraper.scrape_multiple_stocks Logged.World (Logged.http_get respond)
       (Logged.clock stamp) Logged.pause symbols []).2 in
  log = Logged.batch_log symbols /\
  Logged.requested log = symbols /\
  Logged.sleeps log = (length symbols - 1)%nat.
Proof.
  intros log.
  assert (log = Logged.batch_log symbols) as ->.
  { subst log. unfold StockScraper.scrape_multiple_stocks.
    pose proof (scrape_loop_log respond stamp symbols [] []) as Hl.
    destruct (StockScraper.scrape_loop Logged.World (Logged.http_get respond)
                (Logged.clock stamp) Logged.pause symbols [] []) as [all w1].
    cbn in Hl. subst w1. by destruct all. }
  split; [done|]. split; [apply requested_batch_log|apply sleeps_batch_log].
Qed.

(** ** The symbols typed by the user *)

Section SplitFacts.

Import PyText.

Lemma split_nonempty (c : ascii) (s : string) : split c s <> [].
Proof.
  induction s as [|a r IH]; [done|]. cbn. destruct (Ascii.eqb a c); [done|].
  by destruct (split c r).
Qed.


Lemma split_without (c : ascii) (s : string) :
  Py.contains c s = false -> split c s = [s].
Proof.
  induction s as [|a r IH]; [done|]. cbn. intros [Ha Hr]%orb_false_iff.
  by rewrite Ha, (IH Hr).
Qed.

Lemma split_single (c : ascii) (s x : string) :
  split c s = [x] -> x = s /\ Py.contains c s = false.
Proof.
  revert x. induction s as [|a r IH]; intros x; cbn.
  - by intros [= <-].
  - destruct (Ascii.eqb a c) eqn:Ha.
    + intros [= _ H]. by apply split_nonempty in H.
    + pose proof (split_nonempty c r) as Hne.
      destruct (split c r) as [|y [|z l]] eqn:Hr; [done| |done].
      intros [= <-]. destruct (IH y eq_refl) as [-> Hno]. split; [done|].
      cbn [Py.contains]. by rewrite Hno.
Qed.

Lemma split_pieces (c : ascii) (s : string) :
  Forall (fun piece => Py.contains c piece = false) (split c s).
Proof.
  induction s as [|a r IH]; [by repeat constructor|]. cbn.
  destruct (Ascii.eqb a c) eqn:Ha; [by constructor|].
  destruct (split c r) as [|piece pieces]; [by repeat constructor; cbn; rewrite Ha|].
  apply Forall_cons in IH as [Hp Hps]. constructor; [|done]. cbn. by rewrite Ha.
Qed.

Lemma contains_app (c : ascii) (s t : string) :
  Py.contains c (s ++ t) = Py.contains c s || Py.contains c t.
Proof.
  induction s as [|a r IH]; [done|].
  change (Py.contains c (String a (r ++ t)) = Py.contains c (String a r) || Py.contains c t).
  cbn [Py.contains]. by rewrite IH, orb_assoc.
Qed.

Lemma split_app (c : ascii) (x r : string) :
  Py.contains c x = false -> split c (x ++ String c r) = x :: split c r.
Proof.
  induction x as [|a x IH].
  - intros _. change (split c (String c r) = "" :: split c r). cbn.
    by rewrite Ascii.eqb_refl.
  - cbn [Py.contains]. intros [Ha Hx]%orb_false_iff.
    change (split c (String a (x ++ String c r)) = String a x :: split c r).
    cbn [split]. by rewrite Ha, (IH Hx).
Qed.

(** The left blanks of a text are those of its first piece. *)
Lemma split_lstrip (p : ascii -> bool) (c : ascii) (s : string) :
  p c = false ->
  split c (Py.lstrip_by p s) =
    match split c s with
    | piece :: pieces => Py.lstrip_by p piece :: pieces
    | [] => []
    end.
Proof.
  intros Hc. induction s as [|a r IH]; [done|]. cbn [Py.lstrip_by].
  destruct (p a) eqn:Ha.
  - assert (Ascii.eqb a c = false) as Hac.
    { destruct (Ascii.eqb_spec a c) as [->|]; [congruence|done]. }
    rewrite IH. cbn [split]. rewrite Hac. pose proof (split_nonempty c r).
    destruct (split c r); [done|]. cbn. by rewrite Ha.
  - cbn [split]. destruct (Ascii.eqb a c); [done|]. pose proof (split_nonempty c r).
    destruct (split c r); [done|]. cbn. by rewrite Ha.
Qed.

(** The right blanks of a text are those of its last piece. *)
Lemma split_rstrip (p : ascii -> bool) (c : ascii) (s : string) :
  p c = false ->
  split c (Py.rstrip_by p s) = map_last (Py.rstrip_by p) (split c s).
Proof.
  intros Hc. induction s as [|a r IH]; [done|].
  pose proof (split_nonempty c r) as Hne.
  destruct (Ascii.eqb a c) eqn:Hac.
  - apply Ascii.eqb_eq in Hac as ->.
    assert (Py.rstrip_by p (String c r) = String c (Py.rstrip_by p r)) as ->.
    { cbn. destruct (Py.rstrip_by p r); by rewrite ?Hc. }
    cbn [split]. rewrite Ascii.eqb_refl, IH.
    destruct (split c r) as [|x rest]; [done|]. done.
  - cbn [split]. rewrite Hac. destruct (split c r) as [|x [|y rest]] eqn:Hr; [done| |].
    + destruct (split_single c r x Hr) as [-> Hno]. cbn [map_last].
      apply split_without.
      destruct (Py.contains c (Py.rstrip_by p (String a r))) eqn:Hcon; [|done].
      apply contains_rstrip_true in Hcon. cbn in Hcon. by rewrite Hac, Hno in Hcon.
    + cbn [map_last] in IH |- *.
      destruct (Py.rstrip_by p r) as [|b t] eqn:Ht; [cbn in IH; by destruct rest|].
      assert (Py.rstrip_by p (String a r) = String a (String b t)) as ->.
      { cbn [Py.rstrip_by]. by rewrite Ht. }
      cbn [split]. rewrite Hac. cbn [split] in IH. rewrite IH. done.
Qed.

Lemma map_map_last {A B : Type} (f : A -> B) (g : A -> A) (l : list A) :
  (forall x, f (g x) = f x) -> map f (map_last g l) = map f l.
Proof.
  intros H. induction l as [|x [|y l] IH]; [done| |].
  - cbn. by rewrite H.
  - change (map f (x :: map_last g (y :: l)) = map f (x :: y :: l)). cbn [map].
    by rewrite IH.
Qed.

End SplitFacts.

Section SymbolFacts.

Import PyText StockScraperApp.

Lemma string_append_assoc (s t u : string) : ((s ++ t) ++ u = s ++ (t ++ u))%string.
Proof.
  induction s as [|a s IH]; [done|].
  change (String a ((s ++ t) ++ u) = String a (s ++ (t ++ u)))%string. by rewrite IH.
Qed.

Lemma lstrip_by_idem (p : ascii -> bool) (s : string) :
  Py.lstrip_by p (Py.lstrip_by p s) = Py.lstrip_by p s.
Proof.
  pose proof (lstrip_by_head p s) as H. destruct (Py.lstrip_by p s) as [|a r]; [done|].
  cbn. by rewrite H.
Qed.

Lemma lstrip_rstrip_comm (p : ascii -> bool) (s : string) :
  Py.lstrip_by p (Py.rstrip_by p s) = Py.rstrip_by p (Py.lstrip_by p s).
Proof.
  induction s as [|a r IH]; [done|]. destruct (p a) eqn:Ha.
  - cbn [Py.lstrip_by Py.rstrip_by]. rewrite Ha, <- IH.
    destruct (Py.rstrip_by p r) as [|b t]; [done|]. cbn [Py.lstrip_by]. by rewrite Ha.
  - cbn [Py.lstrip_by]. rewrite Ha.
    destruct (rstrip_by_keeps_head p a r Ha) as [r' ->]. cbn. by rewrite Ha.
Qed.

Lemma strip_lstrip (s : string) : Py.strip (Py.lstrip_by Py.is_space s) = Py.strip s.
Proof. unfold Py.strip. by rewrite lstrip_by_idem. Qed.

Lemma strip_rstrip (s : string) : Py.strip (Py.rstrip_by Py.is_space s) = Py.strip s.
Proof. unfold Py.strip. by rewrite lstrip_rstrip_comm, rstrip_by_idem. Qed.

Lemma map_str_lstrip (f : ascii -> ascii) (p : ascii -> bool) (s : string) :
  (forall a, p (f a) = p a) ->
  Py.map_str f (Py.lstrip_by p s) = Py.lstrip_by p (Py.map_str f s).
Proof.
  intros H. induction s as [|a r IH]; [done|]. cbn. rewrite H.
  by destruct (p a).
Qed.

Lemma map_str_rstrip (f : ascii -> ascii) (p : ascii -> bool) (s : string) :
  (forall a, p (f a) = p a) ->
  Py.map_str f (Py.rstrip_by p s) = Py.rstrip_by p (Py.map_str f s).
Proof.
  intros H. induction s as [|a r IH]; [done|]. cbn. rewrite <- IH, H.
  destruct (Py.rstrip_by p r); [by destruct (p a)|done].
Qed.

Lemma is_space_upper_char (a : ascii) : Py.is_space (Py.upper_char a) = Py.is_space a.
Proof. destruct a as [[] [] [] [] [] [] [] []]; vm_compute; reflexivity. Qed.

Lemma upper_char_idem (a : ascii) : Py.upper_char (Py.upper_char a) = Py.upper_char a.
Proof. destruct a as [[] [] [] [] [] [] [] []]; vm_compute; reflexivity. Qed.

Lemma upper_char_comma (a : ascii) : Ascii.eqb (Py.upper_char a) "," = Ascii.eqb a ",".
Proof. destruct a as [[] [] [] [] [] [] [] []]; vm_compute; reflexivity. Qed.

Lemma upper_strip (s : string) : Py.upper (Py.strip s) = Py.strip (Py.upper s).
Proof.
  unfold Py.upper, Py.strip.
  by rewrite map_str_rstrip, map_str_lstrip by apply is_space_upper_char.
Qed.

Lemma upper_idem (s : string) : Py.upper (Py.upper s) = Py.upper s.
Proof.
  unfold Py.upper. induction s as [|a r IH]; [done|]. cbn.
  by rewrite upper_char_idem, IH.
Qed.

Lemma contains_comma_upper (s : string) : Py.contains "," (Py.upper s) = Py.contains "," s.
Proof.
  unfold Py.upper. induction s as [|a r IH]; [done|]. cbn.
  by rewrite upper_char_comma, IH.
Qed.

(** A symbol as the program keeps it: no blank around it, no small
    letter, no comma. *)
Lemma normalised_symbol (piece : string) :
  Py.contains "," piece = false ->
  let symbol := Py.upper (Py.strip piece) in
  Py.strip symbol = symbol /\ Py.upper symbol = symbol /\ Py.contains "," symbol = false.
Proof.
  intros Hc symbol. subst symbol. split; [|split].
  - by rewrite upper_strip, strip_idem.
  - apply upper_idem.
  - by rewrite contains_comma_upper, contains_strip.
Qed.

Lemma symbols_of_nonempty_input (default : list string) (line : string) :
  Py.strip line <> "" ->
  symbols_of_input default line
    = map (fun s => Py.upper (Py.strip s)) (split "," (Py.strip line)).
Proof. unfold symbols_of_input. by destruct (Py.strip line). Qed.

(** The blanks around the line play no role in the symbols. *)
Lemma symbols_of_stripped (s : string) :
  map (fun s => Py.upper (Py.strip s)) (split "," (Py.strip s))
    = map (fun s => Py.upper (Py.strip s)) (split "," s).
Proof.
  unfold Py.strip at 2. rewrite split_rstrip by done.
  rewrite map_map_last by (intros x; by rewrite strip_rstrip).
  rewrite split_lstrip by done. pose proof (split_nonempty "," s).
  destruct (split "," s) as [|piece pieces]; [done|]. cbn. by rewrite strip_lstrip.
Qed.

Lemma split_join (symbols : list string) (pre : string) :
  Forall (fun s => Py.contains "," s = false) symbols ->
  Py.contains "," pre = false ->
  split "," (pre ++ join ", " symbols) =
    match symbols with
    | first :: rest => (pre ++ first)%string :: map (String " ") rest
    | [] => [pre]
    end.
Proof.
  revert pre. induction symbols as [|first [|next rest] IH]; intros pre Hall Hpre.
  - cbn. assert ((pre ++ "")%string = pre) as ->.
    { clear. induction pre as [|a pre IH]; [done|].
      change (String a (pre ++ "") = String a pre)%string. by rewrite IH. }
    by apply split_without.
  - cbn [join map]. apply split_without. rewrite contains_app, Hpre.
    by apply Forall_cons in Hall as [-> _].
  - apply Forall_cons in Hall as [Hfirst Hall].
    change (join ", " (first :: next :: rest))
      with (first ++ String "," (String " " "" ++ join ", " (next :: rest)))%string.
    rewrite <- string_append_assoc, split_app by (by rewrite contains_app, Hpre, Hfirst).
    rewrite IH by done. done.
Qed.

End SymbolFacts.



(** X27.  The symbols made of a line are printed as
    [', '.join(symbols)]; typing what was printed gives the same
    symbols again.  The default symbols of the configuration have the
    same property. *)
Theorem printed_symbols_parse_back (default : list string) (line : string) :
  Py.strip line <> "" ->
  let symbols := StockScraperApp.symbols_of_input default line in
  StockScraperApp.symbols_of_input default (PyText.join ", " symbols) = symbols /\
  StockScraperApp.symbols_of_input Config.DEFAULT_SYMBOLS
    (PyText.join ", " Config.DEFAULT_SYMBOLS) = Config.DEFAULT_SYMBOLS.
Proof.
  intros Hline symbols. split; [|vm_compute; reflexivity].
  assert (Forall (fun s => Py.strip s = s /\ Py.upper s = s /\ Py.contains "," s = false)
            symbols) as Hnorm.
  { subst symbols. rewrite symbols_of_nonempty_input by done.
    apply Forall_map. eapply Forall_impl; [apply split_pieces|].
    intros piece Hpiece. by apply normalised_symbol. }
  assert (symbols <> [] /\ symbols <> [""]) as [Hne Hne'].
  { subst symbols. rewrite symbols_of_nonempty_input by done.
    pose proof (split_nonempty "," (Py.strip line)) as Hs.
    destruct (PyText.split "," (Py.strip line)) as [|x [|y l]] eqn:Hx; [done| |done].
    split; [done|]. apply split_single in Hx as [-> _]. cbn.
    rewrite strip_idem. destruct (Py.strip line); done. }
  assert (Forall (fun s => Py.contains "," s = false) symbols) as Hcomma.
  { eapply Forall_impl; [exact Hnorm|]. by intros s (_ & _ & ?). }
  pose proof (split_join symbols "" Hcomma eq_refl) as Hsplit.
  change ("" ++ PyText.join ", " symbols)%string with (PyText.join ", " symbols) in Hsplit.
  assert (Py.strip (PyText.join ", " symbols) <> "") as Hprinted.
  { destruct symbols as [|first [|next rest]]; [done| |].
    - cbn [PyText.join]. apply Forall_cons in Hnorm as [(-> & _) _]. by intros ->.
    - intros Hempty.
      assert (Py.contains "," (Py.strip (PyText.join ", " (first :: next :: rest))) = true)
        as Hc; [|by rewrite Hempty in Hc].
      rewrite contains_strip by done.
      change (PyText.join ", " (first :: next :: rest))
        with (first ++ String "," (String " " "" ++ PyText.join ", " (next :: rest)))%string.
      rewrite contains_app. cbn. apply orb_true_r. }
  rewrite symbols_of_nonempty_input by done.
  rewrite symbols_of_stripped, Hsplit.
  destruct symbols as [|first rest]; [done|]. cbn [map].
  apply Forall_cons in Hnorm as [(Hs & Hu & _) Hrest].
  change ("" ++ first)%string with first. rewrite Hs, Hu. f_equal.
  rewrite map_map. clear -Hrest. induction Hrest as [|s l (Hs & Hu & _) Hl IH]; [done|].
  cbn [map]. rewrite IH. f_equal.
  assert (Py.strip (String " " s) = Py.strip s) as -> by done. by rewrite Hs, Hu.
Qed.

Lemma printed_symbols_parse_back_witness :
  StockScraperApp.symbols_of_input [] "AAPL, , MSFT" = ["AAPL"; ""; "MSFT"].
Proof.
  exact (proj1 (printed_symbols_parse_back [] " aapl,,msft " ltac:(discriminate))).
Defined.

(** ** The distribution of the performance in [StockAnalyzer] *)

Section DistributionFacts.

Import Pandas StockAnalyzer.

Lemma mask_rows_count (n : nat) (mask : list bool) :
  length mask = n -> mask_rows n mask = count_true mask.
Proof.
  unfold mask_rows, count_true. revert n.
  induction mask as [|b mask IH]; intros n Hn; [by destruct n|].
  destruct n as [|n]; [done|]. cbn [replicate select_mask]. rewrite filter_cons.
  destruct b.
  - rewrite decide_True by done. cbn. f_equal. apply IH. by injection Hn.
  - rewrite decide_False by done. apply IH. by injection Hn.
Qed.

Lemma test_float_trichotomy (x : spec_float) :
  Float64.is_nan x = false ->
  (Nat.b2n (test_float above x) + Nat.b2n (test_float below x)
   + Nat.b2n (test_float equal x) = 1)%nat.
Proof. destruct x as [[]|[]| |[] m e]; cbn; done. Qed.

Lemma test_int_trichotomy (z : Z) :
  (Nat.b2n (test_int above z) + Nat.b2n (test_int below z)
   + Nat.b2n (test_int equal z) = 1)%nat.
Proof. by destruct z. Qed.

Lemma count_true_cons (b : bool) (mask : list bool) :
  count_true (b :: mask) = (Nat.b2n b + count_true mask)%nat.
Proof. unfold count_true. rewrite filter_cons. by destruct b. Qed.

(** The three masks of a column of numbers: each is as long as the
    column, and a cell is in one of them exactly when it is not
    missing. *)
Lemma three_masks (l : list pyval) :
  Forall (fun v => is_number_val v = true) l ->
  exists p n z,
    mapM (test_cell above) l = Ok p /\
    mapM (test_cell below) l = Ok n /\
    mapM (test_cell equal) l = Ok z /\
    length p = length l /\ length n = length l /\ length z = length l /\
    (count_true p + count_true n + count_true z
     = length (filter (fun v => isna v = false) l))%nat.
Proof.
  induction 1 as [|v l Hv Hl (p & n & z & Hp & Hn & Hz & Lp & Ln & Lz & Hsum)].
  - exists [], [], []. done.
  - cbn [mapM]. rewrite Hp, Hn, Hz, filter_cons. unfold test_cell, mbind, result_bind.
    destruct (isna v) eqn:Hna.
    + exists (false :: p), (false :: n), (false :: z).
      rewrite decide_False by done. rewrite !count_true_cons.
      cbn [length Nat.b2n]. repeat split; try done; lia.
    + rewrite decide_True by done. destruct v as [|x|i|s|t]; try done.
      * exists (test_float above x :: p), (test_float below x :: n),
          (test_float equal x :: z).
        pose proof (test_float_trichotomy x Hna). rewrite !count_true_cons.
        cbn [length]. repeat split; try done; lia.
      * exists (test_int above i :: p), (test_int below i :: n), (test_int equal i :: z).
        pose proof (test_int_trichotomy i). rewrite !count_true_cons.
        cbn [length]. repeat split; try done; lia.
Qed.

End DistributionFacts.

(** X28.  On a float or integer column change_percent, the
    counts of the positive, of the negative and of the neutral stocks
    of [analyze_performance] add up to the number of rows whose change
    is not missing: a stock without change is counted in none of the
    three classes, and an infinite change is counted by its sign.  On
    a column without missing cell they add up to the number of rows. *)
Theorem performance_counts_skip_the_missing (df : Pandas.DataFrame) (s : Pandas.Series) :
  Pandas.wf df ->
  Pandas.columns df !! "change_percent" = Some s ->
  Pandas.dtype_of s = Pandas.Float64 \/ Pandas.dtype_of s = Pandas.Int64 ->
  Forall (fun v => Pandas.is_number_val v = true) (Pandas.values s) ->
  exists p n z,
    StockAnalyzer.positive_stocks df = Ok p /\
    StockAnalyzer.negative_stocks df = Ok n /\
    StockAnalyzer.neutral_stocks df = Ok z /\
    (p + n + z = length (filter (fun v => isna v = false) (Pandas.values s)))%nat /\
    (p + n + z <= Pandas.nrows df)%nat /\
    (Forall (fun v => isna v = false) (Pandas.values s) ->
     (p + n + z = Pandas.nrows df)%nat).
Proof.
  intros Hwf Hs Hty Hcells.
  destruct (three_masks _ Hcells) as (p & n & z & Hp & Hn & Hz & Lp & Ln & Lz & Hsum).
  pose proof (Hwf _ _ Hs) as Hlen.
  assert (forall op mask,
            Pandas.mapM (StockAnalyzer.test_cell op) (Pandas.values s) = Ok mask ->
            length mask = length (Pandas.values s) ->
            StockAnalyzer.count_stocks op df = Ok (StockAnalyzer.count_true mask)) as Hcount.
  { intros op mask Hmask Lmask. unfold StockAnalyzer.count_stocks, Pandas.get_col.
    rewrite Hs. cbn. unfold StockAnalyzer.test_column.
    assert (match Pandas.dtype_of s, op with
            | Pandas.Datetime64, (StockAnalyzer.above | StockAnalyzer.below) => Raise TypeError
            | _, _ => Pandas.mapM (StockAnalyzer.test_cell op) (Pandas.values s)
            end = Ok mask) as ->.
    { destruct Hty as [-> | ->]; exact Hmask. }
    cbn. f_equal. apply mask_rows_count. congruence. }
  exists (StockAnalyzer.count_true p), (StockAnalyzer.count_true n),
    (StockAnalyzer.count_true z).
  split; [by apply Hcount|]. split; [by apply Hcount|]. split; [by apply Hcount|].
  split; [exact Hsum|].
  pose proof (length_filter (fun v => isna v = false) (Pandas.values s)) as Hle.
  split; [lia|].
  intros Hall. rewrite Hsum, <- Hlen. f_equal.
  clear -Hall. induction Hall as [|v l Hv Hl IH]; [done|].
  rewrite filter_cons, decide_True by done. by rewrite IH.
Qed.

Lemma performance_counts_skip_the_missing_witness :
  exists p n z,
    StockAnalyzer.positive_stocks Examples.processed = Ok p /\
    StockAnalyzer.negative_stocks Examples.processed = Ok n /\
    StockAnalyzer.neutral_stocks Examples.processed = Ok z /\
    (p + n + z <= Pandas.nrows Examples.processed)%nat.
Proof.
  destruct (performance_counts_skip_the_missing Examples.processed Stages.processed_change
              wf_processed processed_change_percent (or_introl eq_refl)
              processed_change_cells)
    as (p & n & z & Hp & Hn & Hz & _ & Hle & _).
  exists p, n, z. repeat split; assumption.
Defined.

Example performance_counts_example :
  StockAnalyzer.positive_stocks Examples.processed = Ok 1%nat /\
  StockAnalyzer.negative_stocks Examples.processed = Ok 1%nat /\
  StockAnalyzer.neutral_stocks Examples.processed = Ok 2%nat.
Proof. vm_compute. repeat split; reflexivity. Qed.

